(** * aws-api client runtime: request dispatch, endpoint selection, error
    classification

    A shallow embedding of the hand-written client, [client/client.ts]:
    [BaseApiFactory], the signing fetcher built by
    [buildServiceClient], the three protocol clients layered on
    [BaseServiceClient.performRequest], [handleErrorResponse] and
    [getRootDomain].

    Conventions.
    - A JavaScript string is a [string], read as its sequence of code units.
    - [undefined]/[null] are [None]; [a ?? b] is a match on the option,
      whereas [a || b], [!a] and [if (a)] go through JavaScript truthiness
      (the empty string is falsy).
    - An [async] function is a computation in the monad [M]: it threads the
      outside world, the console and the count of response bodies consumed,
      and ends in a value or in a thrown exception.
    - Everything imported from outside the file (the fetch API, the signer,
      the XML reader, [JSON], [URL], ...) is a member of the class
      [Platform]. *)

From Stdlib Require Import String Ascii ZArith List Bool Lia DecimalString.
From Stdlib Require Decimal DecimalFacts DecimalPos DecimalN DecimalZ.
Import ListNotations.
Open Scope string_scope.
Open Scope Z_scope.

(* ================================================================== *)
(** ** JavaScript strings *)

(** [s.slice(n)] for a non-negative [n]. *)
Fixpoint slice (n : nat) (s : string) : string :=
  match n, s with
  | O, _ => s
  | S _, EmptyString => EmptyString
  | S n', String _ s' => slice n' s'
  end.

(** [s.startsWith(p)]. *)
Definition startsWith (p s : string) : bool := String.prefix p s.

(** [s.includes(p)]. *)
Fixpoint includes (p s : string) : bool :=
  startsWith p s ||
  match s with
  | EmptyString => false
  | String _ s' => includes p s'
  end.

(** [s.endsWith(p)]. *)
Fixpoint endsWith (p s : string) : bool :=
  String.eqb p s ||
  match s with
  | EmptyString => false
  | String _ s' => endsWith p s'
  end.

(** The character class [[?/]]. *)
Definition separator (c : ascii) : bool := (Ascii.eqb c "?" || Ascii.eqb c "/")%bool.

(** The first element of [s.split(/[?/]/)]: the code units of [s] before the
    first ['?'] or ['/']. *)
Fixpoint split_first (s : string) : string :=
  match s with
  | EmptyString => EmptyString
  | String c s' => if separator c then EmptyString else String c (split_first s')
  end.

(** [s.replace(/\.amazonaws\.com$/, '')]: the suffix is removed when [s] ends
    with it. *)
Definition strip_amazonaws_suffix (s : string) : string :=
  if endsWith ".amazonaws.com" s
  then substring 0 (String.length s - String.length ".amazonaws.com") s
  else s.

(** Truthiness of a string. *)
Definition truthy_string (s : string) : bool := negb (String.eqb s "").

(** Truthiness of an optional string: [undefined] and [''] are falsy. *)
Definition truthy (o : option string) : bool :=
  match o with
  | Some s => truthy_string s
  | None => false
  end.

(** [a ?? b]. *)
Definition nullish {A : Type} (a : option A) (b : A) : A :=
  match a with
  | Some x => x
  | None => b
  end.

(** A template literal prints an integral number in decimal. *)
Definition string_of_Z (z : Z) : string := NilZero.string_of_int (Z.to_int z).

(** A template literal prints a missing value as ["null"]. *)
Definition template_nullable (o : option string) : string := nullish o "null".

(* ================================================================== *)
(** ** JavaScript values read from JSON *)

#[warnings="-register-all"]
Inductive JsValue : Type :=
| JNull
| JBool (b : bool)
| JNum (n : Z)
| JStr (s : string)
| JArr (items : list JsValue)
| JObj (fields : list (string * JsValue)).

Definition js_truthy (v : JsValue) : bool :=
  match v with
  | JNull => false
  | JBool b => b
  | JNum n => negb (n =? 0)
  | JStr s => truthy_string s
  | JArr _ => true
  | JObj _ => true
  end.

(** Truthiness of the result of a property read ([None] is [undefined]). *)
Definition js_truthy_opt (o : option JsValue) : bool :=
  match o with
  | Some v => js_truthy v
  | None => false
  end.

Fixpoint assoc {A : Type} (k : string) (l : list (string * A)) : option A :=
  match l with
  | [] => None
  | (k', v) :: l' => if String.eqb k k' then Some v else assoc k l'
  end.

(* ================================================================== *)
(** ** HTTP data *)

Inductive HttpMethod := POST | GET | HEAD | DELETE | PUT | PATCH.

Definition HttpMethod_eqb (a b : HttpMethod) : bool :=
  match a, b with
  | POST, POST | GET, GET | HEAD, HEAD
  | DELETE, DELETE | PUT, PUT | PATCH, PATCH => true
  | _, _ => false
  end.

(** The header list of a [Headers] object, names in lower case. *)
Definition Headers := list (string * string).

Definition Headers_append (h : Headers) (name value : string) : Headers :=
  (h ++ [(name, value)])%list.

(** [headers.get(name)]: the values stored under the name, joined. *)
Definition Headers_get (h : Headers) (name : string) : option string :=
  match filter (fun kv => String.eqb (fst kv) name) h with
  | [] => None
  | kv :: rest =>
      Some (fold_left (fun acc x => acc ++ ", " ++ snd x) rest (snd kv))
  end.

Definition URLSearchParams := list (string * string).

(** [params.append(k, v)]. *)
Definition URLSearchParams_append (p : URLSearchParams) (k v : string)
  : URLSearchParams := (p ++ [(k, v)])%list.

Fixpoint replace_first (k v : string) (p : URLSearchParams) : URLSearchParams :=
  match p with
  | [] => []
  | (k', v') :: p' =>
      if String.eqb k k'
      then (k, v) :: filter (fun kv => negb (String.eqb (fst kv) k)) p'
      else (k', v') :: replace_first k v p'
  end.

(** [params.set(k, v)]: the first entry named [k] takes the value and the
    others are dropped; without one, the pair is appended. *)
Definition URLSearchParams_set (p : URLSearchParams) (k v : string)
  : URLSearchParams :=
  if existsb (fun kv => String.eqb (fst kv) k) p
  then replace_first k v p
  else URLSearchParams_append p k v.

Inductive RequestRedirect := follow | manual.

Definition AbortSignal := nat.

Record Request := mkRequest {
  req_url : string;
  req_method : HttpMethod;
  req_headers : Headers;
  req_body : option (list Byte.byte);
  req_redirect : RequestRedirect;
  req_signal : option AbortSignal
}.

Record Response := mkResponse {
  status : Z;
  statusText : string;
  resp_headers : Headers;
  resp_body : string
}.

(* ================================================================== *)
(** ** Exceptions and results *)

Inductive exn : Type :=
| Error (message : string)
    (** [new Error(message)], thrown by this module *)
| AwsServiceError (response : Response) (error : JsValue)
                  (requestId : option JsValue)
    (** [new AwsServiceError(response, error, requestId)] *)
| Foreign (name message : string).
    (** whatever a collaborator or a builtin throws *)

Inductive Result (A : Type) : Type :=
| Ok (a : A)
| Throw (e : exn).
Arguments Ok {A} a.
Arguments Throw {A} e.

(** The outcome of a call into the platform. *)
Inductive PlatformResult (A : Type) : Type :=
| Value (a : A)
| Raise (name message : string).
Arguments Value {A} a.
Arguments Raise {A} name message.

Record Credentials := mkCredentials {
  awsAccessKeyId : string;
  awsSecretKey : string;
  sessionToken : option string;
  cred_region : option string;
  expiresAt : option Z
}.

(* ================================================================== *)
(** ** The platform

    What [client.ts] imports or finds in the global scope.  The XML
    document abstraction of [encoding/xml.ts] is used through the reader
    and the accessors listed here. *)

Class Platform := {
  World : Type;
  XmlNode : Type;
  (** [fetch(request)] *)
  fetch : Request -> World -> PlatformResult Response * World;
  (** [new AWSSignerV4(region, credentials).sign(signingName, fullUrl, request)] *)
  AWSSignerV4_sign :
    string -> Credentials -> string -> string -> Request ->
    World -> PlatformResult Request * World;
  (** [Deno.env.get(name)] *)
  Deno_env_get : string -> World -> PlatformResult (option string);
  (** [new URL(path, base).toString()] *)
  new_URL : string -> string -> PlatformResult string;
  (** [params.toString()] *)
  URLSearchParams_toString : URLSearchParams -> string;
  (** [new TextEncoder().encode(s)] *)
  TextEncoder_encode : string -> list Byte.byte;
  (** [JSON.stringify(v)] *)
  JSON_stringify : JsValue -> string;
  (** the parser behind [response.json()] *)
  JSON_parse : string -> PlatformResult JsValue;
  (** [readXmlResult(text)] *)
  readXmlResult : string -> PlatformResult XmlNode;
  (** [node.name] *)
  xml_name : XmlNode -> string;
  (** [node.content] *)
  xml_content : XmlNode -> option string;
  (** [node.first(name)] *)
  xml_first : XmlNode -> string -> option XmlNode;
  (** [node.getList(...path)] *)
  xml_getList : XmlNode -> list string -> list XmlNode;
  (** [node.strings({required, optional})] *)
  xml_strings :
    XmlNode -> list string -> list string ->
    PlatformResult (list (string * string));
  (** [stringify(node)] *)
  xml_stringify : XmlNode -> string;
  (** [getRequestId(headers)] of [common.ts] *)
  getRequestId : Headers -> option string
}.

(** An argument of [console.log]. *)
Inductive LogArg : Type :=
| LogStr (s : string)
| LogResponse (r : Response)
| LogValue (v : JsValue).

Section Runtime.
Context {P : Platform}.

(** What a call can observe and change. *)
Record State := mkState {
  world : World;
  console : list (list LogArg);
  bodyReads : nat
}.

(** An [async] computation. *)
Definition M (A : Type) : Type := State -> Result A * State.

Definition ret {A : Type} (a : A) : M A := fun s => (Ok a, s).

Definition throw {A : Type} (e : exn) : M A := fun s => (Throw e, s).

Definition bind {A B : Type} (m : M A) (k : A -> M B) : M B :=
  fun s =>
    match m s with
    | (Ok a, s') => k a s'
    | (Throw e, s') => (Throw e, s')
    end.

(** [try { m } catch (err) { h err }]. *)
Definition try_catch {A : Type} (m : M A) (h : exn -> M A) : M A :=
  fun s =>
    match m s with
    | (Ok a, s') => (Ok a, s')
    | (Throw e, s') => h e s'
    end.

Definition of_platform {A : Type} (r : PlatformResult A) : Result A :=
  match r with
  | Value a => Ok a
  | Raise n m => Throw (Foreign n m)
  end.

(** A platform call that does not change the world. *)
Definition pure_call {A : Type} (r : PlatformResult A) : M A :=
  fun s => (of_platform r, s).

(** A platform call on the world. *)
Definition world_call {A : Type} (f : World -> PlatformResult A * World) : M A :=
  fun s =>
    let (r, w) := f (world s) in
    (of_platform r, mkState w (console s) (bodyReads s)).

(** [console.log(...args)]. *)
Definition console_log (args : list LogArg) : M unit :=
  fun s => (Ok tt, mkState (world s) (console s ++ [args])%list (bodyReads s)).

(** [await response.text()]. *)
Definition Response_text (r : Response) : M string :=
  fun s => (Ok (resp_body r), mkState (world s) (console s) (S (bodyReads s))).

(** [await response.json()]. *)
Definition Response_json (r : Response) : M JsValue :=
  bind (Response_text r) (fun text => pure_call (JSON_parse text)).

End Runtime.

Declare Scope js_scope.
Delimit Scope js_scope with js.
Notation "x <- m ;; k" := (bind m (fun x => k))
  (at level 61, m at next level, right associativity) : js_scope.
Notation "m ;;; k" := (bind m (fun _ => k))
  (at level 61, right associativity) : js_scope.
Open Scope js_scope.

(* ================================================================== *)
(** ** Service metadata and per-call configuration *)

Inductive Protocol := rest_xml | query | ec2 | json | rest_json.

Inductive SignatureVersion := v2 | v4 | s3 | s3v4.

(** The fields of [ApiMetadata] that the client reads. *)
Module ApiMetadata.
Record t := mk {
  apiVersion : string;
  endpointPrefix : string;
  jsonVersion : option string;
  globalEndpoint : option string;
  protocol : Protocol;
  serviceId : string;
  signatureVersion : SignatureVersion;
  signingName : option string;
  targetPrefix : option string
}.
End ApiMetadata.

(** The body of a call: form parameters, raw bytes, or any other value (a
    string or a JSON value); [None] in [ApiRequestConfig.body] is
    [undefined] or [null]. *)
Inductive Body : Type :=
| BodyParams (p : URLSearchParams)
| BodyBytes (b : list Byte.byte)
| BodyValue (v : JsValue).

(** [if (config.body)] on a body that is present. *)
Definition Body_truthy (b : Body) : bool :=
  match b with
  | BodyParams _ => true
  | BodyBytes _ => true
  | BodyValue v => js_truthy v
  end.

Module ApiRequestConfig.
Record t := mk {
  action : string;
  method : option HttpMethod;
  requestUri : option string;
  responseCode : option Z;
  hostPrefix : option string;
  skipSigning : bool;
  headers : option Headers;
  query : option URLSearchParams;
  body : option Body;
  abortSignal : option AbortSignal;
  region : option string
}.
End ApiRequestConfig.

Module FetchOpts.
Record t := mk {
  urlPath : string;
  hostPrefix : option string;
  skipSigning : bool;
  region : option string
}.
End FetchOpts.

(* ================================================================== *)
(** ** Partition domains *)

Definition dualStackEc2Regions : list string :=
  [ "us-east-1"; "us-east-2"; "us-west-2";
    "eu-west-1"; "ap-south-1"; "sa-east-1" ].

(** [set.has(x)]. *)
Definition Set_has (set : list string) (x : string) : bool :=
  existsb (String.eqb x) set.

(** [getRootDomain(serviceId, region = 'us-east-1')]. *)
Definition getRootDomain (serviceId : string) (region : option string) : string :=
  let region := nullish region "us-east-1" in
  if (String.eqb serviceId "EC2" && Set_has dualStackEc2Regions region)%bool
  then "aws"
  else if startsWith "cn-" region then "amazonaws.com.cn"
  else if startsWith "us-iso-" region then "c2s.ic.gov"
  else if startsWith "us-isob-" region then "sc2s.sgov.gov"
  else "amazonaws.com".

(** The endpoint assembled by both branches of the signing fetcher:
    [https://${hostPrefix ?? ''}${baseDomain === 'aws' ? 'api.' : ''}${host}.${baseDomain}]. *)
Definition endpoint_template (hostPrefix : option string)
           (baseDomain host : string) : string :=
  "https://" ++ nullish hostPrefix ""
  ++ (if String.eqb baseDomain "aws" then "api." else "")
  ++ host ++ "." ++ baseDomain.

(** A credentials source: [getCredentials()] may consult and change the
    world (a refresh), and may fail. *)
Record CredentialsProvider {P : Platform} := mkProvider {
  getCredentials : World -> PlatformResult Credentials * World
}.
Arguments mkProvider {P} getCredentials.

(** The options bag of the factory's constructor. *)
Module FactoryOpts.
Record t {P : Platform} := mk {
  credentialProvider : option CredentialsProvider;
  credentials : option Credentials;
  region : option string;
  fixedEndpoint : option string;
  baseDomain : option string
}.
Arguments mk {P} _ _ _ _ _.
End FactoryOpts.

Section Client.
Context {P : Platform}.

Definition SigningFetcher : Type := Request -> FetchOpts.t -> M Response.

(* ================================================================== *)
(** ** BaseApiFactory *)

(** The private fields [#credentials], [#region], [#fixedEndpoint] and
    [#baseDomain]. *)
Record BaseApiFactory := mkFactory {
  f_credentials : CredentialsProvider;
  f_region : option string;
  f_fixedEndpoint : option string;
  f_baseDomain : option string
}.

Definition missing_credentials_message : string :=
  "No credentials or credential source provided -- you must provide one to use this class directly".

Definition bad_fixedEndpoint_message : string :=
  "If provided, fixedEndpoint must be a full URL including https:// or http://".

Definition missing_region_message : string :=
  "No region provided, try setting AWS_REGION or passing a region when constructing your client".

Definition throwMissingRegion {A : Type} : M A :=
  throw (Error missing_region_message).

(** The [try] block of the constructor:
[[
try { this.#region = opts.region ?? Deno.env.get("AWS_REGION"); }
catch (err) { if (err.name !== 'PermissionDenied') throw err; }
]] *)
Definition configured_region (opts : FactoryOpts.t) : M (option string) :=
  try_catch
    match FactoryOpts.region opts with
    | Some r => ret (Some r)
    | None => world_call (fun w => (Deno_env_get "AWS_REGION" w, w))
    end
    (fun err =>
       match err with
       | Foreign "PermissionDenied" _ => ret None
       | _ => throw err
       end).

(** The provider that wraps fixed credentials:
    [{ getCredentials: () => Promise.resolve(credentials) }]. *)
Definition fixed_provider (credentials : Credentials) : CredentialsProvider :=
  mkProvider (fun w => (Value credentials, w)).

(** The first statement of the constructor: the credentials source. *)
Definition credentials_source (opts : FactoryOpts.t) : M CredentialsProvider :=
  match FactoryOpts.credentials opts with
  | Some credentials => ret (fixed_provider credentials)
  | None =>
      match FactoryOpts.credentialProvider opts with
      | Some provider => ret provider
      | None => throw (Error missing_credentials_message)
      end
  end.

(** [new BaseApiFactory(opts)]. *)
Definition BaseApiFactory_new (opts : FactoryOpts.t) : M BaseApiFactory :=
  creds <- credentials_source opts ;;
  region <- configured_region opts ;;
  match FactoryOpts.fixedEndpoint opts with
  | Some fixedEndpoint =>
      if negb (includes "://" fixedEndpoint)
      then throw (Error bad_fixedEndpoint_message)
      else ret (mkFactory creds region (Some fixedEndpoint) None)
  | None =>
      match FactoryOpts.baseDomain opts with
      | Some baseDomain => ret (mkFactory creds region None (Some baseDomain))
      | None => ret (mkFactory creds region None None)
      end
  end.

(* ================================================================== *)
(** ** The signing fetcher of [buildServiceClient] *)

(** [apiMetadata.globalEndpoint?.replace(/\.amazonaws\.com$/, '')]. *)
Definition globalEndpointPrefix (apiMetadata : ApiMetadata.t) : option string :=
  option_map strip_amazonaws_suffix (ApiMetadata.globalEndpoint apiMetadata).

(** "Try dual-stacking sometimes". *)
Definition endpointPrefix (apiMetadata : ApiMetadata.t) : string :=
  if String.eqb (ApiMetadata.serviceId apiMetadata) "S3" then "s3.dualstack"
  else ApiMetadata.endpointPrefix apiMetadata.

(** The first block of the fetcher ("QUIRK: try using host routing for S3
    buckets when helpful"); it assigns [opts.hostPrefix] and
    [opts.urlPath]. *)
Definition host_routing (this : BaseApiFactory) (apiMetadata : ApiMetadata.t)
           (opts : FetchOpts.t) : FetchOpts.t :=
  if (String.eqb (ApiMetadata.serviceId apiMetadata) "S3"
      && truthy_string (FetchOpts.urlPath opts)
      && negb (truthy (FetchOpts.hostPrefix opts))
      && negb (truthy (f_fixedEndpoint this)))%bool
  then
    let bucketName := split_first (slice 1 (FetchOpts.urlPath opts)) in
    if ((0 <? String.length bucketName)%nat && negb (includes "." bucketName))%bool
    then
      let path := slice (String.length bucketName + 1) (FetchOpts.urlPath opts) in
      FetchOpts.mk
        (if startsWith "/" path then path else "/" ++ path)
        (Some (bucketName ++ "."))
        (FetchOpts.skipSigning opts)
        (FetchOpts.region opts)
    else opts
  else opts.

(** [await this.#credentials.getCredentials().then(x => x.region, () => undefined)]. *)
Definition credentials_region_if_any (this : BaseApiFactory) : M (option string) :=
  fun s =>
    let (r, w) := getCredentials (f_credentials this) (world s) in
    (Ok match r with
        | Value x => cred_region x
        | Raise _ _ => None
        end,
     mkState w (console s) (bodyReads s)).

(** The region of an unsigned call: "Try to find the region without trying
    too hard". *)
Definition unsigned_region (this : BaseApiFactory) (opts : FetchOpts.t)
  : M (option string) :=
  match FetchOpts.region opts with
  | Some r => ret (Some r)
  | None =>
      match f_region this with
      | Some r => ret (Some r)
      | None => credentials_region_if_any this
      end
  end.

(** The signing region of a signed call:
[[
opts.region ?? (apiMetadata.globalEndpoint ? 'us-east-1'
  : (this.#region ?? credentials.region ?? throwMissingRegion()))
]] *)
Definition signing_region (this : BaseApiFactory) (apiMetadata : ApiMetadata.t)
           (opts : FetchOpts.t) (credentials : Credentials) : M string :=
  match FetchOpts.region opts with
  | Some r => ret r
  | None =>
      if truthy (ApiMetadata.globalEndpoint apiMetadata) then ret "us-east-1"
      else match f_region this with
           | Some r => ret r
           | None =>
               match cred_region credentials with
               | Some r => ret r
               | None => throwMissingRegion
               end
           end
  end.

(** [this.#baseDomain ?? getRootDomain(apiMetadata.serviceId, region)]. *)
Definition baseDomain_for (this : BaseApiFactory) (apiMetadata : ApiMetadata.t)
           (region : option string) : string :=
  nullish (f_baseDomain this)
          (getRootDomain (ApiMetadata.serviceId apiMetadata) region).

(** "Assemble full URL", signed branch:
[[
this.#fixedEndpoint || `https://${opts.hostPrefix ?? ''}${baseDomain === 'aws' ? 'api.' : ''}${
  globalEndpointPrefix || `${endpointPrefix}.${region}`}.${baseDomain}`
]] *)
Definition signed_endpoint (this : BaseApiFactory) (apiMetadata : ApiMetadata.t)
           (opts : FetchOpts.t) (region baseDomain : string) : string :=
  if truthy (f_fixedEndpoint this)
  then nullish (f_fixedEndpoint this) ""
  else endpoint_template
         (FetchOpts.hostPrefix opts) baseDomain
         (if truthy (globalEndpointPrefix apiMetadata)
          then nullish (globalEndpointPrefix apiMetadata) ""
          else endpointPrefix apiMetadata ++ "." ++ region).

(** The closure [signingFetcher] of [buildServiceClient]: host routing,
    then either the unsigned branch ([opts.skipSigning]) or the resolution
    of credentials and region, signing and fetching. *)
Definition signingFetcher (this : BaseApiFactory) (apiMetadata : ApiMetadata.t)
  : SigningFetcher :=
  fun request opts =>
    let opts := host_routing this apiMetadata opts in
    if FetchOpts.skipSigning opts then
      region <- unsigned_region this opts ;;
      let baseDomain := baseDomain_for this apiMetadata region in
      endpoint <-
        match f_fixedEndpoint this with
        | Some fixed => ret fixed
        | None =>
            host <-
              (if truthy (globalEndpointPrefix apiMetadata)
               then ret (nullish (globalEndpointPrefix apiMetadata) "")
               else match region with
                    | Some r => ret (endpointPrefix apiMetadata ++ "." ++ r)
                    | None => throwMissingRegion
                    end) ;;
            ret (endpoint_template (FetchOpts.hostPrefix opts) baseDomain host)
        end ;;
      url <- pure_call (new_URL (FetchOpts.urlPath opts) endpoint) ;;
      world_call
        (fetch (mkRequest url (req_method request) (req_headers request)
                          (req_body request) (req_redirect request) None))
    else
      credentials <- world_call (getCredentials (f_credentials this)) ;;
      region <- signing_region this apiMetadata opts credentials ;;
      let baseDomain := baseDomain_for this apiMetadata (Some region) in
      let signingName :=
        nullish (ApiMetadata.signingName apiMetadata)
                (ApiMetadata.endpointPrefix apiMetadata) in
      let endpoint := signed_endpoint this apiMetadata opts region baseDomain in
      fullUrl <- pure_call (new_URL (FetchOpts.urlPath opts) endpoint) ;;
      req <- world_call
               (AWSSignerV4_sign region credentials signingName fullUrl request) ;;
      world_call (fetch req).

(** The rest of a signed call once the region is known: the last three
    steps of [signingFetcher], named for the statements below. *)
Definition sign_and_fetch (this : BaseApiFactory) (apiMetadata : ApiMetadata.t)
           (request : Request) (opts : FetchOpts.t) (credentials : Credentials)
           (region : string) : M Response :=
  fullUrl <- pure_call
               (new_URL (FetchOpts.urlPath opts)
                        (signed_endpoint this apiMetadata opts region
                           (baseDomain_for this apiMetadata (Some region)))) ;;
  req <- world_call
           (AWSSignerV4_sign region credentials
              (nullish (ApiMetadata.signingName apiMetadata)
                       (ApiMetadata.endpointPrefix apiMetadata))
              fullUrl request) ;;
  world_call (fetch req).

(** [ensureCredentialsAvailable()]. *)
Definition ensureCredentialsAvailable (this : BaseApiFactory) : M unit :=
  creds <- world_call (getCredentials (f_credentials this)) ;;
  if truthy_string (awsAccessKeyId creds) then ret tt
  else throw (Error "Empty credentials were returned successfully (somehow?)").

(** [determineCurrentRegion()]. *)
Definition determineCurrentRegion (this : BaseApiFactory) : M string :=
  match f_region this with
  | Some r => ret r
  | None =>
      credentials <- world_call (getCredentials (f_credentials this)) ;;
      match cred_region credentials with
      | Some r => ret r
      | None => throwMissingRegion
      end
  end.

(* ================================================================== *)
(** ** The error classifier *)

(** [v.k] for the property names read below ([Error], [Code], [RequestId],
    [__type], [message], [Message]): reading a property of [null] throws,
    an object answers from its fields, and no other JSON value has such a
    property. *)
Definition js_get (v : JsValue) (k : string) : PlatformResult (option JsValue) :=
  match v with
  | JNull => Raise "TypeError" ("Cannot read properties of null (reading '" ++ k ++ "')")
  | JObj fields => Value (assoc k fields)
  | _ => Value None
  end.

(** [v?.k] on the result of a property read. *)
Definition js_get_optional (v : option JsValue) (k : string)
  : PlatformResult (option JsValue) :=
  match v with
  | None | Some JNull => Value None
  | Some v' => js_get v' k
  end.

(** The object returned by [node.strings(...)]. *)
Definition strings_object (fields : list (string * string)) : JsValue :=
  JObj (map (fun kv => (fst kv, JStr (snd kv))) fields).

(** [array.map(f)] with an [f] that may throw. *)
Fixpoint map_call {A B : Type} (f : A -> PlatformResult B) (l : list A)
  : PlatformResult (list B) :=
  match l with
  | [] => Value []
  | x :: l' =>
      match f x with
      | Raise n m => Raise n m
      | Value y =>
          match map_call f l' with
          | Raise n m => Raise n m
          | Value ys => Value (y :: ys)
          end
      end
  end.

(** [xml.first(name, false, x => x.content)]. *)
Definition xml_first_content (xml : XmlNode) (name : string) : option JsValue :=
  match xml_first xml name with
  | Some x => option_map JStr (xml_content x)
  | None => None
  end.

Definition unrecognizable (contentType : option string) : exn :=
  Error ("Unrecognizable error response of type " ++ template_nullable contentType).

(** [contentType?.startsWith(p)] as a condition. *)
Definition contentType_is (p : string) (contentType : option string) : bool :=
  match contentType with
  | Some c => startsWith p c
  | None => false
  end.

(** The condition of the XML branch:
[[
contentType?.startsWith('text/xml') || contentType?.startsWith('application/xml') || !contentType
]] *)
Definition is_xml_type (contentType : option string) : bool :=
  (contentType_is "text/xml" contentType
   || contentType_is "application/xml" contentType
   || negb (truthy contentType))%bool.

(** The [switch (xml.name)] of the XML branch; returning is [break] or no
    matching [case]. *)
Definition handleXmlShapes (response : Response) (xml : XmlNode) : M unit :=
  let name := xml_name xml in
  if String.eqb name "ErrorResponse" then
    match xml_first xml "Error" with
    | Some errNode =>
        fields <- pure_call (xml_strings errNode ["Code"; "Message"; "Type"] []) ;;
        throw (AwsServiceError response (strings_object fields)
                               (xml_first_content xml "RequestId"))
    | None => ret tt
    end
  else if String.eqb name "Response" then
    errors <- pure_call
                (map_call (fun errNode => xml_strings errNode ["Code"; "Message"] ["Type"])
                          (xml_getList xml ["Errors"; "Error"])) ;;
    match errors with
    | first :: _ =>
        throw (AwsServiceError response (strings_object first)
                               (xml_first_content xml "RequestID"))
    | [] => ret tt
    end
  else if String.eqb name "Error" then
    fields <- pure_call (xml_strings xml ["Code"; "Message"] ["Token-0"; "HostId"]) ;;
    throw (AwsServiceError response (strings_object fields)
                           (xml_first_content xml "RequestId"))
  else ret tt.

(** The dispatch on the content type in [handleErrorResponse]; returning is
    reaching the last statement of the function. *)
Definition handleErrorBody (response : Response) : M unit :=
  let contentType := Headers_get (resp_headers response) "content-type" in
  if is_xml_type contentType then
    text <- Response_text response ;;
    xml <- pure_call (readXmlResult text) ;;
    handleXmlShapes response xml ;;;
    (if endsWith "Exception" (xml_name xml) then
       fields <- pure_call (xml_strings xml ["Message"] ["Type"]) ;;
       throw (AwsServiceError response
                (JObj (("Code", JStr (xml_name xml))
                         :: map (fun kv => (fst kv, JStr (snd kv))) fields))
                (option_map JStr (getRequestId (resp_headers response))))
     else ret tt) ;;;
    console_log [LogStr "Error DOM:"; LogStr (xml_stringify xml)]
  else if contentType_is "application/json" contentType then
    data <- Response_json response ;;
    err <- pure_call (js_get data "Error") ;;
    code <- pure_call (js_get_optional err "Code") ;;
    (if js_truthy_opt code then
       requestId <- pure_call (js_get data "RequestId") ;;
       throw (AwsServiceError response (nullish err JNull) requestId)
     else ret tt) ;;;
    console_log [LogStr "Error from server:"; LogResponse response; LogValue data]
  else if contentType_is "application/x-amz-json-1." contentType then
    data <- Response_json response ;;
    type <- pure_call (js_get data "__type") ;;
    message <- (if js_truthy_opt type then pure_call (js_get data "message")
                else ret None) ;;
    (if (js_truthy_opt type && js_truthy_opt message)%bool then
       throw (AwsServiceError response
                (JObj [ ("Code", nullish type JNull);
                        ("Message", nullish message JNull) ])
                (option_map JStr (getRequestId (resp_headers response))))
     else
       Message <- (if js_truthy_opt type then pure_call (js_get data "Message")
                   else ret None) ;;
       if (js_truthy_opt type && js_truthy_opt Message)%bool then
         throw (AwsServiceError response
                  (JObj [ ("Code", nullish type JNull);
                          ("Message", nullish Message JNull) ])
                  (option_map JStr (getRequestId (resp_headers response))))
       else ret tt) ;;;
    console_log [LogStr "Error from server:"; LogResponse response; LogValue data]
  else
    text <- Response_text response ;;
    console_log [LogStr "Error body:"; LogStr text].

(** The error thrown for a [HEAD] request. *)
Definition head_error (response : Response) : exn :=
  AwsServiceError response
    (JObj [ ("Code", JStr ("Http" ++ string_of_Z (status response)));
            ("Message", JStr ("HTTP error status: " ++ statusText response)) ])
    (option_map JStr (getRequestId (resp_headers response))).

(** [handleErrorResponse(response, reqMethod)]; declared [Promise<never>]. *)
Definition handleErrorResponse (response : Response) (reqMethod : HttpMethod)
  : M unit :=
  if HttpMethod_eqb reqMethod HEAD then throw (head_error response)
  else
    handleErrorBody response ;;;
    throw (unrecognizable (Headers_get (resp_headers response) "content-type")).

(* ================================================================== *)
(** ** The protocol clients *)

(** [new Request(url, {method, headers, body, redirect, signal})].  The
    constructor of the fetch API refuses a body on [GET] and [HEAD]. *)
Definition new_Request (url : string) (method : HttpMethod) (headers : Headers)
           (body : option (list Byte.byte)) (redirect : RequestRedirect)
           (signal : option AbortSignal) : M Request :=
  match body, method with
  | Some _, GET | Some _, HEAD =>
      throw (Foreign "TypeError" "Request with GET/HEAD method cannot have body.")
  | _, _ => ret (mkRequest url method headers body redirect signal)
  end.

(** The options that [BaseServiceClient.performRequest] hands to the
    fetcher: the request URI (["/"] by default) followed by the query
    string, and three fields of the call passed through. *)
Definition request_opts (config : ApiRequestConfig.t) : FetchOpts.t :=
  let serviceUrl := nullish (ApiRequestConfig.requestUri config) "/" in
  let queryS := option_map URLSearchParams_toString (ApiRequestConfig.query config) in
  let query :=
    if truthy queryS
    then (if includes "?" serviceUrl then "&" else "?") ++ nullish queryS ""
    else "" in
  FetchOpts.mk (serviceUrl ++ query)
               (ApiRequestConfig.hostPrefix config)
               (ApiRequestConfig.skipSigning config)
               (ApiRequestConfig.region config).

(** The headers of the request: [content-length] is appended when there is
    a body. *)
Definition request_headers (headers : Headers) (body : option (list Byte.byte))
  : Headers :=
  match body with
  | Some b => Headers_append headers "content-length"
                             (string_of_Z (Z.of_nat (List.length b)))
  | None => headers
  end.

(** The part of [BaseServiceClient.performRequest] before the fetcher is
    called: the request and the options handed to it.  [headers] and [body]
    are the two fields that the protocol clients override in [config]. *)
Definition prepareRequest (config : ApiRequestConfig.t) (headers : Headers)
           (body : option (list Byte.byte)) : M (Request * FetchOpts.t) :=
  let method := nullish (ApiRequestConfig.method config) POST in
  request <- new_Request "https://example.com/" method
                         (request_headers headers body) body manual
                         (ApiRequestConfig.abortSignal config) ;;
  ret (request, request_opts config).

Definition unexpected_status (response : Response) : exn :=
  Error ("BUG: Unexpected HTTP response status " ++ string_of_Z (status response)).

(** The part of [BaseServiceClient.performRequest] after the response has
    arrived. *)
Definition dispatchResponse (config : ApiRequestConfig.t) (request : Request)
           (response : Response) : M Response :=
  if status response =? nullish (ApiRequestConfig.responseCode config) 200 then
    ret response
  else if status response >=? 400 then
    handleErrorResponse response (req_method request) ;;;
    throw (unexpected_status response)
  else if ((status response >=? 200) && (status response <? 300))%bool then
    console_log
      [LogStr ("WARN: " ++ ApiRequestConfig.action config
               ++ " response was unexpected success "
               ++ string_of_Z (status response))] ;;;
    ret response
  else throw (unexpected_status response).

(** [BaseServiceClient.performRequest(config)]. *)
Definition BaseServiceClient_performRequest (signedFetcher : SigningFetcher)
           (config : ApiRequestConfig.t) (headers : Headers)
           (body : option (list Byte.byte)) : M Response :=
  prepared <- prepareRequest config headers body ;;
  response <- signedFetcher (fst prepared) (snd prepared) ;;
  dispatchResponse config (fst prepared) response.

(** [config.headers ?? new Headers]. *)
Definition config_headers (config : ApiRequestConfig.t) : Headers :=
  nullish (ApiRequestConfig.headers config) [].

(** [XmlServiceClient.performRequest(config)]. *)
Definition XmlServiceClient_performRequest (signedFetcher : SigningFetcher)
           (config : ApiRequestConfig.t) : M Response :=
  let headers := Headers_append (config_headers config) "accept" "text/xml" in
  match ApiRequestConfig.body config with
  | Some (BodyBytes b) =>
      BaseServiceClient_performRequest signedFetcher config headers (Some b)
  | Some (BodyValue (JStr s)) =>
      BaseServiceClient_performRequest
        signedFetcher config
        (Headers_append headers "content-type" "text/xml")
        (Some (TextEncoder_encode s))
  | Some b =>
      if Body_truthy b then throw (Error "TODO: non-string body to XmlServiceClient")
      else BaseServiceClient_performRequest signedFetcher config headers None
  | None => BaseServiceClient_performRequest signedFetcher config headers None
  end.

(** [JsonServiceClient.performRequest(config)].  Form parameters handed to
    this client are an object without enumerable fields for
    [JSON.stringify]. *)
Definition JsonServiceClient_performRequest (serviceTarget jsonVersion : string)
           (signedFetcher : SigningFetcher) (config : ApiRequestConfig.t)
  : M Response :=
  let headers :=
    Headers_append (config_headers config) "x-amz-target"
                   (serviceTarget ++ "." ++ ApiRequestConfig.action config) in
  let headers :=
    Headers_append headers "accept" ("application/x-amz-json-" ++ jsonVersion) in
  let stringified v :=
    BaseServiceClient_performRequest
      signedFetcher config
      (Headers_append headers "content-type"
                      ("application/x-amz-json-" ++ jsonVersion))
      (Some (TextEncoder_encode (JSON_stringify v))) in
  match ApiRequestConfig.body config with
  | Some (BodyBytes b) =>
      BaseServiceClient_performRequest signedFetcher config headers (Some b)
  | Some (BodyParams _) => stringified (JObj [])
  | Some (BodyValue v) =>
      if js_truthy v then stringified v
      else BaseServiceClient_performRequest signedFetcher config headers None
  | None => BaseServiceClient_performRequest signedFetcher config headers None
  end.

(** The parameters sent by the Query client: [Action] and [Version] are
    [set] on fresh parameters, then every pair of the caller's body is
    appended in order. *)
Definition query_params (action serviceVersion : string) (body : URLSearchParams)
  : URLSearchParams :=
  let params := URLSearchParams_set [] "Action" action in
  let params := URLSearchParams_set params "Version" serviceVersion in
  fold_left (fun params kv => URLSearchParams_append params (fst kv) (snd kv))
            body params.

(** [QueryServiceClient.performRequest(config)]. *)
Definition QueryServiceClient_performRequest (serviceVersion : string)
           (signedFetcher : SigningFetcher) (config : ApiRequestConfig.t)
  : M Response :=
  let headers := Headers_append (config_headers config) "accept" "text/xml" in
  let method := nullish (ApiRequestConfig.method config) POST in
  match ApiRequestConfig.body config with
  | Some (BodyParams p) =>
      if negb (HttpMethod_eqb method POST)
      then throw (Error "query is supposed to be POSTed")
      else
        let params := query_params (ApiRequestConfig.action config) serviceVersion p in
        BaseServiceClient_performRequest
          signedFetcher config
          (Headers_append headers "content-type"
                          "application/x-www-form-urlencoded; charset=utf-8")
          (Some (TextEncoder_encode (URLSearchParams_toString params)))
  | Some b =>
      if Body_truthy b
      then throw (Error "BUG: non-query based request body passed to query client")
      else BaseServiceClient_performRequest signedFetcher config headers None
  | None => BaseServiceClient_performRequest signedFetcher config headers None
  end.

Inductive ServiceClient : Type :=
| QueryServiceClient (serviceVersion : string) (signedFetcher : SigningFetcher)
| JsonServiceClient (serviceTarget jsonVersion : string)
                    (signedFetcher : SigningFetcher)
| XmlServiceClient (signedFetcher : SigningFetcher).

(** [client.performRequest(config)], by the class of the client. *)
Definition performRequest (client : ServiceClient) (config : ApiRequestConfig.t)
  : M Response :=
  match client with
  | QueryServiceClient serviceVersion f =>
      QueryServiceClient_performRequest serviceVersion f config
  | JsonServiceClient serviceTarget jsonVersion f =>
      JsonServiceClient_performRequest serviceTarget jsonVersion f config
  | XmlServiceClient f => XmlServiceClient_performRequest f config
  end.

(** [wrapServiceClient(apiMetadata, signingFetcher)]; the [default] case of
    the [switch] has no protocol left to cover. *)
Definition wrapServiceClient (apiMetadata : ApiMetadata.t)
           (signingFetcher : SigningFetcher) : ServiceClient :=
  match ApiMetadata.protocol apiMetadata with
  | query | ec2 =>
      QueryServiceClient (ApiMetadata.apiVersion apiMetadata) signingFetcher
  | json | rest_json =>
      JsonServiceClient (nullish (ApiMetadata.targetPrefix apiMetadata) "TODO")
                        (nullish (ApiMetadata.jsonVersion apiMetadata) "1.0")
                        signingFetcher
  | rest_xml => XmlServiceClient signingFetcher
  end.

(** [factory.buildServiceClient(apiMetadata)]. *)
Definition buildServiceClient (this : BaseApiFactory) (apiMetadata : ApiMetadata.t)
  : Result ServiceClient :=
  match ApiMetadata.signatureVersion apiMetadata with
  | v2 => Throw (Error "TODO: signature version v2")
  | _ => Ok (wrapServiceClient apiMetadata (signingFetcher this apiMetadata))
  end.

End Client.

(* ================================================================== *)
(** ** A small platform to run the client on examples

    The world counts the requests sent; every request is answered
    [200 OK] with its URL and its headers sent back; the signer records the
    signing scope in a header; the readers know a handful of documents. *)

#[warnings="-register-all"]
Inductive SampleXml : Type :=
| SampleNode (name : string) (content : option string) (children : list SampleXml).

Definition sample_name (n : SampleXml) : string :=
  match n with SampleNode name _ _ => name end.

Definition sample_content (n : SampleXml) : option string :=
  match n with SampleNode _ content _ => content end.

Definition sample_children (n : SampleXml) : list SampleXml :=
  match n with SampleNode _ _ children => children end.

Definition sample_named (name : string) (l : list SampleXml) : list SampleXml :=
  filter (fun c => String.eqb (sample_name c) name) l.

Definition sample_first (n : SampleXml) (name : string) : option SampleXml :=
  hd_error (sample_named name (sample_children n)).

Definition sample_getList (n : SampleXml) (path : list string) : list SampleXml :=
  fold_left (fun nodes name => flat_map (fun x => sample_named name (sample_children x)) nodes)
            path [n].

Fixpoint sample_required (n : SampleXml) (keys : list string)
  : PlatformResult (list (string * string)) :=
  match keys with
  | [] => Value []
  | k :: keys' =>
      match sample_first n k with
      | Some (SampleNode _ (Some text) _) =>
          match sample_required n keys' with
          | Value rest => Value ((k, text) :: rest)
          | Raise a b => Raise a b
          end
      | _ => Raise "Error" ("missing required field " ++ k)
      end
  end.

Definition sample_optional (n : SampleXml) (keys : list string)
  : list (string * string) :=
  flat_map (fun k => match sample_first n k with
                     | Some (SampleNode _ (Some text) _) => [(k, text)]
                     | _ => []
                     end) keys.

Definition sample_strings (n : SampleXml) (required optional : list string)
  : PlatformResult (list (string * string)) :=
  match sample_required n required with
  | Value fields => Value (fields ++ sample_optional n optional)%list
  | Raise a b => Raise a b
  end.

Definition sample_readXml (text : string) : PlatformResult SampleXml :=
  if String.eqb text "<Response><Errors/></Response>" then
    Value (SampleNode "Response" None [SampleNode "Errors" None []])
  else if String.eqb text "<Error><Code>NoSuchKey</Code><Message>gone</Message></Error>" then
    Value (SampleNode "Error" None
             [SampleNode "Code" (Some "NoSuchKey") [];
              SampleNode "Message" (Some "gone") []])
  else Raise "Error" "unreadable document".

Definition sample_parseJson (text : string) : PlatformResult JsValue :=
  if String.eqb text "null" then Value JNull
  else if String.eqb text "{}" then Value (JObj [])
  else Raise "SyntaxError" "unexpected token".

Definition sample_form (p : URLSearchParams) : string :=
  String.concat "&" (map (fun kv => fst kv ++ "=" ++ snd kv) p).

Definition sample_sign (region : string) (credentials : Credentials)
           (signingName fullUrl : string) (request : Request) (w : nat)
  : PlatformResult Request * nat :=
  (Value (mkRequest fullUrl (req_method request)
                    (Headers_append (req_headers request) "x-signing-scope"
                                    (region ++ "/" ++ signingName))
                    (req_body request) (req_redirect request) (req_signal request)),
   w).

#[local] Instance sample_platform : Platform := {|
  World := nat;
  XmlNode := SampleXml;
  fetch := fun request w =>
             (Value (mkResponse 200 "OK"
                                (("x-url", req_url request) :: req_headers request) ""),
              S w);
  AWSSignerV4_sign := sample_sign;
  Deno_env_get := fun _ _ => Value None;
  new_URL := fun path base => Value (base ++ path);
  URLSearchParams_toString := sample_form;
  TextEncoder_encode := list_byte_of_string;
  JSON_stringify := fun _ => "{}";
  JSON_parse := sample_parseJson;
  readXmlResult := sample_readXml;
  xml_name := sample_name;
  xml_content := sample_content;
  xml_first := sample_first;
  xml_getList := sample_getList;
  xml_strings := sample_strings;
  xml_stringify := sample_name;
  getRequestId := fun h => Headers_get h "x-amzn-requestid"
|}.

Definition sample_state : State := mkState 0%nat [] 0%nat.

Definition sample_credentials : Credentials :=
  mkCredentials "AKIDEXAMPLE" "secret" None None None.

Definition sample_factory (region fixedEndpoint baseDomain : option string)
  : BaseApiFactory :=
  mkFactory (fixed_provider sample_credentials) region fixedEndpoint baseDomain.

Definition sample_metadata (serviceId prefix : string) (globalEndpoint : option string)
           (protocol : Protocol) : ApiMetadata.t :=
  ApiMetadata.mk "2016-11-15" prefix None globalEndpoint protocol serviceId v4 None None.

Definition sample_config (action : string) : ApiRequestConfig.t :=
  ApiRequestConfig.mk action None None None None false None None None None None.

(** [client.performRequest(config)] on the client that the factory builds
    for the service. *)
Definition call (this : BaseApiFactory) (apiMetadata : ApiMetadata.t)
           (config : ApiRequestConfig.t) : M Response :=
  match buildServiceClient this apiMetadata with
  | Ok client => performRequest client config
  | Throw e => throw e
  end.

(** A fetcher that answers [200 OK] with the headers and the body of the
    request it was given. *)
Definition echoing : SigningFetcher :=
  fun request _ =>
    ret (mkResponse 200 "OK" (req_headers request)
                    (match req_body request with
                     | Some b => string_of_list_byte b
                     | None => ""
                     end)).

(** A fetcher that answers every request with the given response. *)
Definition answering (response : Response) : SigningFetcher :=
  fun _ _ => ret response.

(* ================================================================== *)
(** ** Statements of the specification, for comparison *)

(** The region precedence as the specification words it (section 4.2):
    per-call override, then the factory's region, then the region hint of
    the credentials; with none of them, the failure, unless the service is
    global, in which case the fixed default region. *)
Definition spec_signing_region (perCall factoryRegion credentialsHint : option string)
           (isGlobal : bool) : Result string :=
  match perCall with
  | Some r => Ok r
  | None =>
      match factoryRegion with
      | Some r => Ok r
      | None =>
          match credentialsHint with
          | Some r => Ok r
          | None =>
              if isGlobal then Ok "us-east-1"
              else Throw (Error missing_region_message)
          end
      end
  end.

(** A path segment: no character of it is a separator. *)
Fixpoint is_segment (s : string) : bool :=
  match s with
  | EmptyString => true
  | String c s' => (negb (separator c) && is_segment s')%bool
  end.

(** What may follow a segment: nothing, or a separator. *)
Definition ends_segment (rest : string) : bool :=
  match rest with
  | EmptyString => true
  | String c _ => separator c
  end.

(** The two ways in which the classifier reports something other than the
    generic failure: a service error about this response, or an exception
    of a collaborator (a reader or an extractor that failed). *)
Definition is_service_error (response : Response) (e : exn) : Prop :=
  exists error requestId, e = AwsServiceError response error requestId.

Definition is_foreign (e : exn) : Prop :=
  exists name message, e = Foreign name message.

(** The outcomes that the specification allows the classifier: a service
    error about the response, or the generic failure. *)
Definition spec_classified (response : Response) (e : exn) : Prop :=
  is_service_error response e
  \/ e = unrecognizable (Headers_get (resp_headers response) "content-type").

(** What the branches before the generic failure may throw. *)
Definition shaped (response : Response) (e : exn) : Prop :=
  is_service_error response e \/ is_foreign e.

(** Every exception that [m] can end in satisfies [Q]. *)
Definition raises_only {P : Platform} {A : Type} (Q : exn -> Prop) (m : M A) : Prop :=
  forall s e s', m s = (Throw e, s') -> Q e.

(** An XML document that none of the three [case]s turns into a service
    error: another root name, an [ErrorResponse] without an [Error] child,
    or a [Response] without errors. *)
Definition xml_unmatched {P : Platform} (xml : XmlNode) : bool :=
  if String.eqb (xml_name xml) "ErrorResponse" then
    match xml_first xml "Error" with Some _ => false | None => true end
  else if String.eqb (xml_name xml) "Response" then
    match xml_getList xml ["Errors"; "Error"] with [] => true | _ :: _ => false end
  else negb (String.eqb (xml_name xml) "Error").

(** The state after one body has been consumed and one line logged. *)
Definition read_and_logged {P : Platform} (s : State) (line : list LogArg) : State :=
  mkState (world s) (console s ++ [line])%list (S (bodyReads s)).

(* ================================================================== *)
(** ** The README generator, [generation/script/update-readme.ts] *)

(** The line feed. *)
Definition nl : string := String (ascii_of_nat 10) EmptyString.

(** [genBarrier]: a template literal of five lines, the first two and the
    last two of them empty. *)
Definition genBarrier : string :=
  nl ++ nl ++ "[//]: # (Generated Content Barrier)" ++ nl ++ nl.

(** [s.indexOf(sep)]. *)
Fixpoint indexOf (sep s : string) : option nat :=
  if startsWith sep s then Some O
  else match s with
       | EmptyString => None
       | String _ s' => option_map S (indexOf sep s')
       end.

(** The pieces of [s] between the occurrences of a non-empty [sep], found
    from left to right; [skip] counts the units of a separator still to be
    passed over.  The first piece is under construction. *)
Fixpoint split_go (sep : string) (skip : nat) (s : string) : list string :=
  match s with
  | EmptyString => [EmptyString]
  | String c s' =>
      match skip with
      | S k => split_go sep k s'
      | O =>
          if startsWith sep s
          then EmptyString :: split_go sep (String.length sep - 1) s'
          else match split_go sep O s' with
               | piece :: pieces => String c piece :: pieces
               | [] => [String c EmptyString]
               end
      end
  end.

(** [s.split(sep)] for a string [sep]; the empty separator splits between
    all code units. *)
Definition split (sep s : string) : list string :=
  match sep with
  | EmptyString => map (fun c => String c EmptyString) (list_ascii_of_string s)
  | _ => split_go sep O s
  end.

(** [array.join(sep)]; an element that is [undefined] counts as the empty
    string. *)
Fixpoint join (sep : string) (items : list (option string)) : string :=
  match items with
  | [] => EmptyString
  | [x] => nullish x EmptyString
  | x :: rest => nullish x EmptyString ++ sep ++ join sep rest
  end.

(** The text that [updateFile(path, contents)] writes back to the file, as
    a function of the text it has read from it:
[[
const [intro, _, outro] = original.split(genBarrier);
[intro, header+`\n\n`+contents, outro].join(genBarrier)
]] *)
Definition updateFile_contents (header contents original : string) : string :=
  let parts := split genBarrier original in
  let intro := nth_error parts 0 in
  let outro := nth_error parts 2 in
  join genBarrier [intro; Some (header ++ nl ++ nl ++ contents); outro].

(** A number of the script: what [parseInt] returns, an integer or [NaN].
    The arithmetic and the printing below are those of JavaScript for the
    integers that a double holds exactly, see [safe_integer]. *)
Inductive JsNumber : Type :=
| NaN
| Int (z : Z).

(** [Number.MAX_SAFE_INTEGER]. *)
Definition Number_MAX_SAFE_INTEGER : Z := 2 ^ 53 - 1.

(** [Number.isSafeInteger(z)]. *)
Definition safe_integer (z : Z) : Prop :=
  - Number_MAX_SAFE_INTEGER <= z <= Number_MAX_SAFE_INTEGER.

(** [Math.round(n / d)] for a positive integer [d]: the nearest integer,
    a half rounded up. *)
Definition Math_round_div (n : JsNumber) (d : Z) : JsNumber :=
  match n with
  | NaN => NaN
  | Int z => Int ((2 * z + d) / (2 * d))
  end.

(** [n.toString()], also the text of [n] in a template literal. *)
Definition Number_toString (n : JsNumber) : string :=
  match n with
  | NaN => "NaN"
  | Int z => string_of_Z z
  end.

(** [s.slice(0, -1)]. *)
Fixpoint slice_but_last (s : string) : string :=
  match s with
  | EmptyString => EmptyString
  | String c EmptyString => EmptyString
  | String c s' => String c (slice_but_last s')
  end.

(** [s.slice(-1)]. *)
Fixpoint slice_last (s : string) : string :=
  match s with
  | EmptyString => EmptyString
  | String c EmptyString => s
  | String _ s' => slice_last s'
  end.

(** [formatFileSize(bytes)]. *)
Definition formatFileSize (bytes : JsNumber) : string :=
  Number_toString (Math_round_div bytes 1024) ++ " KiB".

(** [formatDuration(millis)]. *)
Definition formatDuration (millis : JsNumber) : string :=
  let deciseconds := Number_toString (Math_round_div millis 100) in
  (if truthy_string (slice_but_last deciseconds)
   then slice_but_last deciseconds else "0")
  ++ "." ++ slice_last deciseconds ++ " sec".

(** The decimal digit [k] as a numeral of one digit. *)
Definition digit_uint (k : N) : Decimal.uint :=
  match k with
  | 0 => Decimal.D0 Decimal.Nil
  | 1 => Decimal.D1 Decimal.Nil
  | 2 => Decimal.D2 Decimal.Nil
  | 3 => Decimal.D3 Decimal.Nil
  | 4 => Decimal.D4 Decimal.Nil
  | 5 => Decimal.D5 Decimal.Nil
  | 6 => Decimal.D6 Decimal.Nil
  | 7 => Decimal.D7 Decimal.Nil
  | 8 => Decimal.D8 Decimal.Nil
  | _ => Decimal.D9 Decimal.Nil
  end%N.

(** The generated block that [updateFile] writes between the barriers. *)
Definition generated_block (header contents : string) : string :=
  header ++ nl ++ nl ++ contents.

(** The barrier that follows [a] is the first one of [a ++ genBarrier]: no
    occurrence of the barrier begins inside [a]. *)
Definition first_barrier_after (a : string) : Prop :=
  indexOf genBarrier (a ++ genBarrier) = Some (String.length a).

(** The barrier does not occur in [s]. *)
Definition barrier_free (s : string) : Prop := includes genBarrier s = false.

(** The endpoint of an unsigned call whose region is known, as the
    unsigned branch of the fetcher assembles it. *)
Definition unsigned_endpoint {P : Platform} (this : BaseApiFactory)
           (apiMetadata : ApiMetadata.t) (opts : FetchOpts.t) (region : option string)
           (host : string) : string :=
  match f_fixedEndpoint this with
  | Some fixed => fixed
  | None =>
      endpoint_template (FetchOpts.hostPrefix opts)
                        (baseDomain_for this apiMetadata region) host
  end.

(** The unsigned request that the fetcher sends: the caller's request with
    its URL set and without a signal. *)
Definition unsigned_request (url : string) (request : Request) : Request :=
  mkRequest url (req_method request) (req_headers request) (req_body request)
            (req_redirect request) None.

(** The state after the credentials provider has been consulted. *)
Definition with_world {P : Platform} (s : State) (w : World) : State :=
  mkState w (console s) (bodyReads s).

(** The state after one response body has been consumed. *)
Definition body_read {P : Platform} (s : State) : State :=
  mkState (world s) (console s) (S (bodyReads s)).

(** A factory of the sample platform whose provider always fails. *)
Definition failing_factory (region fixedEndpoint baseDomain : option string)
  : BaseApiFactory :=
  mkFactory (mkProvider (fun w => (Raise "CredentialsError" "no credentials", w)))
            region fixedEndpoint baseDomain.

(** A request as [performRequest] builds it for a bodiless [POST]. *)
Definition sample_request : Request :=
  mkRequest "https://example.com/" POST [] None manual None.

(** *** A second platform, whose readers know error documents

    It differs from the sample platform in its two readers only. *)

Definition quoted (s : string) : string :=
  String (ascii_of_nat 34) EmptyString ++ s ++ String (ascii_of_nat 34) EmptyString.

Definition leaf (name text : string) : SampleXml := SampleNode name (Some text) [].

(** An [ErrorResponse] document, as the query services send it. *)
Definition errorResponse_text : string :=
  "<ErrorResponse><Error><Type>Sender</Type><Code>Throttling</Code>"
  ++ "<Message>slow down</Message></Error><RequestId>r-1</RequestId></ErrorResponse>".

Definition errorResponse_xml : SampleXml :=
  SampleNode "ErrorResponse" None
    [SampleNode "Error" None
       [leaf "Type" "Sender"; leaf "Code" "Throttling"; leaf "Message" "slow down"];
     leaf "RequestId" "r-1"].

(** A [Response] document with two errors, the second without message. *)
Definition response_text : string :=
  "<Response><Errors><Error><Code>InvalidGroup.NotFound</Code><Message>no group</Message>"
  ++ "</Error><Error><Code>Other</Code></Error></Errors><RequestID>r-2</RequestID></Response>".

Definition response_xml : SampleXml :=
  SampleNode "Response" None
    [SampleNode "Errors" None
       [SampleNode "Error" None
          [leaf "Code" "InvalidGroup.NotFound"; leaf "Message" "no group"];
        SampleNode "Error" None [leaf "Code" "Other"]];
     leaf "RequestID" "r-2"].

(** A document whose root is named after the exception. *)
(** A [Response] document with one error. *)
Definition response_one_text : string :=
  "<Response><Errors><Error><Code>InvalidGroup.NotFound</Code><Message>no group</Message>"
  ++ "</Error></Errors><RequestID>r-2</RequestID></Response>".

Definition response_one_xml : SampleXml :=
  SampleNode "Response" None
    [SampleNode "Errors" None
       [SampleNode "Error" None
          [leaf "Code" "InvalidGroup.NotFound"; leaf "Message" "no group"]];
     leaf "RequestID" "r-2"].

Definition exception_text : string :=
  "<ServiceUnavailableException><Message>later</Message></ServiceUnavailableException>".

Definition exception_xml : SampleXml :=
  SampleNode "ServiceUnavailableException" None [leaf "Message" "later"].

Definition errors_readXml (text : string) : PlatformResult SampleXml :=
  if String.eqb text errorResponse_text then Value errorResponse_xml
  else if String.eqb text response_text then Value response_xml
  else if String.eqb text response_one_text then Value response_one_xml
  else if String.eqb text exception_text then Value exception_xml
  else sample_readXml text.

(** [{"Error":{"Code":"AccessDenied","Message":"no"},"RequestId":"r-3"}] *)
Definition json_error_text : string :=
  "{" ++ quoted "Error" ++ ":{" ++ quoted "Code" ++ ":" ++ quoted "AccessDenied" ++ ","
  ++ quoted "Message" ++ ":" ++ quoted "no" ++ "}," ++ quoted "RequestId" ++ ":"
  ++ quoted "r-3" ++ "}".

Definition json_error_value : JsValue :=
  JObj [("Error", JObj [("Code", JStr "AccessDenied"); ("Message", JStr "no")]);
        ("RequestId", JStr "r-3")].

(** [{"__type":"ThrottlingException","message":"slow","Message":"SLOW"}] *)
Definition amz_both_text : string :=
  "{" ++ quoted "__type" ++ ":" ++ quoted "ThrottlingException" ++ ","
  ++ quoted "message" ++ ":" ++ quoted "slow" ++ ","
  ++ quoted "Message" ++ ":" ++ quoted "SLOW" ++ "}".

Definition amz_both_value : JsValue :=
  JObj [("__type", JStr "ThrottlingException"); ("message", JStr "slow");
        ("Message", JStr "SLOW")].

(** [{"__type":"ThrottlingException","Message":"SLOW"}] *)
Definition amz_upper_text : string :=
  "{" ++ quoted "__type" ++ ":" ++ quoted "ThrottlingException" ++ ","
  ++ quoted "Message" ++ ":" ++ quoted "SLOW" ++ "}".

Definition amz_upper_value : JsValue :=
  JObj [("__type", JStr "ThrottlingException"); ("Message", JStr "SLOW")].

Definition errors_parseJson (text : string) : PlatformResult JsValue :=
  if String.eqb text json_error_text then Value json_error_value
  else if String.eqb text amz_both_text then Value amz_both_value
  else if String.eqb text amz_upper_text then Value amz_upper_value
  else sample_parseJson text.

Definition errors_platform : Platform := {|
  World := nat;
  XmlNode := SampleXml;
  fetch := fun request w =>
             (Value (mkResponse 200 "OK"
                                (("x-url", req_url request) :: req_headers request) ""),
              S w);
  AWSSignerV4_sign := sample_sign;
  Deno_env_get := fun _ _ => Value None;
  new_URL := fun path base => Value (base ++ path);
  URLSearchParams_toString := sample_form;
  TextEncoder_encode := list_byte_of_string;
  JSON_stringify := fun _ => "{}";
  JSON_parse := errors_parseJson;
  readXmlResult := errors_readXml;
  xml_name := sample_name;
  xml_content := sample_content;
  xml_first := sample_first;
  xml_getList := sample_getList;
  xml_strings := sample_strings;
  xml_stringify := sample_name;
  getRequestId := fun h => Headers_get h "x-amzn-requestid"
|}.

(** An error response with the given content type and body. *)
Definition error_response (contentType body : string) : Response :=
  mkResponse 400 "Bad Request"
             [("content-type", contentType); ("x-amzn-requestid", "h-1")] body.

Definition errors_state : @State errors_platform := @mkState errors_platform 0%nat [] 0%nat.

(* ================================================================== *)
(** * Properties *)

(** ** Strings *)

Lemma startsWith_app (p rest : string) : startsWith p (p ++ rest) = true.
Proof.
  unfold startsWith.
  induction p as [|c p IH]; simpl.
  - destruct rest; reflexivity.
  - destruct (ascii_dec c c) as [_|ne]; [exact IH | contradiction].
Qed.

Lemma includes_app_r (p a b : string) : includes p b = true -> includes p (a ++ b) = true.
Proof.
  intros H. induction a as [|c a IH]; simpl; [exact H|].
  rewrite IH. apply orb_true_r.
Qed.

Lemma includes_self_app (p rest : string) : includes p (p ++ rest) = true.
Proof.
  destruct p as [|c p].
  - destruct rest; reflexivity.
  - change (includes (String c p) (String c p ++ rest))
      with (startsWith (String c p) (String c p ++ rest)
            || includes (String c p) (p ++ rest))%bool.
    rewrite startsWith_app. reflexivity.
Qed.

Lemma truthy_string_true (s : string) : truthy_string s = true <-> s <> "".
Proof.
  unfold truthy_string. rewrite negb_true_iff.
  split.
  - intros H ->. discriminate.
  - intros H. destruct s; [contradiction | reflexivity].
Qed.

Lemma includes_nonempty (p s : string) :
  p <> "" -> includes p s = true -> truthy_string s = true.
Proof.
  intros Hp H. destruct s; [|reflexivity].
  destruct p; [contradiction | discriminate].
Qed.

Lemma Set_has_In (set : list string) (x : string) : Set_has set x = true <-> In x set.
Proof.
  unfold Set_has. rewrite existsb_exists. split.
  - intros [y [Hin Heq]]. apply String.eqb_eq in Heq. now subst.
  - intros Hin. exists x. split; [assumption | apply String.eqb_refl].
Qed.

(* ================================================================== *)
(** ** Partition domains *)

(** C6.  The base domain of a region is chosen by its prefix.  The
    dual-stack check of the compute service comes first: an allow-listed
    region of [EC2] gets [aws].  Otherwise a region beginning [cn-] gets
    [amazonaws.com.cn], one beginning [us-iso-] gets [c2s.ic.gov], one
    beginning [us-isob-] gets [sc2s.sgov.gov], and every other region gets
    [amazonaws.com] (no allow-listed region carries one of the three
    prefixes, and the three prefixes exclude each other).  A missing region
    counts as [us-east-1]. *)
Theorem getRootDomain_by_region_prefix (serviceId : string) :
  (forall region, In region dualStackEc2Regions ->
                  getRootDomain "EC2" (Some region) = "aws")
  /\ (forall rest, getRootDomain serviceId (Some ("cn-" ++ rest)) = "amazonaws.com.cn")
  /\ (forall rest, getRootDomain serviceId (Some ("us-iso-" ++ rest)) = "c2s.ic.gov")
  /\ (forall rest, getRootDomain serviceId (Some ("us-isob-" ++ rest)) = "sc2s.sgov.gov")
  /\ (forall region,
         (String.eqb serviceId "EC2" && Set_has dualStackEc2Regions region)%bool = false ->
         startsWith "cn-" region = false ->
         startsWith "us-iso-" region = false ->
         startsWith "us-isob-" region = false ->
         getRootDomain serviceId (Some region) = "amazonaws.com")
  /\ getRootDomain serviceId None = getRootDomain serviceId (Some "us-east-1").
Proof.
  repeat split.
  - intros region Hin. apply Set_has_In in Hin.
    unfold getRootDomain, nullish. rewrite Hin. reflexivity.
  - intros rest. unfold getRootDomain, nullish.
    change (Set_has dualStackEc2Regions ("cn-" ++ rest)) with false.
    rewrite andb_false_r, startsWith_app. reflexivity.
  - intros rest. unfold getRootDomain, nullish.
    change (Set_has dualStackEc2Regions ("us-iso-" ++ rest)) with false.
    change (startsWith "cn-" ("us-iso-" ++ rest)) with false.
    rewrite andb_false_r, startsWith_app. reflexivity.
  - intros rest. unfold getRootDomain, nullish.
    change (Set_has dualStackEc2Regions ("us-isob-" ++ rest)) with false.
    change (startsWith "cn-" ("us-isob-" ++ rest)) with false.
    change (startsWith "us-iso-" ("us-isob-" ++ rest)) with false.
    rewrite andb_false_r, startsWith_app. reflexivity.
  - intros region Hec2 Hcn Hiso Hisob.
    unfold getRootDomain, nullish. rewrite Hec2, Hcn, Hiso, Hisob. reflexivity.
Qed.

Lemma getRootDomain_by_region_prefix_witness :
  ((String.eqb "SQS" "EC2" && Set_has dualStackEc2Regions "eu-central-1")%bool = false
   /\ startsWith "cn-" "eu-central-1" = false
   /\ startsWith "us-iso-" "eu-central-1" = false
   /\ startsWith "us-isob-" "eu-central-1" = false)
  /\ In "us-west-2" dualStackEc2Regions
  /\ getRootDomain "SQS" (Some "eu-central-1") = "amazonaws.com"
  /\ getRootDomain "EC2" (Some "us-west-2") = "aws".
Proof.
  destruct (getRootDomain_by_region_prefix "SQS") as [Hdual [_ [_ [_ [Hother _]]]]].
  split; [repeat split; reflexivity|].
  split; [simpl; tauto|].
  split.
  - apply Hother; reflexivity.
  - apply Hdual. simpl; tauto.
Defined.

(* ================================================================== *)
(** ** Endpoints of signed calls *)

Section Endpoints.
Context {P : Platform}.

Lemma getRootDomain_not_aws (serviceId region : string) :
  (String.eqb serviceId "EC2" && Set_has dualStackEc2Regions region)%bool = false ->
  String.eqb (getRootDomain serviceId (Some region)) "aws" = false.
Proof.
  intros H. unfold getRootDomain, nullish. rewrite H.
  destruct (startsWith "cn-" region); [reflexivity|].
  destruct (startsWith "us-iso-" region); [reflexivity|].
  destruct (startsWith "us-isob-" region); reflexivity.
Qed.

Lemma getRootDomain_dualstack (region : string) :
  Set_has dualStackEc2Regions region = true ->
  getRootDomain "EC2" (Some region) = "aws".
Proof.
  intros H. unfold getRootDomain, nullish. rewrite H. reflexivity.
Qed.

(** C5, as amended.  With no fixed endpoint, no base-domain override and no
    global endpoint prefix, a signed call of [EC2] goes to
    [api.{prefix}.{region}.aws] exactly when the region is one of
    [dualStackEc2Regions], and to [{prefix}.{region}.{domain}] with a domain
    other than [aws] otherwise; a signed call of [S3] goes to
    [s3.dualstack.{region}.{domain}] for every region, allow-listed or
    not. *)
Theorem dualstack_endpoints (this : BaseApiFactory) (apiMetadata : ApiMetadata.t)
        (opts : FetchOpts.t) (region : string) :
  truthy (f_fixedEndpoint this) = false ->
  f_baseDomain this = None ->
  truthy (globalEndpointPrefix apiMetadata) = false ->
  let endpoint :=
    signed_endpoint this apiMetadata opts region
                    (baseDomain_for this apiMetadata (Some region)) in
  let hostPrefix := nullish (FetchOpts.hostPrefix opts) "" in
  let prefix := ApiMetadata.endpointPrefix apiMetadata in
  (ApiMetadata.serviceId apiMetadata = "EC2" ->
   (Set_has dualStackEc2Regions region = true ->
    endpoint = "https://" ++ hostPrefix ++ "api." ++ (prefix ++ "." ++ region) ++ ".aws")
   /\ (Set_has dualStackEc2Regions region = false ->
       endpoint = "https://" ++ hostPrefix ++ (prefix ++ "." ++ region) ++ "."
                             ++ getRootDomain "EC2" (Some region)
       /\ getRootDomain "EC2" (Some region) <> "aws"))
  /\ (ApiMetadata.serviceId apiMetadata = "S3" ->
      endpoint = "https://" ++ hostPrefix ++ ("s3.dualstack" ++ "." ++ region) ++ "."
                            ++ getRootDomain "S3" (Some region)
      /\ getRootDomain "S3" (Some region) <> "aws").
Proof.
  intros Hfixed Hbase Hglobal endpoint hostPrefix prefix.
  subst endpoint hostPrefix prefix.
  unfold signed_endpoint, baseDomain_for, endpoint_template, endpointPrefix.
  rewrite Hfixed, Hbase, Hglobal. cbn [nullish].
  split.
  - intros Hid. rewrite Hid. cbn [String.eqb Ascii.eqb Bool.eqb].
    split.
    + intros Hin. rewrite (getRootDomain_dualstack region Hin). reflexivity.
    + intros Hout.
      assert (Hna : String.eqb (getRootDomain "EC2" (Some region)) "aws" = false).
      { apply getRootDomain_not_aws. rewrite Hout. reflexivity. }
      rewrite Hna. split; [reflexivity|].
      intros Heq. rewrite Heq in Hna. discriminate.
  - intros Hid. rewrite Hid.
    assert (Hna : String.eqb (getRootDomain "S3" (Some region)) "aws" = false).
    { apply getRootDomain_not_aws. reflexivity. }
    rewrite Hna. split; [reflexivity|].
    intros Heq. rewrite Heq in Hna. discriminate.
Qed.

End Endpoints.

Lemma dualstack_endpoints_witness :
  let this := sample_factory None None None in
  let opts := FetchOpts.mk "/" None false None in
  (truthy (f_fixedEndpoint this) = false
   /\ f_baseDomain this = None
   /\ truthy (globalEndpointPrefix (sample_metadata "EC2" "ec2" None ec2)) = false
   /\ Set_has dualStackEc2Regions "us-west-2" = true)
  /\ signed_endpoint this (sample_metadata "EC2" "ec2" None ec2) opts "us-west-2"
       (baseDomain_for this (sample_metadata "EC2" "ec2" None ec2) (Some "us-west-2"))
     = "https://api.ec2.us-west-2.aws".
Proof.
  intros this opts.
  split; [repeat split; reflexivity|].
  destruct (dualstack_endpoints this (sample_metadata "EC2" "ec2" None ec2) opts "us-west-2"
              eq_refl eq_refl eq_refl) as [Hec2 _].
  destruct (Hec2 eq_refl) as [Hin _].
  exact (Hin eq_refl).
Defined.

(** C5, the claim as stated fails: [ap-northeast-1] is not in the allow
    list, the compute service gets its standard host there, and the storage
    service still gets the dual-stack host. *)
Lemma s3_dualstack_outside_allow_list :
  let this := sample_factory None None None in
  let opts := FetchOpts.mk "/" None false None in
  Set_has dualStackEc2Regions "ap-northeast-1" = false
  /\ signed_endpoint this (sample_metadata "EC2" "ec2" None ec2) opts "ap-northeast-1"
       (baseDomain_for this (sample_metadata "EC2" "ec2" None ec2) (Some "ap-northeast-1"))
     = "https://ec2.ap-northeast-1.amazonaws.com"
  /\ signed_endpoint this (sample_metadata "S3" "s3" None rest_xml) opts "ap-northeast-1"
       (baseDomain_for this (sample_metadata "S3" "s3" None rest_xml) (Some "ap-northeast-1"))
     = "https://s3.dualstack.ap-northeast-1.amazonaws.com".
Proof. repeat split. Qed.

(* ================================================================== *)
(** ** The signing region *)

Section Region.
Context {P : Platform}.

Lemma host_routing_region (this : BaseApiFactory) (apiMetadata : ApiMetadata.t)
      (opts : FetchOpts.t) :
  FetchOpts.region (host_routing this apiMetadata opts) = FetchOpts.region opts
  /\ FetchOpts.skipSigning (host_routing this apiMetadata opts)
     = FetchOpts.skipSigning opts.
Proof.
  unfold host_routing.
  destruct (_ && _ && _ && _)%bool; [|split; reflexivity].
  destruct (_ && _)%bool; split; reflexivity.
Qed.

Lemma signing_region_routing (this : BaseApiFactory) (apiMetadata : ApiMetadata.t)
      (opts : FetchOpts.t) (credentials : Credentials) :
  signing_region this apiMetadata (host_routing this apiMetadata opts) credentials
  = signing_region this apiMetadata opts credentials.
Proof.
  unfold signing_region.
  rewrite (proj1 (host_routing_region this apiMetadata opts)). reflexivity.
Qed.

(** C3, as amended.  The signing region of a signed call is the per-call
    override when there is one.  Without it, a service that declares a
    global endpoint is signed for [us-east-1], whatever the factory's
    region and the credentials' hint are; any other service takes the
    factory's region, then the hint of the resolved credentials, and fails
    with the missing-region error when both are absent.  The fetcher hands
    that region to the signer, and stops with the error before any URL is
    built when there is none. *)
Theorem signing_region_precedence (this : BaseApiFactory)
        (apiMetadata : ApiMetadata.t) (opts : FetchOpts.t)
        (credentials : Credentials) (s : State) :
  let resolved := signing_region this apiMetadata opts credentials s in
  let isGlobal := truthy (ApiMetadata.globalEndpoint apiMetadata) in
  (forall r, FetchOpts.region opts = Some r -> resolved = (Ok r, s))
  /\ (FetchOpts.region opts = None -> isGlobal = true ->
      resolved = (Ok "us-east-1", s))
  /\ (FetchOpts.region opts = None -> isGlobal = false ->
      (forall r, f_region this = Some r -> resolved = (Ok r, s))
      /\ (f_region this = None ->
          (forall r, cred_region credentials = Some r -> resolved = (Ok r, s))
          /\ (cred_region credentials = None ->
              resolved = (Throw (Error missing_region_message), s))))
  /\ (forall request w,
         FetchOpts.skipSigning opts = false ->
         getCredentials (f_credentials this) (world s) = (Value credentials, w) ->
         let s1 := mkState w (console s) (bodyReads s) in
         signingFetcher this apiMetadata request opts s
         = match fst (signing_region this apiMetadata opts credentials s1) with
           | Ok region =>
               sign_and_fetch this apiMetadata request
                              (host_routing this apiMetadata opts)
                              credentials region s1
           | Throw e => (Throw e, s1)
           end).
Proof.
  intros resolved isGlobal. subst resolved isGlobal.
  unfold signing_region.
  split; [intros r ->; reflexivity|].
  split; [intros -> ->; reflexivity|].
  split.
  - intros -> ->. split; [intros r ->; reflexivity|].
    intros ->. split; [intros r ->; reflexivity|].
    intros ->. reflexivity.
  - intros request w Hsigned Hcreds.
    unfold signingFetcher.
    rewrite (proj2 (host_routing_region this apiMetadata opts)), Hsigned.
    unfold bind at 1. unfold world_call at 1. rewrite Hcreds. cbn [of_platform].
    rewrite signing_region_routing.
    unfold bind at 1. unfold signing_region.
    destruct (FetchOpts.region opts) as [r|]; [reflexivity|].
    destruct (truthy (ApiMetadata.globalEndpoint apiMetadata)); [reflexivity|].
    destruct (f_region this) as [r|]; [reflexivity|].
    destruct (cred_region credentials) as [r|]; reflexivity.
Qed.

End Region.

Lemma signing_region_precedence_witness :
  let this := sample_factory (Some "eu-west-1") None None in
  let iam := sample_metadata "IAM" "iam" (Some "iam.amazonaws.com") query in
  let sqs := sample_metadata "SQS" "sqs" None query in
  let opts := FetchOpts.mk "/" None false None in
  (FetchOpts.region opts = None
   /\ truthy (ApiMetadata.globalEndpoint iam) = true
   /\ truthy (ApiMetadata.globalEndpoint sqs) = false
   /\ f_region this = Some "eu-west-1"
   /\ FetchOpts.skipSigning opts = false
   /\ getCredentials (f_credentials this) (world sample_state)
      = (Value sample_credentials, 0%nat))
  /\ signing_region this iam opts sample_credentials sample_state
     = (Ok "us-east-1", sample_state)
  /\ signing_region this sqs opts sample_credentials sample_state
     = (Ok "eu-west-1", sample_state)
  /\ signingFetcher this sqs
       (mkRequest "https://example.com/" POST [] None manual None) opts sample_state
     = sign_and_fetch this sqs
         (mkRequest "https://example.com/" POST [] None manual None)
         (host_routing this sqs opts) sample_credentials "eu-west-1" sample_state.
Proof.
  intros this iam sqs opts.
  split; [repeat split; reflexivity|].
  split.
  - exact (proj1 (proj2 (signing_region_precedence
                           this iam opts sample_credentials sample_state))
                 eq_refl eq_refl).
  - split.
    + destruct (signing_region_precedence this sqs opts sample_credentials sample_state)
        as [_ [_ [Hlocal _]]].
      destruct (Hlocal eq_refl eq_refl) as [Hfactory _].
      exact (Hfactory "eu-west-1" eq_refl).
    + destruct (signing_region_precedence this sqs opts sample_credentials sample_state)
        as [_ [_ [_ Hfetch]]].
      exact (Hfetch (mkRequest "https://example.com/" POST [] None manual None)
                    0%nat eq_refl eq_refl).
Defined.

(** C3, the claim as stated fails: a factory configured for [eu-west-1]
    signs a call to a global service for [us-east-1], where the stated
    precedence gives [eu-west-1]. *)
Lemma global_service_ignores_factory_region :
  let this := sample_factory (Some "eu-west-1") None None in
  let iam := sample_metadata "IAM" "iam" (Some "iam.amazonaws.com") query in
  let opts := FetchOpts.mk "/" None false None in
  fst (signing_region this iam opts sample_credentials sample_state) = Ok "us-east-1"
  /\ spec_signing_region (FetchOpts.region opts) (f_region this)
                         (cred_region sample_credentials)
                         (truthy (ApiMetadata.globalEndpoint iam))
     = Ok "eu-west-1"
  /\ fst (signing_region this iam opts sample_credentials sample_state)
     <> spec_signing_region (FetchOpts.region opts) (f_region this)
                            (cred_region sample_credentials)
                            (truthy (ApiMetadata.globalEndpoint iam)).
Proof.
  intros this iam opts. repeat split. discriminate.
Qed.

(* ================================================================== *)
(** ** Host routing of bucket paths *)

Lemma split_first_segment (seg rest : string) :
  is_segment seg = true -> ends_segment rest = true ->
  split_first (seg ++ rest) = seg.
Proof.
  intros Hseg Hrest. induction seg as [|c seg IH].
  - destruct rest as [|c rest]; [reflexivity|].
    cbn [ends_segment] in Hrest. cbn [append split_first]. rewrite Hrest. reflexivity.
  - cbn [is_segment] in Hseg. apply andb_true_iff in Hseg as [Hc Hseg].
    apply negb_true_iff in Hc. cbn [append split_first]. rewrite Hc.
    f_equal. exact (IH Hseg).
Qed.

Lemma slice_app (a b : string) : slice (String.length a) (a ++ b) = b.
Proof. induction a as [|c a IH]; simpl; [destruct b; reflexivity | exact IH]. Qed.

Lemma slice_past_bucket (bucket rest : string) :
  slice (String.length bucket + 1) ("/" ++ bucket ++ rest) = rest.
Proof. rewrite Nat.add_1_r. simpl. apply slice_app. Qed.

Lemma length_pos (s : string) : s <> "" -> (0 <? String.length s)%nat = true.
Proof. destruct s; [contradiction | reflexivity]. Qed.

Section HostRouting.
Context {P : Platform}.

(** C4.  For the storage service, a path [/{bucket}{rest}] whose first
    segment [bucket] is non-empty and has no dot, called with no host
    prefix and no fixed endpoint in effect (both absent or empty), is
    rewritten: the host prefix becomes [{bucket}.] and the path becomes
    [rest], with a leading [/] put in front when [rest] does not begin with
    one.  The options are left as they are when a fixed endpoint is
    configured, when a host prefix is already set, or when the first
    segment contains a dot. *)
Theorem host_routing_bucket_subdomain (this : BaseApiFactory)
        (apiMetadata : ApiMetadata.t) (opts : FetchOpts.t) :
  ApiMetadata.serviceId apiMetadata = "S3" ->
  ((exists e, f_fixedEndpoint this = Some e /\ includes "://" e = true) ->
   host_routing this apiMetadata opts = opts)
  /\ (truthy (FetchOpts.hostPrefix opts) = true ->
      host_routing this apiMetadata opts = opts)
  /\ (forall bucket rest,
         FetchOpts.urlPath opts = "/" ++ bucket ++ rest ->
         is_segment bucket = true ->
         ends_segment rest = true ->
         (includes "." bucket = true -> host_routing this apiMetadata opts = opts)
         /\ (bucket <> "" ->
             includes "." bucket = false ->
             truthy (FetchOpts.hostPrefix opts) = false ->
             truthy (f_fixedEndpoint this) = false ->
             host_routing this apiMetadata opts
             = FetchOpts.mk (if startsWith "/" rest then rest else "/" ++ rest)
                            (Some (bucket ++ "."))
                            (FetchOpts.skipSigning opts)
                            (FetchOpts.region opts))).
Proof.
  intros Hs3. unfold host_routing. rewrite Hs3.
  change (String.eqb "S3" "S3") with true. cbn [andb].
  split.
  - intros [e [He Hscheme]]. rewrite He. cbn [truthy].
    rewrite (includes_nonempty "://" e); [|discriminate|exact Hscheme].
    cbn [negb]. rewrite andb_false_r. reflexivity.
  - split.
    + intros Hprefix. rewrite Hprefix. cbn [negb].
      rewrite andb_false_r. reflexivity.
    + intros bucket rest Hpath Hseg Hrest.
      rewrite Hpath.
      change (slice 1 ("/" ++ bucket ++ rest)) with (bucket ++ rest).
      rewrite (split_first_segment bucket rest Hseg Hrest).
      split.
      * intros Hdot. rewrite Hdot. cbn [negb]. rewrite andb_false_r.
        destruct (_ && _ && _)%bool; reflexivity.
      * intros Hne Hdot Hprefix Hfixed.
        rewrite Hprefix, Hfixed, Hdot, (length_pos bucket Hne).
        change (truthy_string ("/" ++ bucket ++ rest)) with true.
        cbn [negb andb].
        rewrite slice_past_bucket. reflexivity.
Qed.

End HostRouting.

Lemma host_routing_bucket_subdomain_witness :
  let this := sample_factory None None None in
  let s3meta := sample_metadata "S3" "s3" None rest_xml in
  let opts := FetchOpts.mk "/my-bucket/key" None false None in
  (ApiMetadata.serviceId s3meta = "S3"
   /\ FetchOpts.urlPath opts = "/" ++ "my-bucket" ++ "/key"
   /\ is_segment "my-bucket" = true
   /\ ends_segment "/key" = true
   /\ "my-bucket" <> ""
   /\ includes "." "my-bucket" = false
   /\ truthy (FetchOpts.hostPrefix opts) = false
   /\ truthy (f_fixedEndpoint this) = false)
  /\ host_routing this s3meta opts = FetchOpts.mk "/key" (Some "my-bucket.") false None.
Proof.
  intros this s3meta opts.
  split; [repeat split; discriminate|].
  destruct (host_routing_bucket_subdomain this s3meta opts eq_refl) as [_ [_ Hpath]].
  destruct (Hpath "my-bucket" "/key" eq_refl eq_refl eq_refl) as [_ Hrewrite].
  apply Hrewrite; [discriminate | reflexivity | reflexivity | reflexivity].
Defined.

(* ================================================================== *)
(** ** Construction of the factory *)

Section Factory.
Context {P : Platform}.

Lemma credentials_source_state (opts : FactoryOpts.t) (s : State) :
  snd (credentials_source opts s) = s.
Proof.
  unfold credentials_source.
  destruct (FactoryOpts.credentials opts); [reflexivity|].
  destruct (FactoryOpts.credentialProvider opts); reflexivity.
Qed.

Lemma BaseApiFactory_new_steps (opts : FactoryOpts.t) (s s' : State)
      (prov : CredentialsProvider) (r : option string) :
  credentials_source opts s = (Ok prov, s) ->
  configured_region opts s = (Ok r, s') ->
  BaseApiFactory_new opts s
  = match FactoryOpts.fixedEndpoint opts with
    | Some e =>
        if includes "://" e then (Ok (mkFactory prov r (Some e) None), s')
        else (Throw (Error bad_fixedEndpoint_message), s')
    | None => (Ok (mkFactory prov r None (FactoryOpts.baseDomain opts)), s')
    end.
Proof.
  intros Hsrc Hregion. unfold BaseApiFactory_new.
  unfold bind at 1. rewrite Hsrc.
  unfold bind at 1. rewrite Hregion.
  destruct (FactoryOpts.fixedEndpoint opts) as [e|].
  - destruct (includes "://" e); reflexivity.
  - destruct (FactoryOpts.baseDomain opts); reflexivity.
Qed.

(** C9.  A factory built with neither credentials nor a provider throws the
    missing-credentials error.  Fixed credentials become the provider that
    answers every call with that value and leaves the world as it is, and
    that provider is the one a constructed factory holds.  A fixed endpoint
    without [://] makes the construction throw, with the endpoint error
    once the credentials source and the region have been settled.  With a
    well-formed fixed endpoint and a base domain both supplied, the factory
    keeps the fixed endpoint and no base domain. *)
Theorem factory_construction (opts : FactoryOpts.t) (s : State) :
  (FactoryOpts.credentials opts = None ->
   FactoryOpts.credentialProvider opts = None ->
   BaseApiFactory_new opts s = (Throw (Error missing_credentials_message), s))
  /\ (forall c,
         FactoryOpts.credentials opts = Some c ->
         credentials_source opts s = (Ok (fixed_provider c), s)
         /\ (forall w, getCredentials (fixed_provider c) w = (Value c, w))
         /\ (forall this s',
                BaseApiFactory_new opts s = (Ok this, s') ->
                f_credentials this = fixed_provider c))
  /\ (forall e,
         FactoryOpts.fixedEndpoint opts = Some e ->
         includes "://" e = false ->
         (exists err s', BaseApiFactory_new opts s = (Throw err, s'))
         /\ (forall prov r s',
                credentials_source opts s = (Ok prov, s) ->
                configured_region opts s = (Ok r, s') ->
                BaseApiFactory_new opts s
                = (Throw (Error bad_fixedEndpoint_message), s')))
  /\ (forall e d prov r s',
         FactoryOpts.fixedEndpoint opts = Some e ->
         includes "://" e = true ->
         FactoryOpts.baseDomain opts = Some d ->
         credentials_source opts s = (Ok prov, s) ->
         configured_region opts s = (Ok r, s') ->
         BaseApiFactory_new opts s = (Ok (mkFactory prov r (Some e) None), s')).
Proof.
  split; [|split; [|split]].
  - intros Hc Hp. unfold BaseApiFactory_new, credentials_source, bind.
    rewrite Hc, Hp. reflexivity.
  - intros c Hc.
    assert (Hsrc : credentials_source opts s = (Ok (fixed_provider c), s)).
    { unfold credentials_source. rewrite Hc. reflexivity. }
    split; [exact Hsrc|]. split; [reflexivity|].
    intros this s' Hnew.
    unfold BaseApiFactory_new in Hnew. unfold bind at 1 in Hnew.
    rewrite Hsrc in Hnew. unfold bind in Hnew.
    destruct (configured_region opts s) as [[r|err] s1]; [|discriminate].
    destruct (FactoryOpts.fixedEndpoint opts) as [e|].
    + destruct (includes "://" e); simpl in Hnew; [|discriminate].
      injection Hnew as <- _. reflexivity.
    + destruct (FactoryOpts.baseDomain opts); injection Hnew as <- _; reflexivity.
  - intros e He Hscheme. split.
    + pose proof (credentials_source_state opts s) as Hstate.
      destruct (credentials_source opts s) as [[prov|err] s0] eqn:Hsrc;
        simpl in Hstate; subst s0.
      * destruct (configured_region opts s) as [[r|err] s1] eqn:Hregion.
        -- exists (Error bad_fixedEndpoint_message), s1.
           rewrite (BaseApiFactory_new_steps opts s s1 prov r Hsrc Hregion).
           rewrite He, Hscheme. reflexivity.
        -- exists err, s1. unfold BaseApiFactory_new.
           unfold bind at 1. rewrite Hsrc.
           unfold bind at 1. rewrite Hregion. reflexivity.
      * exists err, s. unfold BaseApiFactory_new.
        unfold bind at 1. rewrite Hsrc. reflexivity.
    + intros prov r s' Hsrc Hregion.
      rewrite (BaseApiFactory_new_steps opts s s' prov r Hsrc Hregion).
      rewrite He, Hscheme. reflexivity.
  - intros e d prov r s' He Hscheme _ Hsrc Hregion.
    rewrite (BaseApiFactory_new_steps opts s s' prov r Hsrc Hregion).
    rewrite He, Hscheme. reflexivity.
Qed.

End Factory.

Lemma factory_construction_witness :
  let both := FactoryOpts.mk None (Some sample_credentials) (Some "eu-west-1")
                             (Some "http://localhost:9000") (Some "example.org") in
  let bare := FactoryOpts.mk None (Some sample_credentials) (Some "eu-west-1")
                             (Some "localhost:9000") None in
  let none := FactoryOpts.mk None None (Some "eu-west-1") None None in
  (FactoryOpts.fixedEndpoint both = Some "http://localhost:9000"
   /\ includes "://" "http://localhost:9000" = true
   /\ FactoryOpts.baseDomain both = Some "example.org"
   /\ credentials_source both sample_state
      = (Ok (fixed_provider sample_credentials), sample_state)
   /\ configured_region both sample_state = (Ok (Some "eu-west-1"), sample_state)
   /\ includes "://" "localhost:9000" = false
   /\ FactoryOpts.credentials none = None
   /\ FactoryOpts.credentialProvider none = None)
  /\ BaseApiFactory_new both sample_state
     = (Ok (mkFactory (fixed_provider sample_credentials) (Some "eu-west-1")
                      (Some "http://localhost:9000") None),
        sample_state)
  /\ BaseApiFactory_new bare sample_state
     = (Throw (Error bad_fixedEndpoint_message), sample_state)
  /\ BaseApiFactory_new none sample_state
     = (Throw (Error missing_credentials_message), sample_state).
Proof.
  intros both bare none.
  split; [repeat split; reflexivity|].
  split; [|split].
  - destruct (factory_construction both sample_state) as [_ [_ [_ Hboth]]].
    exact (Hboth "http://localhost:9000" "example.org"
                 (fixed_provider sample_credentials) (Some "eu-west-1") sample_state
                 eq_refl eq_refl eq_refl eq_refl eq_refl).
  - destruct (factory_construction bare sample_state) as [_ [_ [Hbad _]]].
    destruct (Hbad "localhost:9000" eq_refl eq_refl) as [_ Hmsg].
    exact (Hmsg (fixed_provider sample_credentials) (Some "eu-west-1") sample_state
                eq_refl eq_refl).
  - destruct (factory_construction none sample_state) as [Hnone _].
    exact (Hnone eq_refl eq_refl).
Defined.

(* ================================================================== *)
(** ** The error classifier never returns *)

Section Classifier.
Context {P : Platform}.

Lemma raises_only_ret {A : Type} (Q : exn -> Prop) (a : A) : raises_only Q (ret a).
Proof. intros s e s' H. discriminate. Qed.

Lemma raises_only_throw {A : Type} (Q : exn -> Prop) (e : exn) :
  Q e -> raises_only Q (@throw _ A e).
Proof. intros HQ s e' s' H. injection H as <- _. exact HQ. Qed.

Lemma raises_only_pure_call {A : Type} (Q : exn -> Prop) (r : PlatformResult A) :
  (forall n m, Q (Foreign n m)) -> raises_only Q (pure_call r).
Proof.
  intros HQ s e s' H. unfold pure_call in H.
  destruct r as [a|n m]; simpl in H; [discriminate|].
  injection H as <- _. apply HQ.
Qed.

Lemma raises_only_bind {A B : Type} (Q : exn -> Prop) (m : M A) (k : A -> M B) :
  raises_only Q m -> (forall a, raises_only Q (k a)) -> raises_only Q (bind m k).
Proof.
  intros Hm Hk s e s' H. unfold bind in H.
  destruct (m s) as [[a|e0] s0] eqn:Hms.
  - exact (Hk a s0 e s' H).
  - injection H as <- _. exact (Hm s e0 s0 Hms).
Qed.

Lemma raises_only_console_log (Q : exn -> Prop) (args : list LogArg) :
  raises_only Q (console_log args).
Proof. intros s e s' H. discriminate. Qed.

Lemma raises_only_text (Q : exn -> Prop) (r : Response) :
  raises_only Q (Response_text r).
Proof. intros s e s' H. discriminate. Qed.

Lemma raises_only_json (Q : exn -> Prop) (r : Response) :
  (forall n m, Q (Foreign n m)) -> raises_only Q (Response_json r).
Proof.
  intros HQ. unfold Response_json. apply raises_only_bind.
  - apply raises_only_text.
  - intros text. apply raises_only_pure_call. exact HQ.
Qed.

Lemma shaped_foreign (response : Response) (n m : string) :
  shaped response (Foreign n m).
Proof. right. exists n, m. reflexivity. Qed.

Lemma shaped_service (response : Response) (error : JsValue)
      (requestId : option JsValue) :
  shaped response (AwsServiceError response error requestId).
Proof. left. exists error, requestId. reflexivity. Qed.

Ltac raises_step response :=
  first
    [ apply raises_only_ret
    | apply raises_only_console_log
    | apply raises_only_text
    | apply raises_only_json; apply shaped_foreign
    | apply raises_only_pure_call; apply shaped_foreign
    | apply raises_only_throw; apply shaped_service
    | apply raises_only_bind; [|intro]
    | match goal with
      | |- raises_only _ (if ?b then _ else _) => destruct b
      | |- raises_only _ (match ?x with _ => _ end) => destruct x
      end ].

Lemma handleXmlShapes_raises (response : Response) (xml : XmlNode) :
  raises_only (shaped response) (handleXmlShapes response xml).
Proof. unfold handleXmlShapes. repeat raises_step response. Qed.

Lemma handleErrorBody_raises (response : Response) :
  raises_only (shaped response) (handleErrorBody response).
Proof.
  unfold handleErrorBody.
  pose proof (handleXmlShapes_raises response) as Hxml.
  repeat first [ apply Hxml | raises_step response ].
Qed.

Lemma handleErrorResponse_throws (response : Response) (reqMethod : HttpMethod)
      (s : State) :
  exists e s',
    handleErrorResponse response reqMethod s = (Throw e, s')
    /\ (shaped response e
        \/ e = unrecognizable (Headers_get (resp_headers response) "content-type")).
Proof.
  unfold handleErrorResponse.
  destruct (HttpMethod_eqb reqMethod HEAD).
  - exists (head_error response), s. split; [reflexivity|].
    left. apply shaped_service.
  - unfold bind.
    destruct (handleErrorBody response s) as [[[]|e] s'] eqn:Hbody.
    + eexists. exists s'. split; [reflexivity|]. right. reflexivity.
    + exists e, s'. split; [reflexivity|]. left.
      exact (handleErrorBody_raises response s e s' Hbody).
Qed.

Lemma handleXmlShapes_unmatched (response : Response) (xml : XmlNode) (s : State) :
  xml_unmatched xml = true -> handleXmlShapes response xml s = (Ok tt, s).
Proof.
  unfold xml_unmatched, handleXmlShapes.
  destruct (String.eqb (xml_name xml) "ErrorResponse").
  - destruct (xml_first xml "Error"); [discriminate | reflexivity].
  - destruct (String.eqb (xml_name xml) "Response").
    + destruct (xml_getList xml ["Errors"; "Error"]); [reflexivity | discriminate].
    + destruct (String.eqb (xml_name xml) "Error"); [discriminate | reflexivity].
Qed.

Lemma HttpMethod_eqb_eq (a b : HttpMethod) : HttpMethod_eqb a b = true <-> a = b.
Proof. destruct a, b; simpl; split; intros H; try reflexivity; discriminate. Qed.

Lemma not_HEAD (reqMethod : HttpMethod) :
  reqMethod <> HEAD -> HttpMethod_eqb reqMethod HEAD = false.
Proof.
  intros H. destruct (HttpMethod_eqb reqMethod HEAD) eqn:E; [|reflexivity].
  apply HttpMethod_eqb_eq in E. contradiction.
Qed.

Lemma exception_name_unmatched (name : string) :
  endsWith "Exception" name = true ->
  String.eqb name "ErrorResponse" = false
  /\ String.eqb name "Response" = false
  /\ String.eqb name "Error" = false.
Proof.
  intros Hends. repeat split;
    (destruct (String.eqb name _) eqn:E; [|reflexivity];
     apply String.eqb_eq in E; subst name; discriminate).
Qed.

Lemma classify_xml (response : Response) (reqMethod : HttpMethod) (s : State)
      (xml : XmlNode) :
  reqMethod <> HEAD ->
  is_xml_type (Headers_get (resp_headers response) "content-type") = true ->
  readXmlResult (resp_body response) = Value xml ->
  handleErrorResponse response reqMethod s
  = (handleXmlShapes response xml ;;;
     (if endsWith "Exception" (xml_name xml) then
        fields <- pure_call (xml_strings xml ["Message"] ["Type"]) ;;
        throw (AwsServiceError response
                 (JObj (("Code", JStr (xml_name xml))
                          :: map (fun kv => (fst kv, JStr (snd kv))) fields))
                 (option_map JStr (getRequestId (resp_headers response))))
      else ret tt) ;;;
     console_log [LogStr "Error DOM:"; LogStr (xml_stringify xml)] ;;;
     throw (unrecognizable (Headers_get (resp_headers response) "content-type")))
      (body_read s).
Proof.
  intros Hmethod Hxml Hread. unfold handleErrorResponse.
  rewrite (not_HEAD reqMethod Hmethod). unfold handleErrorBody. rewrite Hxml.
  unfold bind at 1. unfold bind at 1. unfold Response_text.
  unfold bind at 1. unfold pure_call at 1. rewrite Hread. cbn [of_platform].
  unfold body_read, bind.
  destruct (handleXmlShapes response xml _) as [[[]|e] s1]; [|reflexivity].
  destruct (endsWith "Exception" (xml_name xml)); [|reflexivity].
  destruct (pure_call _ s1) as [[fields|e] s2]; reflexivity.
Qed.

Lemma classify_json (response : Response) (reqMethod : HttpMethod) (s : State)
      (data : JsValue) :
  reqMethod <> HEAD ->
  is_xml_type (Headers_get (resp_headers response) "content-type") = false ->
  JSON_parse (resp_body response) = Value data ->
  Response_json response s = (Ok data, body_read s).
Proof.
  intros _ _ Hparse. unfold Response_json, bind, Response_text, pure_call.
  rewrite Hparse. reflexivity.
Qed.

(** C2.  The classifier never returns: every run ends in an exception,
    which is a service error about the response, the generic
    "Unrecognizable error response of type {content-type}", or an
    exception that a reader of the body raised and that is passed on as it
    is.  For a [HEAD] request it is the service error with code
    [Http{status}] and message [HTTP error status: {statusText}], thrown
    with no body consumed and nothing logged.  For any other method the
    outcome follows the content type and the document, after one read of
    the body:
    - a content type outside the XML and JSON families: the generic
      failure;
    - XML: a failure of the parser is passed on; a root [Error], an
      [ErrorResponse] with an [Error] child, a [Response] with listed
      errors and, when none of these applies, a root whose name ends in
      [Exception] give the service error of that shape when its fields
      can be extracted, and the exception of the extractor when they
      cannot; any other document gives the generic failure;
    - [application/json]: a failure of the parser is passed on, and so
      is the [TypeError] of reading [Error] from [null]; an [Error] with a
      truthy [Code] gives the service error; any other document gives the
      generic failure;
    - [application/x-amz-json-1.x]: a failure of the parser is passed on,
      and so is the [TypeError] of reading [__type] from [null]; a truthy
      [__type] beside a truthy [message], or else a truthy [Message],
      gives the service error; any other document gives the generic
      failure.
    The generic failure is always preceded by one logged line. *)
Theorem handleErrorResponse_never_returns (response : Response)
        (reqMethod : HttpMethod) (s : State) :
  let contentType := Headers_get (resp_headers response) "content-type" in
  let generic := unrecognizable contentType in
  let run := handleErrorResponse response reqMethod s in
  let service error requestId : Result unit * State :=
    (Throw (AwsServiceError response error requestId), body_read s) in
  let passed_on name message : Result unit * State :=
    (Throw (Foreign name message), body_read s) in
  let unrecognized line : Result unit * State :=
    (Throw generic, read_and_logged s line) in
  let fromHeaders := option_map JStr (getRequestId (resp_headers response)) in
  (exists e s',
      run = (Throw e, s')
      /\ (is_service_error response e \/ is_foreign e \/ e = generic))
  /\ (reqMethod = HEAD ->
      run = (Throw (AwsServiceError response
                      (JObj [ ("Code", JStr ("Http" ++ string_of_Z (status response)));
                              ("Message",
                               JStr ("HTTP error status: " ++ statusText response)) ])
                      fromHeaders),
             s))
  /\ (reqMethod <> HEAD ->
      (is_xml_type contentType = false ->
       contentType_is "application/json" contentType = false ->
       contentType_is "application/x-amz-json-1." contentType = false ->
       run = unrecognized [LogStr "Error body:"; LogStr (resp_body response)])
      /\ (is_xml_type contentType = true ->
          (forall name message,
              readXmlResult (resp_body response) = Raise name message ->
              run = passed_on name message)
          /\ (forall xml,
                 readXmlResult (resp_body response) = Value xml ->
                 (xml_name xml = "Error" ->
                  (forall fields,
                      xml_strings xml ["Code"; "Message"] ["Token-0"; "HostId"]
                      = Value fields ->
                      run = service (strings_object fields)
                                    (xml_first_content xml "RequestId"))
                  /\ (forall name message,
                         xml_strings xml ["Code"; "Message"] ["Token-0"; "HostId"]
                         = Raise name message ->
                         run = passed_on name message))
                 /\ (xml_name xml = "ErrorResponse" ->
                     forall errNode,
                       xml_first xml "Error" = Some errNode ->
                       (forall fields,
                           xml_strings errNode ["Code"; "Message"; "Type"] []
                           = Value fields ->
                           run = service (strings_object fields)
                                         (xml_first_content xml "RequestId"))
                       /\ (forall name message,
                              xml_strings errNode ["Code"; "Message"; "Type"] []
                              = Raise name message ->
                              run = passed_on name message))
                 /\ (xml_name xml = "Response" ->
                     (forall first rest,
                         map_call (fun errNode =>
                                     xml_strings errNode ["Code"; "Message"] ["Type"])
                                  (xml_getList xml ["Errors"; "Error"])
                         = Value (first :: rest) ->
                         run = service (strings_object first)
                                       (xml_first_content xml "RequestID"))
                     /\ (forall name message,
                            map_call (fun errNode =>
                                        xml_strings errNode ["Code"; "Message"] ["Type"])
                                     (xml_getList xml ["Errors"; "Error"])
                            = Raise name message ->
                            run = passed_on name message))
                 /\ (xml_unmatched xml = true ->
                     (endsWith "Exception" (xml_name xml) = true ->
                      (forall fields,
                          xml_strings xml ["Message"] ["Type"] = Value fields ->
                          run = service
                                  (JObj (("Code", JStr (xml_name xml))
                                           :: map (fun kv => (fst kv, JStr (snd kv)))
                                                  fields))
                                  fromHeaders)
                      /\ (forall name message,
                             xml_strings xml ["Message"] ["Type"] = Raise name message ->
                             run = passed_on name message))
                     /\ (endsWith "Exception" (xml_name xml) = false ->
                         run = unrecognized [LogStr "Error DOM:";
                                             LogStr (xml_stringify xml)]))))
      /\ (is_xml_type contentType = false ->
          contentType_is "application/json" contentType = true ->
          (forall name message,
              JSON_parse (resp_body response) = Raise name message ->
              run = passed_on name message)
          /\ (forall data,
                 JSON_parse (resp_body response) = Value data ->
                 (forall name message,
                     js_get data "Error" = Raise name message ->
                     run = passed_on name message)
                 /\ (forall errorObject code requestId,
                        js_get data "Error" = Value (Some errorObject) ->
                        js_get_optional (Some errorObject) "Code" = Value code ->
                        js_truthy_opt code = true ->
                        js_get data "RequestId" = Value requestId ->
                        run = service errorObject requestId)
                 /\ (forall err code,
                        js_get data "Error" = Value err ->
                        js_get_optional err "Code" = Value code ->
                        js_truthy_opt code = false ->
                        run = unrecognized [LogStr "Error from server:";
                                            LogResponse response; LogValue data])))
      /\ (is_xml_type contentType = false ->
          contentType_is "application/json" contentType = false ->
          contentType_is "application/x-amz-json-1." contentType = true ->
          (forall name message,
              JSON_parse (resp_body response) = Raise name message ->
              run = passed_on name message)
          /\ (forall data,
                 JSON_parse (resp_body response) = Value data ->
                 (forall name message,
                     js_get data "__type" = Raise name message ->
                     run = passed_on name message)
                 /\ (forall type message,
                        js_get data "__type" = Value (Some type) ->
                        js_truthy type = true ->
                        js_get data "message" = Value (Some message) ->
                        js_truthy message = true ->
                        run = service (JObj [("Code", type); ("Message", message)])
                                      fromHeaders)
                 /\ (forall type message Message,
                        js_get data "__type" = Value (Some type) ->
                        js_truthy type = true ->
                        js_get data "message" = Value message ->
                        js_truthy_opt message = false ->
                        js_get data "Message" = Value (Some Message) ->
                        js_truthy Message = true ->
                        run = service (JObj [("Code", type); ("Message", Message)])
                                      fromHeaders)
                 /\ (forall type message Message,
                        js_get data "__type" = Value type ->
                        js_get data "message" = Value message ->
                        js_get data "Message" = Value Message ->
                        (js_truthy_opt type
                         && (js_truthy_opt message || js_truthy_opt Message))%bool
                        = false ->
                        run = unrecognized [LogStr "Error from server:";
                                            LogResponse response; LogValue data])))).
Proof.
  intros contentType generic run service passed_on unrecognized fromHeaders.
  subst contentType generic run service passed_on unrecognized fromHeaders.
  split; [|split].
  - destruct (handleErrorResponse_throws response reqMethod s) as [e [s' [Hrun Hkind]]].
    exists e, s'. split; [exact Hrun|].
    destruct Hkind as [[Hs|Hf]|Hg]; [left | right; left | right; right]; assumption.
  - intros ->. reflexivity.
  - intros Hmethod. split; [|split; [|split]].
    + intros Hxml Hjson Hamz. unfold handleErrorResponse.
      rewrite (not_HEAD reqMethod Hmethod). unfold handleErrorBody.
      rewrite Hxml, Hjson, Hamz. reflexivity.
    + intros Hxml. split.
      * intros name message Hread. unfold handleErrorResponse.
        rewrite (not_HEAD reqMethod Hmethod). unfold handleErrorBody. rewrite Hxml.
        unfold bind, Response_text, pure_call. rewrite Hread. reflexivity.
      * intros xml Hread.
        rewrite (classify_xml response reqMethod s xml Hmethod Hxml Hread).
        split; [|split; [|split]].
        -- intros Hname. unfold handleXmlShapes. rewrite Hname.
           unfold bind, pure_call. cbn [String.eqb Ascii.eqb Bool.eqb].
           split; [intros fields Hfields | intros name message Hfields];
             rewrite Hfields; reflexivity.
        -- intros Hname errNode Hnode. unfold handleXmlShapes. rewrite Hname.
           unfold bind, pure_call. cbn [String.eqb Ascii.eqb Bool.eqb].
           rewrite Hnode.
           split; [intros fields Hfields | intros name message Hfields];
             rewrite Hfields; reflexivity.
        -- intros Hname. unfold handleXmlShapes. rewrite Hname.
           unfold bind, pure_call. cbn [String.eqb Ascii.eqb Bool.eqb].
           split; [intros first rest Herrors | intros name message Herrors];
             rewrite Herrors; reflexivity.
        -- intros Hshape. unfold bind.
           rewrite (handleXmlShapes_unmatched response xml _ Hshape).
           split.
           ++ intros Hends. rewrite Hends. unfold pure_call.
              split; [intros fields Hfields | intros name message Hfields];
                rewrite Hfields; reflexivity.
           ++ intros Hends. rewrite Hends. reflexivity.
    + intros Hxml Hjson. unfold handleErrorResponse.
      rewrite (not_HEAD reqMethod Hmethod). unfold handleErrorBody.
      rewrite Hxml, Hjson. split.
      * intros name message Hparse.
        unfold bind, Response_json, bind, Response_text, pure_call.
        rewrite Hparse. reflexivity.
      * intros data Hparse.
        split; [|split];
          (unfold bind at 1; unfold bind at 1;
           rewrite (classify_json response reqMethod s data Hmethod Hxml Hparse);
           unfold bind, pure_call).
        -- intros name message Herr. rewrite Herr. reflexivity.
        -- intros errorObject code requestId Herr Hcode Htruthy Hid.
           rewrite Herr. cbn [of_platform]. rewrite Hcode. cbn [of_platform].
           rewrite Htruthy, Hid. reflexivity.
        -- intros err code Herr Hcode Hfalsy.
           rewrite Herr. cbn [of_platform]. rewrite Hcode. cbn [of_platform].
           rewrite Hfalsy. reflexivity.
    + intros Hxml Hjson Hamz. unfold handleErrorResponse.
      rewrite (not_HEAD reqMethod Hmethod). unfold handleErrorBody.
      rewrite Hxml, Hjson, Hamz. split.
      * intros name message Hparse.
        unfold bind, Response_json, bind, Response_text, pure_call.
        rewrite Hparse. reflexivity.
      * intros data Hparse.
        split; [|split; [|split]];
          (unfold bind at 1; unfold bind at 1;
           rewrite (classify_json response reqMethod s data Hmethod Hxml Hparse);
           unfold bind, pure_call).
        -- intros name message Htype. rewrite Htype. reflexivity.
        -- intros type message Htype Htruthy Hm Hmt.
           rewrite Htype. cbn [of_platform js_truthy_opt]. rewrite Htruthy.
           rewrite Hm. cbn [of_platform js_truthy_opt andb]. rewrite Hmt.
           reflexivity.
        -- intros type message Message Htype Htruthy Hm Hmf HM HMt.
           rewrite Htype. cbn [of_platform js_truthy_opt]. rewrite Htruthy.
           rewrite Hm. cbn [of_platform andb]. rewrite Hmf.
           rewrite HM. cbn [of_platform js_truthy_opt]. rewrite HMt.
           reflexivity.
        -- intros type message Message Htype Hm HM Hfalsy.
           rewrite Htype. cbn [of_platform].
           destruct (js_truthy_opt type); cbn [andb] in Hfalsy |- *; [|reflexivity].
           apply orb_false_iff in Hfalsy as [Hm' HM'].
           rewrite Hm. cbn [of_platform]. rewrite Hm'.
           rewrite HM. cbn [of_platform]. rewrite HM'. reflexivity.
Qed.

End Classifier.

Lemma handleErrorResponse_never_returns_witness :
  let missing := mkResponse 404 "Not Found" [("x-amzn-requestid", "req-1")] "" in
  let html := mkResponse 502 "Bad Gateway" [("content-type", "text/html")]
                         "<html>bad gateway</html>" in
  let noErrors := mkResponse 400 "Bad Request" [("content-type", "text/xml")]
                             "<Response><Errors/></Response>" in
  let noSuchKey := mkResponse 404 "Not Found" [("content-type", "application/xml")]
                              "<Error><Code>NoSuchKey</Code><Message>gone</Message></Error>" in
  let garbled := mkResponse 500 "Internal Server Error" [("content-type", "text/xml")]
                            "<Error><Code>Internal" in
  let null := mkResponse 500 "Internal Server Error"
                         [("content-type", "application/json")] "null" in
  (HEAD = HEAD /\ GET <> HEAD
   /\ is_xml_type (Some "text/html") = false
   /\ contentType_is "application/json" (Some "text/html") = false
   /\ contentType_is "application/x-amz-json-1." (Some "text/html") = false
   /\ is_xml_type (Some "text/xml") = true
   /\ xml_unmatched (SampleNode "Response" None [SampleNode "Errors" None []]) = true
   /\ readXmlResult (resp_body garbled) = Raise "Error" "unreadable document"
   /\ JSON_parse (resp_body null) = Value JNull)
  /\ handleErrorResponse missing HEAD sample_state
     = (Throw (AwsServiceError missing
                 (JObj [("Code", JStr "Http404");
                        ("Message", JStr "HTTP error status: Not Found")])
                 (Some (JStr "req-1"))),
        sample_state)
  /\ handleErrorResponse html GET sample_state
     = (Throw (Error "Unrecognizable error response of type text/html"),
        mkState 0%nat [[LogStr "Error body:"; LogStr "<html>bad gateway</html>"]] 1%nat)
  /\ handleErrorResponse noErrors POST sample_state
     = (Throw (Error "Unrecognizable error response of type text/xml"),
        mkState 0%nat [[LogStr "Error DOM:"; LogStr "Response"]] 1%nat)
  /\ handleErrorResponse noSuchKey GET sample_state
     = (Throw (AwsServiceError noSuchKey
                 (JObj [("Code", JStr "NoSuchKey"); ("Message", JStr "gone")]) None),
        mkState 0%nat [] 1%nat)
  /\ handleErrorResponse garbled GET sample_state
     = (Throw (Foreign "Error" "unreadable document"), mkState 0%nat [] 1%nat)
  /\ handleErrorResponse null POST sample_state
     = (Throw (Foreign "TypeError" "Cannot read properties of null (reading 'Error')"),
        mkState 0%nat [] 1%nat).
Proof.
  intros missing html noErrors noSuchKey garbled null.
  assert (Hget : GET <> HEAD) by discriminate.
  assert (Hpost : POST <> HEAD) by discriminate.
  split; [repeat split; exact Hget|].
  split; [|split; [|split; [|split; [|split]]]].
  - exact (proj1 (proj2 (handleErrorResponse_never_returns missing HEAD sample_state))
                 eq_refl).
  - destruct (handleErrorResponse_never_returns html GET sample_state)
      as [_ [_ Hrest]].
    destruct (Hrest Hget) as [Hother _].
    exact (Hother eq_refl eq_refl eq_refl).
  - destruct (handleErrorResponse_never_returns noErrors POST sample_state)
      as [_ [_ Hrest]].
    destruct (Hrest Hpost) as [_ [Hxml _]].
    destruct (Hxml eq_refl) as [_ Hread].
    destruct (Hread (SampleNode "Response" None [SampleNode "Errors" None []]) eq_refl)
      as [_ [_ [_ Hunmatched]]].
    exact (proj2 (Hunmatched eq_refl) eq_refl).
  - destruct (handleErrorResponse_never_returns noSuchKey GET sample_state)
      as [_ [_ Hrest]].
    destruct (Hrest Hget) as [_ [Hxml _]].
    destruct (Hxml eq_refl) as [_ Hread].
    destruct (Hread (SampleNode "Error" None
                       [SampleNode "Code" (Some "NoSuchKey") [];
                        SampleNode "Message" (Some "gone") []]) eq_refl)
      as [Hroot _].
    exact (proj1 (Hroot eq_refl) _ eq_refl).
  - destruct (handleErrorResponse_never_returns garbled GET sample_state)
      as [_ [_ Hrest]].
    destruct (Hrest Hget) as [_ [Hxml _]].
    exact (proj1 (Hxml eq_refl) _ _ eq_refl).
  - destruct (handleErrorResponse_never_returns null POST sample_state)
      as [_ [_ Hrest]].
    destruct (Hrest Hpost) as [_ [_ [Hjson _]]].
    destruct (Hjson eq_refl eq_refl) as [_ Hdata].
    exact (proj1 (Hdata JNull eq_refl) _ _ eq_refl).
Defined.

(** C2, the claim as stated fails: a JSON error body [null] matches no
    recognised shape, and the classifier ends in the [TypeError] of reading
    [Error] from it, which is neither a service error nor the generic
    failure; nothing is logged.  Likewise an empty body labelled
    [application/json] ends in the [SyntaxError] of the parser. *)
Lemma null_document_escapes_classifier :
  let null := mkResponse 500 "Internal Server Error"
                         [("content-type", "application/json")] "null" in
  let empty := mkResponse 502 "Bad Gateway" [("content-type", "application/json")] "" in
  (exists e s',
      handleErrorResponse null POST sample_state = (Throw e, s')
      /\ e = Foreign "TypeError" "Cannot read properties of null (reading 'Error')"
      /\ ~ spec_classified null e
      /\ console s' = [])
  /\ (exists message s',
         handleErrorResponse empty POST sample_state
         = (Throw (Foreign "SyntaxError" message), s')
         /\ ~ spec_classified empty (Foreign "SyntaxError" message)
         /\ console s' = []).
Proof.
  intros null empty. split.
  - eexists. eexists. split; [reflexivity|]. split; [reflexivity|].
    split; [|reflexivity].
    intros [[error [requestId H]]|H]; discriminate H.
  - eexists. eexists. split; [reflexivity|]. split; [|reflexivity].
    intros [[error [requestId H]]|H]; discriminate H.
Qed.

(* ================================================================== *)
(** ** Dispatch on the response status *)

Section Dispatch.
Context {P : Platform}.

Lemma performRequest_after_fetch (signedFetcher : SigningFetcher)
      (config : ApiRequestConfig.t) (headers : Headers)
      (body : option (list Byte.byte)) (s s1 s2 : State)
      (request : Request) (opts : FetchOpts.t) (response : Response) :
  prepareRequest config headers body s = (Ok (request, opts), s1) ->
  signedFetcher request opts s1 = (Ok response, s2) ->
  BaseServiceClient_performRequest signedFetcher config headers body s
  = dispatchResponse config request response s2.
Proof.
  intros Hprep Hfetch. unfold BaseServiceClient_performRequest.
  unfold bind at 1. rewrite Hprep. cbn [fst snd].
  unfold bind at 1. rewrite Hfetch. reflexivity.
Qed.

(** C1, as amended.  Once the fetcher has answered, the outcome follows
    from the status and the expected code ([responseCode], 200 by default),
    tested in this order: a status equal to the expected code returns the
    response; any other status of 400 or more is handed to the classifier
    and the call throws what the classifier throws; any other status from
    200 to 299 returns the response after one warning has been logged;
    every remaining status throws the "BUG: Unexpected HTTP response
    status" error. *)
Theorem performRequest_status_dispatch (signedFetcher : SigningFetcher)
        (config : ApiRequestConfig.t) (headers : Headers)
        (body : option (list Byte.byte)) (s s1 s2 : State)
        (request : Request) (opts : FetchOpts.t) (response : Response) :
  prepareRequest config headers body s = (Ok (request, opts), s1) ->
  signedFetcher request opts s1 = (Ok response, s2) ->
  let expected := nullish (ApiRequestConfig.responseCode config) 200 in
  let run := BaseServiceClient_performRequest signedFetcher config headers body s in
  (status response = expected -> run = (Ok response, s2))
  /\ (status response <> expected ->
      (status response >= 400 ->
       exists e s3,
         run = (Throw e, s3)
         /\ handleErrorResponse response (req_method request) s2 = (Throw e, s3))
      /\ (200 <= status response < 300 ->
          run = (Ok response,
                 mkState (world s2)
                         (console s2
                          ++ [[LogStr ("WARN: " ++ ApiRequestConfig.action config
                                       ++ " response was unexpected success "
                                       ++ string_of_Z (status response))]])%list
                         (bodyReads s2)))
      /\ (status response < 200 \/ 300 <= status response < 400 ->
          run = (Throw (Error ("BUG: Unexpected HTTP response status "
                               ++ string_of_Z (status response))),
                 s2))).
Proof.
  intros Hprep Hfetch expected run. subst expected run.
  rewrite (performRequest_after_fetch _ _ _ _ _ _ _ _ _ _ Hprep Hfetch).
  unfold dispatchResponse.
  split.
  - intros Heq. apply Z.eqb_eq in Heq. rewrite Heq. reflexivity.
  - intros Hne. apply Z.eqb_neq in Hne. rewrite Hne.
    rewrite Z.geb_leb. split; [|split].
    + intros Hge. assert (Hle : (400 <=? status response) = true)
        by (apply Z.leb_le; lia).
      rewrite Hle.
      destruct (handleErrorResponse_throws response (req_method request) s2)
        as [e [s3 [Hthrow _]]].
      exists e, s3. split; [|exact Hthrow].
      unfold bind. rewrite Hthrow. reflexivity.
    + intros [Hlo Hhi].
      assert (Hle : (400 <=? status response) = false) by (apply Z.leb_gt; lia).
      rewrite Hle, Z.geb_leb.
      assert (H200 : (200 <=? status response) = true) by (apply Z.leb_le; lia).
      assert (H300 : (status response <? 300) = true) by (apply Z.ltb_lt; lia).
      rewrite H200, H300. reflexivity.
    + intros Hrest.
      assert (Hle : (400 <=? status response) = false) by (apply Z.leb_gt; lia).
      rewrite Hle, Z.geb_leb.
      destruct Hrest as [Hlow | [H3 _]].
      * assert (H200 : (200 <=? status response) = false) by (apply Z.leb_gt; lia).
        rewrite H200. reflexivity.
      * assert (H300 : (status response <? 300) = false) by (apply Z.ltb_ge; lia).
        rewrite H300, andb_false_r. reflexivity.
Qed.

End Dispatch.

Lemma performRequest_status_dispatch_witness :
  let config := sample_config "ListQueues" in
  let request := mkRequest "https://example.com/" POST [] None manual None in
  let opts := FetchOpts.mk "/" None false None in
  let created := mkResponse 201 "Created" [] "" in
  let moved := mkResponse 302 "Found" [] "" in
  (prepareRequest config [] None sample_state = (Ok (request, opts), sample_state)
   /\ answering created request opts sample_state = (Ok created, sample_state)
   /\ answering moved request opts sample_state = (Ok moved, sample_state)
   /\ status created <> nullish (ApiRequestConfig.responseCode config) 200
   /\ 200 <= status created < 300
   /\ status moved <> nullish (ApiRequestConfig.responseCode config) 200
   /\ 300 <= status moved < 400)
  /\ BaseServiceClient_performRequest (answering created) config [] None sample_state
     = (Ok created,
        mkState 0%nat
                [[LogStr "WARN: ListQueues response was unexpected success 201"]]
                0%nat)
  /\ BaseServiceClient_performRequest (answering moved) config [] None sample_state
     = (Throw (Error "BUG: Unexpected HTTP response status 302"), sample_state).
Proof.
  intros config request opts created moved.
  assert (Hc : status created <> nullish (ApiRequestConfig.responseCode config) 200)
    by discriminate.
  assert (Hm : status moved <> nullish (ApiRequestConfig.responseCode config) 200)
    by discriminate.
  assert (Hc2 : 200 <= status created < 300) by (simpl; lia).
  assert (Hm3 : 300 <= status moved < 400) by (simpl; lia).
  split; [repeat split; solve [reflexivity | discriminate | apply Hc2 | apply Hm3]|].
  split.
  - destruct (performRequest_status_dispatch
                (answering created) config [] None sample_state sample_state
                sample_state request opts created eq_refl eq_refl) as [_ Hother].
    destruct (Hother Hc) as [_ [Hwarn _]].
    exact (Hwarn Hc2).
  - destruct (performRequest_status_dispatch
                (answering moved) config [] None sample_state sample_state
                sample_state request opts moved eq_refl eq_refl) as [_ Hother].
    destruct (Hother Hm) as [_ [_ Hbug]].
    exact (Hbug (or_intror Hm3)).
Defined.

(** C1, the claim as stated fails: with an expected code of 404, a 404
    response is returned as a success, although its status is at least
    400. *)
Lemma expected_error_status_returns :
  let config := ApiRequestConfig.mk "HeadObject" None None (Some 404) None false
                                    None None None None None in
  let missing := mkResponse 404 "Not Found" [] "" in
  status missing >= 400
  /\ BaseServiceClient_performRequest (answering missing) config [] None sample_state
     = (Ok missing, sample_state).
Proof. intros config missing. split; [simpl; lia | reflexivity]. Qed.

(* ================================================================== *)
(** ** The wire contracts of the Query and JSON clients *)

Lemma fold_left_append (body params : URLSearchParams) :
  fold_left (fun params kv => URLSearchParams_append params (fst kv) (snd kv))
            body params
  = (params ++ body)%list.
Proof.
  revert params. induction body as [|[k v] body IH]; intros params; simpl.
  - symmetry. apply app_nil_r.
  - rewrite IH. unfold URLSearchParams_append. rewrite <- app_assoc. reflexivity.
Qed.

Lemma query_params_order (action serviceVersion : string) (body : URLSearchParams) :
  query_params action serviceVersion body
  = ("Action", action) :: ("Version", serviceVersion) :: body.
Proof. unfold query_params. rewrite fold_left_append. reflexivity. Qed.

Lemma Headers_get_append_same (h : Headers) (name value : string) :
  Headers_get h name = None ->
  Headers_get (Headers_append h name value) name = Some value.
Proof.
  unfold Headers_get, Headers_append. rewrite filter_app. simpl.
  rewrite String.eqb_refl.
  destruct (filter _ h); [reflexivity | discriminate].
Qed.

Lemma Headers_get_append_other (h : Headers) (name other value : string) :
  name <> other ->
  Headers_get (Headers_append h other value) name = Headers_get h name.
Proof.
  intros Hne. unfold Headers_get, Headers_append. rewrite filter_app. simpl.
  apply not_eq_sym in Hne. apply String.eqb_neq in Hne. rewrite Hne.
  rewrite app_nil_r. reflexivity.
Qed.

Section Wire.
Context {P : Platform}.

Lemma prepareRequest_POST (config : ApiRequestConfig.t) (headers : Headers)
      (body : option (list Byte.byte)) :
  nullish (ApiRequestConfig.method config) POST = POST ->
  prepareRequest config headers body
  = ret (mkRequest "https://example.com/" POST (request_headers headers body) body
                   manual (ApiRequestConfig.abortSignal config),
         request_opts config).
Proof.
  intros Hpost. unfold prepareRequest. rewrite Hpost.
  unfold new_Request. destruct body; reflexivity.
Qed.

(** C7, as amended.  With form parameters as the body and [POST] as the
    method (the default), the Query client sends to the fetcher one request
    whose headers are the caller's followed by [accept: text/xml],
    [content-type: application/x-www-form-urlencoded; charset=utf-8] and
    [content-length], and whose body encodes the parameters [Action],
    [Version] and then the caller's pairs in their order.  With form
    parameters and another method it throws "query is supposed to be
    POSTed".  With a truthy body of any other kind it throws the "BUG:
    non-query based request body" error; a falsy one (an empty string) is
    sent as no body.  This is the client of the [query] and [ec2]
    protocols, built with the API version of the service. *)
Theorem QueryServiceClient_contract (serviceVersion : string)
        (signedFetcher : SigningFetcher) (config : ApiRequestConfig.t) :
  let method := nullish (ApiRequestConfig.method config) POST in
  let accept := Headers_append (config_headers config) "accept" "text/xml" in
  (forall p,
      ApiRequestConfig.body config = Some (BodyParams p) ->
      let wire :=
        TextEncoder_encode
          (URLSearchParams_toString
             (("Action", ApiRequestConfig.action config)
                :: ("Version", serviceVersion) :: p)) in
      let request :=
        mkRequest "https://example.com/" POST
                  (config_headers config
                   ++ [ ("accept", "text/xml");
                        ("content-type",
                         "application/x-www-form-urlencoded; charset=utf-8");
                        ("content-length",
                         string_of_Z (Z.of_nat (List.length wire))) ])%list
                  (Some wire) manual (ApiRequestConfig.abortSignal config) in
      (method = POST ->
       QueryServiceClient_performRequest serviceVersion signedFetcher config
       = (response <- signedFetcher request (request_opts config) ;;
          dispatchResponse config request response))
      /\ (method <> POST ->
          forall s,
            QueryServiceClient_performRequest serviceVersion signedFetcher config s
            = (Throw (Error "query is supposed to be POSTed"), s)))
  /\ (forall b,
         ApiRequestConfig.body config = Some b ->
         (forall p, b <> BodyParams p) ->
         (Body_truthy b = true ->
          forall s,
            QueryServiceClient_performRequest serviceVersion signedFetcher config s
            = (Throw (Error "BUG: non-query based request body passed to query client"),
               s))
         /\ (Body_truthy b = false ->
             QueryServiceClient_performRequest serviceVersion signedFetcher config
             = BaseServiceClient_performRequest signedFetcher config accept None))
  /\ (ApiRequestConfig.body config = None ->
      QueryServiceClient_performRequest serviceVersion signedFetcher config
      = BaseServiceClient_performRequest signedFetcher config accept None)
  /\ (forall apiMetadata,
         ApiMetadata.protocol apiMetadata = query
         \/ ApiMetadata.protocol apiMetadata = ec2 ->
         ApiMetadata.apiVersion apiMetadata = serviceVersion ->
         performRequest (wrapServiceClient apiMetadata signedFetcher) config
         = QueryServiceClient_performRequest serviceVersion signedFetcher config).
Proof.
  intros method accept. subst method accept.
  split; [|split; [|split]];
    [| | |intros apiMetadata [Hp|Hp] <-; unfold wrapServiceClient; rewrite Hp;
          reflexivity];
    unfold QueryServiceClient_performRequest.
  - intros p Hbody. rewrite Hbody. split.
    + intros Hpost. rewrite Hpost. cbn [HttpMethod_eqb negb].
      rewrite query_params_order.
      unfold BaseServiceClient_performRequest.
      rewrite (prepareRequest_POST config _ _ Hpost).
      unfold request_headers, Headers_append.
      rewrite <- !app_assoc. reflexivity.
    + intros Hother s.
      destruct (HttpMethod_eqb (nullish (ApiRequestConfig.method config) POST) POST)
        eqn:E; [|reflexivity].
      destruct (nullish (ApiRequestConfig.method config) POST);
        try discriminate. contradiction.
  - intros b Hbody Hkind. rewrite Hbody.
    destruct b as [p|bytes|v]; [exfalso; exact (Hkind p eq_refl)| |].
    + split; [reflexivity | discriminate].
    + split; intros Htruth; cbn [Body_truthy] in Htruth |- *; rewrite Htruth;
        reflexivity.
  - intros Hbody. rewrite Hbody. reflexivity.
Qed.

End Wire.

Lemma QueryServiceClient_contract_witness :
  let config := ApiRequestConfig.mk "ListQueues" None None None None false None None
                  (Some (BodyParams [("QueueNamePrefix", "a")])) None None in
  let viaGet := ApiRequestConfig.mk "ListQueues" (Some GET) None None None false None None
                  (Some (BodyParams [("QueueNamePrefix", "a")])) None None in
  let bytes := ApiRequestConfig.mk "ListQueues" None None None None false None None
                  (Some (BodyBytes [])) None None in
  (ApiRequestConfig.body config = Some (BodyParams [("QueueNamePrefix", "a")])
   /\ nullish (ApiRequestConfig.method config) POST = POST
   /\ nullish (ApiRequestConfig.method viaGet) POST <> POST
   /\ ApiRequestConfig.body bytes = Some (BodyBytes [])
   /\ Body_truthy (BodyBytes []) = true)
  /\ QueryServiceClient_performRequest "2012-11-05" echoing config sample_state
     = (Ok (mkResponse 200 "OK"
              [ ("accept", "text/xml");
                ("content-type", "application/x-www-form-urlencoded; charset=utf-8");
                ("content-length", "54") ]
              "Action=ListQueues&Version=2012-11-05&QueueNamePrefix=a"),
        sample_state)
  /\ QueryServiceClient_performRequest "2012-11-05" echoing viaGet sample_state
     = (Throw (Error "query is supposed to be POSTed"), sample_state)
  /\ QueryServiceClient_performRequest "2012-11-05" echoing bytes sample_state
     = (Throw (Error "BUG: non-query based request body passed to query client"),
        sample_state).
Proof.
  intros config viaGet bytes.
  split; [repeat split; discriminate|].
  split; [|split].
  - destruct (QueryServiceClient_contract "2012-11-05" echoing config) as [Hparams _].
    destruct (Hparams [("QueueNamePrefix", "a")] eq_refl) as [Hpost _].
    rewrite (Hpost eq_refl). reflexivity.
  - destruct (QueryServiceClient_contract "2012-11-05" echoing viaGet) as [Hparams _].
    destruct (Hparams [("QueueNamePrefix", "a")] eq_refl) as [_ Hother].
    apply Hother. discriminate.
  - destruct (QueryServiceClient_contract "2012-11-05" echoing bytes) as [_ [Hkind _]].
    destruct (Hkind (BodyBytes []) eq_refl) as [Htruthy _]; [discriminate|].
    apply Htruthy. reflexivity.
Defined.

(** C7, the claim as stated fails: the content type that the Query client
    sets is not [application/x-www-form-urlencoded] but that media type with
    a [charset] parameter, and a body of another type that is the empty
    string raises nothing: the call goes out without a body. *)
Lemma query_content_type_and_empty_body :
  let config := ApiRequestConfig.mk "ListQueues" None None None None false None None
                  (Some (BodyParams [("QueueNamePrefix", "a")])) None None in
  let empty := ApiRequestConfig.mk "ListQueues" None None None None false None None
                  (Some (BodyValue (JStr ""))) None None in
  (exists response,
      QueryServiceClient_performRequest "2012-11-05" echoing config sample_state
      = (Ok response, sample_state)
      /\ Headers_get (resp_headers response) "content-type"
         = Some "application/x-www-form-urlencoded; charset=utf-8"
      /\ Headers_get (resp_headers response) "content-type"
         <> Some "application/x-www-form-urlencoded")
  /\ QueryServiceClient_performRequest "2012-11-05" echoing empty sample_state
     = (Ok (mkResponse 200 "OK" [("accept", "text/xml")] ""), sample_state).
Proof.
  intros config empty. split; [|reflexivity].
  eexists. split; [reflexivity|]. split; [reflexivity | discriminate].
Qed.

Lemma Headers_get_app_none (h l : Headers) (name : string) :
  Headers_get h name = None -> Headers_get (h ++ l)%list name = Headers_get l name.
Proof.
  unfold Headers_get. rewrite filter_app.
  destruct (filter _ h); [reflexivity | discriminate].
Qed.

Section JsonWire.
Context {P : Platform}.

(** C8.  Every call through the JSON client reaches the shared dispatch
    with the caller's headers followed by [x-amz-target:
    {serviceTarget}.{action}] and [accept: application/x-amz-json-{version}],
    so that each of the two reads back as exactly that value when the
    caller had not set it.  A body that is an object (any truthy value that
    is not raw bytes) is sent as the encoding of [JSON.stringify(body)] with
    [content-type: application/x-amz-json-{version}] appended; raw bytes are
    sent as they are, with no content type.  For a service of the [json]
    protocol the target and the version are the [targetPrefix] and the
    [jsonVersion] of its metadata. *)
Theorem JsonServiceClient_contract (serviceTarget jsonVersion : string)
        (signedFetcher : SigningFetcher) (config : ApiRequestConfig.t) :
  let target := serviceTarget ++ "." ++ ApiRequestConfig.action config in
  let mime := "application/x-amz-json-" ++ jsonVersion in
  let base :=
    (config_headers config ++ [("x-amz-target", target); ("accept", mime)])%list in
  let run :=
    JsonServiceClient_performRequest serviceTarget jsonVersion signedFetcher config in
  (exists extra body,
      run = BaseServiceClient_performRequest signedFetcher config
                                             (base ++ extra)%list body
      /\ (extra = [] \/ extra = [("content-type", mime)]))
  /\ (forall extra,
         extra = [] \/ extra = [("content-type", mime)] ->
         (Headers_get (config_headers config) "x-amz-target" = None ->
          Headers_get (base ++ extra)%list "x-amz-target" = Some target)
         /\ (Headers_get (config_headers config) "accept" = None ->
             Headers_get (base ++ extra)%list "accept" = Some mime))
  /\ (forall v,
         ApiRequestConfig.body config = Some (BodyValue v) ->
         js_truthy v = true ->
         run = BaseServiceClient_performRequest
                 signedFetcher config
                 (base ++ [("content-type", mime)])%list
                 (Some (TextEncoder_encode (JSON_stringify v))))
  /\ (forall fields,
         ApiRequestConfig.body config = Some (BodyValue (JObj fields)) ->
         run = BaseServiceClient_performRequest
                 signedFetcher config
                 (base ++ [("content-type", mime)])%list
                 (Some (TextEncoder_encode (JSON_stringify (JObj fields)))))
  /\ (forall b,
         ApiRequestConfig.body config = Some (BodyBytes b) ->
         run = BaseServiceClient_performRequest signedFetcher config base (Some b))
  /\ (forall apiMetadata,
         ApiMetadata.protocol apiMetadata = json ->
         ApiMetadata.targetPrefix apiMetadata = Some serviceTarget ->
         ApiMetadata.jsonVersion apiMetadata = Some jsonVersion ->
         performRequest (wrapServiceClient apiMetadata signedFetcher) config = run).
Proof.
  intros target mime base run. subst target mime base run.
  split; [|split; [|split; [|split; [|split]]]];
    [| | | | |intros apiMetadata Hp Ht Hv; unfold wrapServiceClient;
              rewrite Hp, Ht, Hv; reflexivity];
    unfold JsonServiceClient_performRequest, Headers_append;
    rewrite <- ?app_assoc; cbn [app].
  - destruct (ApiRequestConfig.body config) as [[p|b|v]|].
    + exists [("content-type", "application/x-amz-json-" ++ jsonVersion)],
             (Some (TextEncoder_encode (JSON_stringify (JObj [])))).
      rewrite <- app_assoc. split; [reflexivity | right; reflexivity].
    + exists [], (Some b).
      rewrite <- app_assoc. split; [reflexivity | left; reflexivity].
    + destruct (js_truthy v).
      * exists [("content-type", "application/x-amz-json-" ++ jsonVersion)],
               (Some (TextEncoder_encode (JSON_stringify v))).
        rewrite <- app_assoc. split; [reflexivity | right; reflexivity].
      * exists [], None.
        rewrite <- app_assoc. split; [reflexivity | left; reflexivity].
    + exists [], None.
      rewrite <- app_assoc. split; [reflexivity | left; reflexivity].
  - intros extra Hextra. split; intros Hnone; rewrite <- app_assoc;
      rewrite (Headers_get_app_none _ _ _ Hnone);
      destruct Hextra as [-> | ->]; reflexivity.
  - intros v Hbody Htruthy. rewrite Hbody, Htruthy. reflexivity.
  - intros fields Hbody. rewrite Hbody. reflexivity.
  - intros b Hbody. rewrite Hbody. reflexivity.
Qed.

End JsonWire.

Lemma JsonServiceClient_contract_witness :
  let item := JObj [("TableName", JStr "t")] in
  let config := ApiRequestConfig.mk "GetItem" None None None None false None None
                  (Some (BodyValue item)) None None in
  (ApiRequestConfig.body config = Some (BodyValue item)
   /\ js_truthy item = true
   /\ Headers_get (config_headers config) "x-amz-target" = None)
  /\ JsonServiceClient_performRequest "DynamoDB_20120810" "1.0" echoing config
                                      sample_state
     = (Ok (mkResponse 200 "OK"
              [ ("x-amz-target", "DynamoDB_20120810.GetItem");
                ("accept", "application/x-amz-json-1.0");
                ("content-type", "application/x-amz-json-1.0");
                ("content-length", "2") ]
              "{}"),
        sample_state)
  /\ Headers_get [ ("x-amz-target", "DynamoDB_20120810.GetItem");
                   ("accept", "application/x-amz-json-1.0");
                   ("content-type", "application/x-amz-json-1.0") ]
                 "x-amz-target"
     = Some "DynamoDB_20120810.GetItem".
Proof.
  intros item config.
  split; [repeat split; reflexivity|].
  destruct (JsonServiceClient_contract "DynamoDB_20120810" "1.0" echoing config)
    as [_ [Hget [Hvalue _]]].
  split.
  - rewrite (Hvalue item eq_refl eq_refl). reflexivity.
  - destruct (Hget [("content-type", "application/x-amz-json-1.0")]
                   (or_intror eq_refl)) as [Htarget _].
    exact (Htarget eq_refl).
Defined.

(* ================================================================== *)
(** ** Worked examples *)

Example slice_drops_units : slice 1 "/my-bucket/key" = "my-bucket/key".
Proof. reflexivity. Qed.

Example split_first_stops_at_query : split_first "my-bucket?versions" = "my-bucket".
Proof. reflexivity. Qed.

Example strip_suffix_of_global_endpoint :
  strip_amazonaws_suffix "iam.amazonaws.com" = "iam"
  /\ strip_amazonaws_suffix "sts.amazonaws.com.cn" = "sts.amazonaws.com.cn".
Proof. split; reflexivity. Qed.

Example set_replaces_and_append_adds :
  URLSearchParams_set [("a", "1"); ("b", "2"); ("a", "3")] "a" "9" = [("a", "9"); ("b", "2")]
  /\ URLSearchParams_append [("a", "1")] "a" "2" = [("a", "1"); ("a", "2")].
Proof. split; reflexivity. Qed.

Example get_joins_repeated_headers :
  Headers_get [("accept", "text/xml"); ("x", "y"); ("accept", "*/*")] "accept"
  = Some "text/xml, */*".
Proof. reflexivity. Qed.

Example bucket_with_dot_keeps_path_style :
  host_routing (sample_factory None None None) (sample_metadata "S3" "s3" None rest_xml)
               (FetchOpts.mk "/my.bucket/key" None false None)
  = FetchOpts.mk "/my.bucket/key" None false None.
Proof. reflexivity. Qed.

Example bucket_listing_keeps_query :
  host_routing (sample_factory None None None) (sample_metadata "S3" "s3" None rest_xml)
               (FetchOpts.mk "/my-bucket?list-type=2" None false None)
  = FetchOpts.mk "/?list-type=2" (Some "my-bucket.") false None.
Proof. reflexivity. Qed.

Example s3_call_end_to_end :
  call (sample_factory (Some "eu-west-1") None None)
       (sample_metadata "S3" "s3" None rest_xml)
       (ApiRequestConfig.mk "GetObject" (Some GET) (Some "/my-bucket/key") None None
                            false None None None None None)
       sample_state
  = (Ok (mkResponse 200 "OK"
           [ ("x-url", "https://my-bucket.s3.dualstack.eu-west-1.amazonaws.com/key");
             ("accept", "text/xml");
             ("x-signing-scope", "eu-west-1/s3") ]
           ""),
     mkState 1%nat [] 0%nat).
Proof. reflexivity. Qed.

Example ec2_call_end_to_end :
  call (sample_factory (Some "us-west-2") None None)
       (sample_metadata "EC2" "ec2" None ec2)
       (ApiRequestConfig.mk "DescribeInstances" None None None None false None None
                            (Some (BodyParams [("MaxResults", "5")])) None None)
       sample_state
  = (Ok (mkResponse 200 "OK"
           [ ("x-url", "https://api.ec2.us-west-2.aws/");
             ("accept", "text/xml");
             ("content-type", "application/x-www-form-urlencoded; charset=utf-8");
             ("content-length", "56");
             ("x-signing-scope", "us-west-2/ec2") ]
           ""),
     mkState 1%nat [] 0%nat).
Proof. reflexivity. Qed.

Example global_call_without_any_region :
  fst (call (sample_factory None None None)
            (sample_metadata "IAM" "iam" (Some "iam.amazonaws.com") query)
            (sample_config "ListUsers") sample_state)
  = Ok (mkResponse 200 "OK"
          [ ("x-url", "https://iam.amazonaws.com/");
            ("accept", "text/xml");
            ("x-signing-scope", "us-east-1/iam") ]
          "")
  /\ fst (call (sample_factory None None None)
               (sample_metadata "SQS" "sqs" None query)
               (sample_config "ListQueues") sample_state)
     = Throw (Error missing_region_message).
Proof. split; reflexivity. Qed.

Example s3_error_document :
  fst (handleErrorResponse
         (mkResponse 404 "Not Found" [("content-type", "application/xml")]
                     "<Error><Code>NoSuchKey</Code><Message>gone</Message></Error>")
         GET sample_state)
  = Throw (AwsServiceError
             (mkResponse 404 "Not Found" [("content-type", "application/xml")]
                         "<Error><Code>NoSuchKey</Code><Message>gone</Message></Error>")
             (JObj [("Code", JStr "NoSuchKey"); ("Message", JStr "gone")])
             None).
Proof. reflexivity. Qed.

(* ================================================================== *)
(** * Further properties of the code *)

(** ** The README generator *)

Example formatFileSize_rounds :
  formatFileSize (Int 1536) = "2 KiB" /\ formatFileSize (Int 1535) = "1 KiB"
  /\ formatFileSize (Int 266240) = "260 KiB" /\ formatFileSize NaN = "NaN KiB".
Proof. repeat split. Qed.

Example formatDuration_samples :
  formatDuration (Int 4237) = "4.2 sec" /\ formatDuration (Int 949) = "0.9 sec"
  /\ formatDuration (Int 950) = "1.0 sec" /\ formatDuration (Int 0) = "0.0 sec"
  /\ formatDuration (Int (-100)) = "-.1 sec" /\ formatDuration NaN = "Na.N sec".
Proof. repeat split. Qed.

Example split_samples :
  split "," "a,b,,c" = ["a"; "b"; ""; "c"] /\ split "," "" = [""]
  /\ split "ab" "xabab" = ["x"; ""; ""] /\ split "aa" "aaa" = [""; "a"]
  /\ split "" "abc" = ["a"; "b"; "c"].
Proof. repeat split. Qed.

(** *** Decimal text of an integer *)

Lemma to_uint_head_nonzero (p : positive) :
  exists h t,
    DecimalFacts.to_list (Pos.to_uint p) = h :: t /\ h <> DecimalFacts.d0.
Proof.
  pose proof (DecimalN.Unsigned.to_of (Pos.to_uint p)) as Hnorm.
  change (N.of_uint (Pos.to_uint p)) with (Pos.of_uint (Pos.to_uint p)) in Hnorm.
  rewrite DecimalPos.Unsigned.of_to in Hnorm. cbn [N.to_uint] in Hnorm.
  pose proof (DecimalPos.Unsigned.to_uint_nonzero p) as Hnz.
  apply (f_equal DecimalFacts.to_list) in Hnorm.
  rewrite DecimalFacts.unorm_spec in Hnorm.
  destruct (DecimalFacts.to_list (Pos.to_uint p)) as [|h t] eqn:Hl.
  - discriminate.
  - exists h, t. split; [reflexivity|]. intros ->.
    unfold DecimalFacts.lunorm in Hnorm. cbn [DecimalFacts.lnzhead] in Hnorm.
    destruct (DecimalFacts.lnzhead t) as [|h' t'] eqn:Hz.
    + injection Hnorm as Ht. subst t.
      apply Hnz. apply DecimalFacts.to_list_inj. rewrite Hl. reflexivity.
    + injection Hnorm as Hh Ht. subst h' t'.
      exact (DecimalFacts.lnzhead_neq_d0_head t t Hz).
Qed.

Lemma string_of_list_app (l l' : list DecimalFacts.digits) :
  NilEmpty.string_of_uint (DecimalFacts.of_list (l ++ l'))
  = NilEmpty.string_of_uint (DecimalFacts.of_list l)
    ++ NilEmpty.string_of_uint (DecimalFacts.of_list l').
Proof.
  induction l as [|h t IH]; [reflexivity|].
  destruct h;
    cbn [List.app DecimalFacts.of_list NilEmpty.string_of_uint append];
    rewrite IH; reflexivity.
Qed.

Ltac digit_cases k Hk :=
  let H := fresh "Hcases" in
  assert (H : (k = 0 \/ k = 1 \/ k = 2 \/ k = 3 \/ k = 4 \/ k = 5
               \/ k = 6 \/ k = 7 \/ k = 8 \/ k = 9)%N) by lia;
  decompose [or] H; subst k.

Lemma to_uint_snoc (p : positive) (k : N) :
  (k < 10)%N ->
  N.to_uint (k + 10 * N.pos p) = Decimal.app (Pos.to_uint p) (digit_uint k).
Proof.
  intros Hk.
  set (d := Decimal.app (Pos.to_uint p) (digit_uint k)).
  assert (Hval : N.of_uint d = (k + 10 * N.pos p)%N).
  { unfold N.of_uint. rewrite DecimalPos.Unsigned.of_uint_alt.
    assert (Hrev : Decimal.rev d
                   = Decimal.app (digit_uint k) (Decimal.rev (Pos.to_uint p))).
    { apply DecimalFacts.to_list_inj. unfold d.
      rewrite DecimalFacts.rev_spec, !DecimalFacts.app_spec,
        DecimalFacts.rev_spec, List.rev_app_distr.
      f_equal. digit_cases k Hk; reflexivity. }
    rewrite Hrev.
    rewrite <- (DecimalPos.Unsigned.of_to p).
    rewrite (DecimalPos.Unsigned.of_uint_alt (Pos.to_uint p)).
    digit_cases k Hk; reflexivity. }
  rewrite <- Hval, DecimalN.Unsigned.to_of.
  apply DecimalFacts.to_list_inj. rewrite DecimalFacts.unorm_spec.
  unfold d. rewrite DecimalFacts.app_spec.
  destruct (to_uint_head_nonzero p) as [h [t [Hl Hh]]].
  rewrite Hl. cbn [List.app]. unfold DecimalFacts.lunorm.
  rewrite (DecimalFacts.lnzhead_head_nd0 h _ Hh). reflexivity.
Qed.

Lemma string_of_Z_nonneg (z : Z) :
  0 <= z -> string_of_Z z = NilEmpty.string_of_uint (N.to_uint (Z.to_N z)).
Proof.
  intros Hz. destruct z as [|p|p]; [reflexivity| |lia].
  unfold string_of_Z. cbn [Z.to_int NilZero.string_of_int Z.to_N N.to_uint].
  pose proof (DecimalPos.Unsigned.to_uint_nonnil p) as Hnn.
  destruct (Pos.to_uint p); [contradiction|reflexivity..].
Qed.

Lemma string_of_digit (k : N) :
  (k < 10)%N -> NilEmpty.string_of_uint (digit_uint k) = string_of_Z (Z.of_N k).
Proof. intros Hk. digit_cases k Hk; reflexivity. Qed.

(** The decimal text of [z >= 10] is the text of [z / 10] followed by the
    digit [z mod 10]. *)
Lemma string_of_Z_snoc (z : Z) :
  10 <= z -> string_of_Z z = string_of_Z (z / 10) ++ string_of_Z (z mod 10).
Proof.
  intros Hz.
  assert (Hq : 0 < z / 10) by (apply Z.div_str_pos; lia).
  assert (Hr : 0 <= z mod 10 < 10) by (apply Z.mod_pos_bound; lia).
  rewrite (string_of_Z_nonneg z) by lia.
  rewrite (string_of_Z_nonneg (z / 10)) by lia.
  destruct (z / 10) as [|q|q] eqn:Eq; try lia.
  assert (Hsplit : Z.to_N z = (Z.to_N (z mod 10) + 10 * N.pos q)%N).
  { pose proof (Z.div_mod z 10) as Hdm. rewrite Eq in Hdm. lia. }
  rewrite Hsplit, to_uint_snoc by lia.
  rewrite <- (DecimalFacts.of_list_to_list (Decimal.app _ _)),
    DecimalFacts.app_spec, string_of_list_app.
  rewrite !DecimalFacts.of_list_to_list, string_of_digit by lia.
  rewrite Z2N.id by lia. reflexivity.
Qed.

Lemma string_of_Z_digit (z : Z) :
  0 <= z < 10 -> exists c, string_of_Z z = String c "".
Proof.
  intros Hz.
  assert (Hcases : z = 0 \/ z = 1 \/ z = 2 \/ z = 3 \/ z = 4 \/ z = 5
                   \/ z = 6 \/ z = 7 \/ z = 8 \/ z = 9) by lia.
  decompose [or] Hcases; subst z; eexists; reflexivity.
Qed.

Lemma append_assoc (a b c : string) : (a ++ b) ++ c = a ++ b ++ c.
Proof. induction a as [|x a IH]; simpl; [reflexivity | now rewrite IH]. Qed.

Lemma append_nil_r (a : string) : a ++ "" = a.
Proof. induction a as [|x a IH]; simpl; [reflexivity | now rewrite IH]. Qed.

Lemma length_append (a b : string) :
  (String.length (a ++ b) = String.length a + String.length b)%nat.
Proof. induction a as [|x a IH]; simpl; [reflexivity | now rewrite IH]. Qed.

Lemma slice_but_last_snoc (a : string) (c : ascii) :
  slice_but_last (a ++ String c "") = a.
Proof.
  induction a as [|x a IH]; [reflexivity|].
  cbn [append slice_but_last]. rewrite IH.
  destruct a; reflexivity.
Qed.

Lemma slice_last_snoc (a : string) (c : ascii) :
  slice_last (a ++ String c "") = String c "".
Proof.
  induction a as [|x a IH]; [reflexivity|].
  cbn [append slice_last]. rewrite IH.
  destruct a; reflexivity.
Qed.

Lemma string_of_Z_truthy (z : Z) : 0 <= z -> truthy_string (string_of_Z z) = true.
Proof.
  intros Hz. destruct (Z_lt_le_dec z 10) as [Hsmall|Hbig].
  - destruct (string_of_Z_digit z) as [c Hc]; [lia|]. rewrite Hc. reflexivity.
  - rewrite (string_of_Z_snoc z Hbig).
    destruct (string_of_Z_digit (z mod 10)) as [c Hc];
      [apply Z.mod_pos_bound; lia|].
    rewrite Hc. destruct (string_of_Z (z / 10)); reflexivity.
Qed.

(** X1.  For a safe integer, [formatFileSize] prints the integer nearest
    to [bytes / 1024], a half rounded up, followed by [" KiB"]: the printed
    [k] is the integer with [1024 k - 512 <= bytes < 1024 k + 512]. *)
Theorem formatFileSize_nearest (bytes : Z) :
  safe_integer bytes ->
  exists k,
    formatFileSize (Int bytes) = string_of_Z k ++ " KiB"
    /\ 1024 * k - 512 <= bytes < 1024 * k + 512.
Proof.
  intros _. exists ((2 * bytes + 1024) / (2 * 1024)). split; [reflexivity|].
  pose proof (Z.div_mod (2 * bytes + 1024) (2 * 1024)) as Hdm.
  pose proof (Z.mod_pos_bound (2 * bytes + 1024) (2 * 1024)) as Hb.
  lia.
Qed.

(** X2.  For a duration that is a safe integer and not negative,
    [formatDuration] prints the duration rounded to the nearest tenth of a second (a half rounded up)
    as the whole seconds, a dot and one digit: with [d] the number of
    tenths, [{d / 10}.{d mod 10} sec], where a duration under one second
    gets the leading [0]. *)
Theorem formatDuration_tenths (millis : Z) :
  safe_integer millis ->
  0 <= millis ->
  exists d,
    100 * d - 50 <= millis < 100 * d + 50
    /\ formatDuration (Int millis)
       = string_of_Z (d / 10) ++ "." ++ string_of_Z (d mod 10) ++ " sec".
Proof.
  intros _ Hm. exists ((2 * millis + 100) / (2 * 100)).
  set (d := (2 * millis + 100) / (2 * 100)).
  assert (Hd : 100 * d - 50 <= millis < 100 * d + 50).
  { pose proof (Z.div_mod (2 * millis + 100) (2 * 100)) as Hdm.
    pose proof (Z.mod_pos_bound (2 * millis + 100) (2 * 100)) as Hb.
    unfold d. lia. }
  split; [exact Hd|].
  assert (Hd0 : 0 <= d) by lia.
  unfold formatDuration. cbn [Math_round_div Number_toString]. fold d.
  destruct (Z_lt_le_dec d 10) as [Hsmall|Hbig].
  - destruct (string_of_Z_digit d) as [c Hc]; [lia|].
    rewrite (Z.div_small d 10), (Z.mod_small d 10) by lia.
    rewrite Hc. reflexivity.
  - rewrite (string_of_Z_snoc d Hbig).
    destruct (string_of_Z_digit (d mod 10)) as [c Hc];
      [apply Z.mod_pos_bound; lia|].
    rewrite Hc, slice_but_last_snoc, slice_last_snoc.
    rewrite string_of_Z_truthy by (apply Z.div_pos; lia).
    reflexivity.
Qed.

Lemma formatFileSize_nearest_witness :
  safe_integer 131584
  /\ exists k,
       formatFileSize (Int 131584) = string_of_Z k ++ " KiB"
       /\ 1024 * k - 512 <= 131584 < 1024 * k + 512.
Proof.
  assert (Hsafe : safe_integer 131584)
    by (unfold safe_integer, Number_MAX_SAFE_INTEGER; lia).
  split; [exact Hsafe|]. exact (formatFileSize_nearest 131584 Hsafe).
Defined.

Lemma formatDuration_tenths_witness :
  (safe_integer 4237 /\ 0 <= 4237)
  /\ exists d,
       100 * d - 50 <= 4237 < 100 * d + 50
       /\ formatDuration (Int 4237)
          = string_of_Z (d / 10) ++ "." ++ string_of_Z (d mod 10) ++ " sec".
Proof.
  assert (Hsafe : safe_integer 4237)
    by (unfold safe_integer, Number_MAX_SAFE_INTEGER; lia).
  split; [split; [exact Hsafe | lia]|].
  apply (formatDuration_tenths 4237 Hsafe). lia.
Defined.

(** *** Splitting at the barrier *)

(** A prefix of [x ++ rest] no longer than [x] is a prefix of [x]. *)
Lemma startsWith_app_inv (p x rest : string) :
  (String.length p <= String.length x)%nat ->
  startsWith p (x ++ rest) = startsWith p x.
Proof.
  unfold startsWith. revert x.
  induction p as [|c p IH]; intros x Hlen.
  - destruct x, rest; reflexivity.
  - destruct x as [|d x]; [simpl in Hlen; lia|].
    simpl. destruct (ascii_dec c d); [|reflexivity].
    apply IH. simpl in Hlen. lia.
Qed.

Lemma split_go_skip (sep x rest : string) :
  split_go sep (String.length x) (x ++ rest) = split_go sep 0 rest.
Proof.
  induction x as [|d x IH]; [|exact IH].
  destruct rest; reflexivity.
Qed.

Lemma split_go_match (sep rest : string) :
  sep <> "" -> split_go sep 0 (sep ++ rest) = "" :: split_go sep 0 rest.
Proof.
  intros Hsep. destruct sep as [|c sep]; [congruence|].
  change (String c sep ++ rest) with (String c (sep ++ rest)).
  cbn [split_go].
  change (String c (sep ++ rest)) with (String c sep ++ rest).
  rewrite startsWith_app.
  replace (String.length (String c sep) - 1)%nat with (String.length sep)
    by (cbn [String.length]; lia).
  rewrite split_go_skip. reflexivity.
Qed.

(** The pieces of a text whose first separator is known. *)
Lemma split_go_first (sep a rest : string) :
  sep <> "" ->
  indexOf sep (a ++ sep) = Some (String.length a) ->
  split_go sep 0 (a ++ sep ++ rest) = a :: split_go sep 0 rest.
Proof.
  intros Hsep. induction a as [|c a IH]; intros Hidx.
  - exact (split_go_match sep rest Hsep).
  - cbn [append] in Hidx |- *. cbn [indexOf String.length] in Hidx.
    destruct (startsWith sep (String c (a ++ sep))) eqn:Hstart; [discriminate|].
    destruct (indexOf sep (a ++ sep)) as [n|] eqn:Hn; [|discriminate].
    injection Hidx as Hn'. subst n.
    cbn [split_go].
    assert (Hno : startsWith sep (String c (a ++ sep ++ rest)) = false).
    { rewrite <- Hstart.
      change (String c (a ++ sep ++ rest)) with (String c a ++ sep ++ rest).
      rewrite <- append_assoc.
      change (String c (a ++ sep)) with (String c a ++ sep).
      apply startsWith_app_inv. rewrite length_append. lia. }
    rewrite Hno, (IH eq_refl). reflexivity.
Qed.

Lemma split_go_none (sep s : string) :
  includes sep s = false -> split_go sep 0 s = [s].
Proof.
  induction s as [|c s IH]; intros Hinc; [reflexivity|].
  cbn [includes] in Hinc. apply orb_false_iff in Hinc as [Hstart Hrest].
  cbn [split_go]. rewrite Hstart, (IH Hrest). reflexivity.
Qed.

Lemma split_barrier_first (a rest : string) :
  first_barrier_after a ->
  split genBarrier (a ++ genBarrier ++ rest) = a :: split genBarrier rest.
Proof. intros H. apply split_go_first; [discriminate | exact H]. Qed.

Lemma split_barrier_free (s : string) :
  barrier_free s -> split genBarrier s = [s].
Proof. intros H. apply split_go_none. exact H. Qed.


(** X3.  On a file of the form [intro], barrier, old block, barrier,
    [outro] (each barrier being the first one after what precedes it, and
    [outro] free of barriers), [updateFile] writes back the same file with
    the old block replaced by the header, an empty line and the new
    contents; [intro] and [outro] are kept as they are. *)
Theorem updateFile_replaces_block (header contents intro old outro : string) :
  first_barrier_after intro ->
  first_barrier_after old ->
  barrier_free outro ->
  updateFile_contents header contents
                      (intro ++ genBarrier ++ old ++ genBarrier ++ outro)
  = intro ++ genBarrier ++ generated_block header contents ++ genBarrier ++ outro.
Proof.
  intros Hintro Hold Houtro. unfold updateFile_contents.
  rewrite (split_barrier_first intro _ Hintro),
    (split_barrier_first old _ Hold), (split_barrier_free outro Houtro).
  reflexivity.
Qed.


(** X5.  On a file that does not have exactly two barriers, [updateFile]
    still writes intro, barrier, block, barrier, outro: a file without a
    barrier gets the block appended between two new barriers; with one
    barrier, what follows it is replaced and a closing barrier is added;
    with three barriers, the third barrier and everything after it are
    dropped. *)
Theorem updateFile_other_shapes (header contents : string) :
  let block := generated_block header contents in
  (forall text,
      barrier_free text ->
      updateFile_contents header contents text
      = text ++ genBarrier ++ block ++ genBarrier)
  /\ (forall intro old,
         first_barrier_after intro ->
         barrier_free old ->
         updateFile_contents header contents (intro ++ genBarrier ++ old)
         = intro ++ genBarrier ++ block ++ genBarrier)
  /\ (forall intro old outro lost,
         first_barrier_after intro ->
         first_barrier_after old ->
         first_barrier_after outro ->
         updateFile_contents
           header contents
           (intro ++ genBarrier ++ old ++ genBarrier ++ outro ++ genBarrier ++ lost)
         = intro ++ genBarrier ++ block ++ genBarrier ++ outro).
Proof.
  intros block. subst block. unfold updateFile_contents.
  split; [|split].
  - intros text Hfree. rewrite (split_barrier_free text Hfree). reflexivity.
  - intros intro old Hintro Hold.
    rewrite (split_barrier_first intro _ Hintro), (split_barrier_free old Hold).
    reflexivity.
  - intros intro old outro lost Hintro Hold Houtro.
    rewrite (split_barrier_first intro _ Hintro),
      (split_barrier_first old _ Hold), (split_barrier_first outro _ Houtro).
    reflexivity.
Qed.

Lemma updateFile_replaces_block_witness :
  (first_barrier_after "# aws_api" /\ first_barrier_after "old table"
   /\ barrier_free "See the wiki.")
  /\ updateFile_contents "As of v2" "| a |"
       ("# aws_api" ++ genBarrier ++ "old table" ++ genBarrier ++ "See the wiki.")
     = "# aws_api" ++ genBarrier ++ generated_block "As of v2" "| a |"
       ++ genBarrier ++ "See the wiki.".
Proof.
  split; [repeat split|].
  apply (updateFile_replaces_block "As of v2" "| a |" "# aws_api" "old table"
                                   "See the wiki."); reflexivity.
Defined.


Lemma updateFile_other_shapes_witness :
  (barrier_free "# aws_api" /\ first_barrier_after "# aws_api"
   /\ first_barrier_after "old" /\ first_barrier_after "outro")
  /\ updateFile_contents "h" "c" "# aws_api"
     = "# aws_api" ++ genBarrier ++ generated_block "h" "c" ++ genBarrier
  /\ updateFile_contents "h" "c"
       ("# aws_api" ++ genBarrier ++ "old" ++ genBarrier ++ "outro" ++ genBarrier
        ++ "lost")
     = "# aws_api" ++ genBarrier ++ generated_block "h" "c" ++ genBarrier ++ "outro".
Proof.
  split; [repeat split|].
  destruct (updateFile_other_shapes "h" "c") as [Hnone [_ Hthree]].
  split.
  - apply Hnone. reflexivity.
  - apply Hthree; reflexivity.
Defined.

(* ================================================================== *)
(** ** Host routing: all it ever does *)

Lemma split_first_decompose (t : string) :
  exists tail,
    t = split_first t ++ tail
    /\ is_segment (split_first t) = true
    /\ ends_segment tail = true
    /\ slice (String.length (split_first t)) t = tail.
Proof.
  induction t as [|c t IH].
  - exists "". repeat split.
  - cbn [split_first]. destruct (separator c) eqn:Hc.
    + exists (String c t). repeat split. exact Hc.
    + destruct IH as [tail [Heq [Hseg [Hend Hslice]]]].
      exists tail. cbn [append is_segment String.length slice].
      rewrite Hc, Hseg, Hslice. repeat split; try assumption.
      f_equal. exact Heq.
Qed.

Lemma append_truthy (a : string) (c : ascii) (b : string) :
  truthy_string (a ++ String c b) = true.
Proof. destruct a; reflexivity. Qed.

Section Routing.
Context {P : Platform}.

Lemma host_routing_cases (this : BaseApiFactory)
      (apiMetadata : ApiMetadata.t) (opts : FetchOpts.t) :
  host_routing this apiMetadata opts = opts
  \/ exists c bucket tail,
      ApiMetadata.serviceId apiMetadata = "S3"
      /\ FetchOpts.urlPath opts = String c (bucket ++ tail)
      /\ bucket <> ""
      /\ is_segment bucket = true
      /\ includes "." bucket = false
      /\ ends_segment tail = true
      /\ host_routing this apiMetadata opts
         = FetchOpts.mk (if startsWith "/" tail then tail else "/" ++ tail)
                        (Some (bucket ++ "."))
                        (FetchOpts.skipSigning opts)
                        (FetchOpts.region opts).
Proof.
  unfold host_routing.
  destruct (String.eqb (ApiMetadata.serviceId apiMetadata) "S3") eqn:Hs3;
    [|left; reflexivity].
  apply String.eqb_eq in Hs3.
  destruct (FetchOpts.urlPath opts) as [|c path] eqn:Hpath; [left; reflexivity|].
  destruct (truthy (FetchOpts.hostPrefix opts)); [left; reflexivity|].
  destruct (truthy (f_fixedEndpoint this)); [left; reflexivity|].
  cbn [truthy_string String.eqb negb andb slice].
  destruct (split_first_decompose path) as [tail [Heq [Hseg [Hend Hslice]]]].
  destruct (split_first path) as [|b bucket] eqn:Hbucket; [left; reflexivity|].
  cbn [String.length Nat.ltb Nat.leb andb].
  destruct (includes "." (String b bucket)) eqn:Hdot; [left; reflexivity|].
  right. exists c, (String b bucket), tail.
  cbn [negb].
  replace (slice (S (String.length bucket) + 1) (String c path)) with tail
    by (rewrite Nat.add_1_r; cbn [slice String.length] in Hslice |- *;
        symmetry; exact Hslice).
  repeat split; try assumption; try discriminate.
  f_equal. exact Heq.
Qed.

(** X6.  Host routing either leaves the options of a call as they are, or
    (for the storage service only) cuts the path [c{bucket}{tail}] after
    its first unit into a non-empty, dot-free first segment, which becomes
    the host prefix [{bucket}.], and the rest, which becomes the path with
    a leading [/] ensured, so that no unit of the path after the first is
    lost; region and signing flag are never touched. *)
Theorem host_routing_characterised (this : BaseApiFactory)
        (apiMetadata : ApiMetadata.t) (opts : FetchOpts.t) :
  host_routing this apiMetadata opts = opts
  \/ exists c bucket tail,
      ApiMetadata.serviceId apiMetadata = "S3"
      /\ FetchOpts.urlPath opts = String c (bucket ++ tail)
      /\ bucket <> ""
      /\ is_segment bucket = true
      /\ includes "." bucket = false
      /\ ends_segment tail = true
      /\ host_routing this apiMetadata opts
         = FetchOpts.mk (if startsWith "/" tail then tail else "/" ++ tail)
                        (Some (bucket ++ "."))
                        (FetchOpts.skipSigning opts)
                        (FetchOpts.region opts)
      /\ startsWith "/" (FetchOpts.urlPath (host_routing this apiMetadata opts)) = true.
Proof.
  destruct (host_routing_cases this apiMetadata opts)
    as [Hsame | [c [bucket [tail [Hs3 [Hpath [Hne [Hseg [Hdot [Hend Hrw]]]]]]]]]].
  - left. exact Hsame.
  - right. exists c, bucket, tail. repeat split; try assumption.
    rewrite Hrw. cbn [FetchOpts.urlPath].
    destruct (startsWith "/" tail) eqn:Hslash; [exact Hslash|].
    exact (startsWith_app "/" tail).
Qed.

(** X7.  Host routing is idempotent: once a path has been rewritten, the
    host prefix is set and a second pass changes nothing. *)
Theorem host_routing_idempotent (this : BaseApiFactory)
        (apiMetadata : ApiMetadata.t) (opts : FetchOpts.t) :
  host_routing this apiMetadata (host_routing this apiMetadata opts)
  = host_routing this apiMetadata opts.
Proof.
  destruct (host_routing_cases this apiMetadata opts)
    as [Hsame | [c [bucket [tail [_ [_ [_ [_ [_ [_ Hrw]]]]]]]]]].
  - rewrite Hsame. exact Hsame.
  - rewrite Hrw. unfold host_routing at 1. cbn [FetchOpts.hostPrefix truthy].
    rewrite append_truthy. cbn [negb]. rewrite andb_false_r. reflexivity.
Qed.

End Routing.

(* ================================================================== *)
(** ** Partition domains and global endpoints *)

(** X8.  [getRootDomain] answers one of five domains; it answers [aws]
    exactly for the compute service in an allow-listed region, and for
    every other service the answer depends on the region alone. *)
Theorem getRootDomain_range (serviceId region : string) :
  In (getRootDomain serviceId (Some region))
     ["aws"; "amazonaws.com.cn"; "c2s.ic.gov"; "sc2s.sgov.gov"; "amazonaws.com"]
  /\ (getRootDomain serviceId (Some region) = "aws"
      <-> serviceId = "EC2" /\ In region dualStackEc2Regions)
  /\ (forall other,
         serviceId <> "EC2" -> other <> "EC2" ->
         getRootDomain serviceId (Some region) = getRootDomain other (Some region)).
Proof.
  split; [|split].
  - unfold getRootDomain, nullish.
    destruct (_ && _)%bool; [simpl; tauto|].
    destruct (startsWith "cn-" region); [simpl; tauto|].
    destruct (startsWith "us-iso-" region); [simpl; tauto|].
    destruct (startsWith "us-isob-" region); simpl; tauto.
  - split.
    + intros Haws.
      destruct (String.eqb serviceId "EC2" && Set_has dualStackEc2Regions region)%bool
        eqn:Hgate.
      * apply andb_true_iff in Hgate as [Hid Hin].
        apply String.eqb_eq in Hid. apply Set_has_In in Hin. split; assumption.
      * unfold getRootDomain, nullish in Haws. rewrite Hgate in Haws.
        destruct (startsWith "cn-" region); [discriminate|].
        destruct (startsWith "us-iso-" region); [discriminate|].
        destruct (startsWith "us-isob-" region); discriminate.
    + intros [-> Hin]. apply Set_has_In in Hin.
      unfold getRootDomain, nullish. rewrite Hin. reflexivity.
  - intros other Hs Ho. apply String.eqb_neq in Hs, Ho.
    unfold getRootDomain, nullish. rewrite Hs, Ho. reflexivity.
Qed.

Lemma getRootDomain_range_witness :
  ("SQS" <> "EC2" /\ "S3" <> "EC2")
  /\ getRootDomain "SQS" (Some "cn-north-1") = getRootDomain "S3" (Some "cn-north-1").
Proof.
  split; [split; discriminate|].
  apply (proj2 (proj2 (getRootDomain_range "SQS" "cn-north-1"))); discriminate.
Defined.

Lemma endsWith_app (p a : string) : endsWith p (a ++ p) = true.
Proof.
  induction a as [|c a IH]; cbn [append].
  - destruct p; cbn [endsWith]; rewrite String.eqb_refl; reflexivity.
  - cbn [endsWith]. rewrite IH. apply orb_true_r.
Qed.

Lemma substring_prefix (a b : string) : substring 0 (String.length a) (a ++ b) = a.
Proof.
  induction a as [|c a IH]; cbn [append String.length substring].
  - destruct b; reflexivity.
  - rewrite IH. reflexivity.
Qed.

(** The suffix [.amazonaws.com] comes off a global endpoint. *)
Lemma strip_amazonaws_suffix_app (p : string) :
  strip_amazonaws_suffix (p ++ ".amazonaws.com") = p.
Proof.
  unfold strip_amazonaws_suffix. rewrite endsWith_app, length_append.
  rewrite Nat.add_sub. apply substring_prefix.
Qed.

Section GlobalEndpoint.
Context {P : Platform}.

(** X9.  A service whose metadata declares the global endpoint
    [{name}.amazonaws.com] is called, when signed and without a per-call
    region, for the region [us-east-1] at [https://{hostPrefix}{name}.amazonaws.com]:
    the declared endpoint comes back as the host, whatever region the
    factory or the credentials carry. *)
Theorem global_endpoint_round_trip (this : BaseApiFactory)
        (apiMetadata : ApiMetadata.t) (opts : FetchOpts.t)
        (credentials : Credentials) (s : State) (name : string) :
  ApiMetadata.globalEndpoint apiMetadata = Some (name ++ ".amazonaws.com") ->
  name <> "" ->
  ApiMetadata.serviceId apiMetadata <> "EC2" ->
  truthy (f_fixedEndpoint this) = false ->
  f_baseDomain this = None ->
  FetchOpts.region opts = None ->
  signing_region this apiMetadata opts credentials s = (Ok "us-east-1", s)
  /\ signed_endpoint this apiMetadata opts "us-east-1"
                     (baseDomain_for this apiMetadata (Some "us-east-1"))
     = "https://" ++ nullish (FetchOpts.hostPrefix opts) ""
                  ++ name ++ ".amazonaws.com".
Proof.
  intros Hglobal Hname Hid Hfixed Hbase Hregion. split.
  - unfold signing_region. rewrite Hregion, Hglobal. cbn [truthy].
    rewrite append_truthy. reflexivity.
  - unfold signed_endpoint, globalEndpointPrefix, baseDomain_for, endpoint_template.
    rewrite Hfixed, Hbase, Hglobal. cbn [option_map nullish truthy].
    rewrite strip_amazonaws_suffix_app.
    apply truthy_string_true in Hname. rewrite Hname.
    apply String.eqb_neq in Hid.
    unfold getRootDomain, nullish. rewrite Hid. cbn [andb].
    change (startsWith "cn-" "us-east-1") with false.
    change (startsWith "us-iso-" "us-east-1") with false.
    change (startsWith "us-isob-" "us-east-1") with false.
    cbn [String.eqb Ascii.eqb Bool.eqb]. reflexivity.
Qed.

End GlobalEndpoint.

Lemma global_endpoint_round_trip_witness :
  let this := sample_factory (Some "eu-west-1") None None in
  let iam := sample_metadata "IAM" "iam" (Some "iam.amazonaws.com") query in
  let opts := FetchOpts.mk "/" None false None in
  (ApiMetadata.globalEndpoint iam = Some ("iam" ++ ".amazonaws.com")
   /\ "iam" <> "" /\ ApiMetadata.serviceId iam <> "EC2"
   /\ truthy (f_fixedEndpoint this) = false /\ f_baseDomain this = None
   /\ FetchOpts.region opts = None)
  /\ signed_endpoint this iam opts "us-east-1"
                     (baseDomain_for this iam (Some "us-east-1"))
     = "https://iam.amazonaws.com".
Proof.
  intros this iam opts.
  split; [repeat split; discriminate|].
  apply (proj2 (global_endpoint_round_trip this iam opts sample_credentials
                  sample_state "iam" eq_refl ltac:(discriminate)
                  ltac:(discriminate) eq_refl eq_refl eq_refl)).
Defined.

(* ================================================================== *)
(** ** The fetcher: unsigned calls, failing credentials, fixed endpoints *)

Section Fetcher.
Context {P : Platform}.

Lemma host_routing_skipSigning (this : BaseApiFactory)
      (apiMetadata : ApiMetadata.t) (opts : FetchOpts.t) :
  FetchOpts.skipSigning (host_routing this apiMetadata opts)
  = FetchOpts.skipSigning opts
  /\ FetchOpts.region (host_routing this apiMetadata opts) = FetchOpts.region opts.
Proof.
  unfold host_routing.
  destruct (_ && _ && _ && _)%bool; [|split; reflexivity].
  destruct (_ && _)%bool; split; reflexivity.
Qed.

Lemma host_routing_provider (this : BaseApiFactory) (provider : CredentialsProvider)
      (apiMetadata : ApiMetadata.t) (opts : FetchOpts.t) :
  host_routing (mkFactory provider (f_region this) (f_fixedEndpoint this)
                          (f_baseDomain this)) apiMetadata opts
  = host_routing this apiMetadata opts.
Proof. reflexivity. Qed.

(** X10.  An unsigned call whose region is known from the call or from the
    factory never consults the credentials provider and never signs: the
    fetcher does the same with any other provider in the factory, and
    what it does is to resolve the routed path against the endpoint and
    fetch the caller's request at that URL. *)
Theorem unsigned_call_skips_credentials (this : BaseApiFactory)
        (apiMetadata : ApiMetadata.t) (request : Request) (opts : FetchOpts.t)
        (region : string) :
  FetchOpts.skipSigning opts = true ->
  nullish (FetchOpts.region opts) (nullish (f_region this) "") = region ->
  FetchOpts.region opts <> None \/ f_region this <> None ->
  let routed := host_routing this apiMetadata opts in
  let host :=
    if truthy (globalEndpointPrefix apiMetadata)
    then nullish (globalEndpointPrefix apiMetadata) ""
    else endpointPrefix apiMetadata ++ "." ++ region in
  (forall provider,
      signingFetcher (mkFactory provider (f_region this) (f_fixedEndpoint this)
                                (f_baseDomain this)) apiMetadata request opts
      = signingFetcher this apiMetadata request opts)
  /\ signingFetcher this apiMetadata request opts
     = (url <- pure_call
                 (new_URL (FetchOpts.urlPath routed)
                          (unsigned_endpoint this apiMetadata routed (Some region)
                                             host)) ;;
        world_call (fetch (unsigned_request url request))).
Proof.
  intros Hskip Hregion Hknown routed host. subst routed host.
  assert (Hresolved :
            forall provider,
              unsigned_region
                (mkFactory provider (f_region this) (f_fixedEndpoint this)
                           (f_baseDomain this))
                (host_routing this apiMetadata opts)
              = ret (Some region)).
  { intros provider. unfold unsigned_region. cbn [f_region].
    rewrite (proj2 (host_routing_skipSigning this apiMetadata opts)).
    destruct (FetchOpts.region opts) as [r|].
    - cbn [nullish] in Hregion. subst r. reflexivity.
    - destruct (f_region this) as [r|].
      + cbn [nullish] in Hregion. subst r. reflexivity.
      + destruct Hknown as [H|H]; contradiction. }
  assert (Hform :
            forall provider,
              signingFetcher
                (mkFactory provider (f_region this) (f_fixedEndpoint this)
                           (f_baseDomain this)) apiMetadata request opts
              = (url <- pure_call
                          (new_URL (FetchOpts.urlPath (host_routing this apiMetadata opts))
                                   (unsigned_endpoint
                                      this apiMetadata
                                      (host_routing this apiMetadata opts) (Some region)
                                      (if truthy (globalEndpointPrefix apiMetadata)
                                       then nullish (globalEndpointPrefix apiMetadata) ""
                                       else endpointPrefix apiMetadata ++ "." ++ region))) ;;
                 world_call (fetch (unsigned_request url request)))).
  { intros provider. unfold signingFetcher.
    rewrite host_routing_provider.
    rewrite (proj1 (host_routing_skipSigning this apiMetadata opts)), Hskip.
    rewrite Hresolved. unfold unsigned_endpoint. cbn [f_fixedEndpoint].
    destruct (f_fixedEndpoint this) as [fixed|]; [reflexivity|].
    destruct (truthy (globalEndpointPrefix apiMetadata)); reflexivity. }
  split.
  - intros provider. rewrite Hform.
    rewrite <- (Hform (f_credentials this)). destruct this; reflexivity.
  - rewrite <- (Hform (f_credentials this)). destruct this; reflexivity.
Qed.

(** X11.  When the credentials provider fails, a signed call fails with
    the provider's exception and sends nothing.  An unsigned call that
    had to ask the provider for a region goes on without one: to a fixed
    endpoint or to a global endpoint it fetches all the same; otherwise
    it fails with the missing-region error. *)
Theorem credentials_failure (this : BaseApiFactory) (apiMetadata : ApiMetadata.t)
        (request : Request) (opts : FetchOpts.t) (s : State)
        (name message : string) (w : World) :
  getCredentials (f_credentials this) (world s) = (Raise name message, w) ->
  let routed := host_routing this apiMetadata opts in
  let run := signingFetcher this apiMetadata request opts s in
  (FetchOpts.skipSigning opts = false ->
   run = (Throw (Foreign name message), with_world s w))
  /\ (FetchOpts.skipSigning opts = true ->
      FetchOpts.region opts = None ->
      f_region this = None ->
      (forall fixed,
          f_fixedEndpoint this = Some fixed ->
          run = (url <- pure_call (new_URL (FetchOpts.urlPath routed) fixed) ;;
                 world_call (fetch (unsigned_request url request)))
                  (with_world s w))
      /\ (f_fixedEndpoint this = None ->
          truthy (globalEndpointPrefix apiMetadata) = true ->
          run = (url <- pure_call
                          (new_URL (FetchOpts.urlPath routed)
                                   (endpoint_template
                                      (FetchOpts.hostPrefix routed)
                                      (baseDomain_for this apiMetadata None)
                                      (nullish (globalEndpointPrefix apiMetadata) ""))) ;;
                 world_call (fetch (unsigned_request url request)))
                  (with_world s w))
      /\ (f_fixedEndpoint this = None ->
          truthy (globalEndpointPrefix apiMetadata) = false ->
          run = (Throw (Error missing_region_message), with_world s w))).
Proof.
  intros Hfail routed run. subst routed run.
  unfold signingFetcher.
  rewrite (proj1 (host_routing_skipSigning this apiMetadata opts)).
  split.
  - intros ->. unfold bind at 1. unfold world_call at 1. rewrite Hfail. reflexivity.
  - intros -> Hregion Hfactory.
    assert (Hnone : unsigned_region this (host_routing this apiMetadata opts) s
                    = (Ok None, with_world s w)).
    { unfold unsigned_region.
      rewrite (proj2 (host_routing_skipSigning this apiMetadata opts)),
        Hregion, Hfactory.
      unfold credentials_region_if_any. rewrite Hfail. reflexivity. }
    split; [|split].
    + intros fixed Hfixed. unfold bind at 1. rewrite Hnone, Hfixed. reflexivity.
    + intros Hfixed Hglobal. unfold bind at 1.
      rewrite Hnone, Hfixed, Hglobal. reflexivity.
    + intros Hfixed Hglobal. unfold bind at 1.
      rewrite Hnone, Hfixed, Hglobal. reflexivity.
Qed.

(** X12.  With a fixed endpoint configured, a signed call is resolved
    against that endpoint as it is: no host routing, no host prefix, no
    partition domain.  The region is still resolved for the signature, so
    the call still fails with the missing-region error when there is
    none. *)
Theorem fixed_endpoint_signed (this : BaseApiFactory) (apiMetadata : ApiMetadata.t)
        (request : Request) (opts : FetchOpts.t) (credentials : Credentials)
        (s : State) (w : World) (fixed : string) :
  f_fixedEndpoint this = Some fixed ->
  includes "://" fixed = true ->
  FetchOpts.skipSigning opts = false ->
  getCredentials (f_credentials this) (world s) = (Value credentials, w) ->
  signingFetcher this apiMetadata request opts s
  = match fst (signing_region this apiMetadata opts credentials (with_world s w)) with
    | Ok region =>
        (fullUrl <- pure_call (new_URL (FetchOpts.urlPath opts) fixed) ;;
         req <- world_call
                  (AWSSignerV4_sign region credentials
                     (nullish (ApiMetadata.signingName apiMetadata)
                              (ApiMetadata.endpointPrefix apiMetadata))
                     fullUrl request) ;;
         world_call (fetch req)) (with_world s w)
    | Throw e => (Throw e, with_world s w)
    end.
Proof.
  intros Hfixed Hscheme Hsigned Hcreds.
  assert (Htruthy : truthy (f_fixedEndpoint this) = true).
  { rewrite Hfixed. exact (includes_nonempty "://" fixed ltac:(discriminate) Hscheme). }
  assert (Hrouted : host_routing this apiMetadata opts = opts).
  { unfold host_routing. rewrite Htruthy. cbn [negb].
    rewrite andb_false_r. reflexivity. }
  unfold signingFetcher. rewrite Hrouted, Hsigned.
  unfold bind at 1. unfold world_call at 1. rewrite Hcreds. cbn [of_platform].
  fold (with_world s w).
  unfold bind at 1. unfold signed_endpoint. rewrite Htruthy, Hfixed. cbn [nullish].
  unfold signing_region.
  destruct (FetchOpts.region opts); [reflexivity|].
  destruct (truthy (ApiMetadata.globalEndpoint apiMetadata)); [reflexivity|].
  destruct (f_region this); [reflexivity|].
  destruct (cred_region credentials); reflexivity.
Qed.

End Fetcher.

Lemma unsigned_call_skips_credentials_witness :
  let this := failing_factory (Some "eu-west-1") None None in
  let sts := sample_metadata "STS" "sts" None query in
  let opts := FetchOpts.mk "/" None true None in
  (FetchOpts.skipSigning opts = true
   /\ nullish (FetchOpts.region opts) (nullish (f_region this) "") = "eu-west-1"
   /\ (FetchOpts.region opts <> None \/ f_region this <> None))
  /\ signingFetcher this sts sample_request opts sample_state
     = (Ok (mkResponse 200 "OK" [("x-url", "https://sts.eu-west-1.amazonaws.com/")] ""),
        mkState 1%nat [] 0%nat).
Proof.
  intros this sts opts.
  assert (Hknown : FetchOpts.region opts <> None \/ f_region this <> None)
    by (right; discriminate).
  split; [repeat split; exact Hknown|].
  rewrite (proj2 (unsigned_call_skips_credentials this sts sample_request opts
                    "eu-west-1" eq_refl eq_refl Hknown)).
  reflexivity.
Defined.

Lemma credentials_failure_witness :
  let regional := failing_factory None None None in
  let sts := sample_metadata "STS" "sts" None query in
  let signed := FetchOpts.mk "/" None false None in
  let unsigned := FetchOpts.mk "/" None true None in
  (getCredentials (f_credentials regional) (world sample_state)
   = (Raise "CredentialsError" "no credentials", 0%nat)
   /\ FetchOpts.skipSigning signed = false
   /\ FetchOpts.skipSigning unsigned = true
   /\ FetchOpts.region unsigned = None
   /\ f_region regional = None
   /\ f_fixedEndpoint regional = None
   /\ truthy (globalEndpointPrefix sts) = false)
  /\ signingFetcher regional sts sample_request signed sample_state
     = (Throw (Foreign "CredentialsError" "no credentials"), sample_state)
  /\ signingFetcher regional sts sample_request unsigned sample_state
     = (Throw (Error missing_region_message), sample_state).
Proof.
  intros regional sts signed unsigned.
  split; [repeat split|].
  split.
  - exact (proj1 (credentials_failure regional sts sample_request signed sample_state
                    "CredentialsError" "no credentials" 0%nat eq_refl) eq_refl).
  - destruct (credentials_failure regional sts sample_request unsigned sample_state
                "CredentialsError" "no credentials" 0%nat eq_refl) as [_ Hunsigned].
    destruct (Hunsigned eq_refl eq_refl eq_refl) as [_ [_ Hmissing]].
    exact (Hmissing eq_refl eq_refl).
Defined.

Lemma fixed_endpoint_signed_witness :
  let this := sample_factory (Some "us-east-1") (Some "http://localhost:9000") None in
  let s3meta := sample_metadata "S3" "s3" None rest_xml in
  let opts := FetchOpts.mk "/my-bucket/key" None false None in
  (f_fixedEndpoint this = Some "http://localhost:9000"
   /\ includes "://" "http://localhost:9000" = true
   /\ FetchOpts.skipSigning opts = false
   /\ getCredentials (f_credentials this) (world sample_state)
      = (Value sample_credentials, 0%nat))
  /\ signingFetcher this s3meta sample_request opts sample_state
     = (Ok (mkResponse 200 "OK"
              [ ("x-url", "http://localhost:9000/my-bucket/key");
                ("x-signing-scope", "us-east-1/s3") ]
              ""),
        mkState 1%nat [] 0%nat).
Proof.
  intros this s3meta opts.
  split; [repeat split|].
  rewrite (fixed_endpoint_signed this s3meta sample_request opts sample_credentials
             sample_state 0%nat "http://localhost:9000" eq_refl eq_refl eq_refl
             eq_refl).
  reflexivity.
Defined.

(* ================================================================== *)
(** ** Bucket calls end to end, and the two checks of the factory *)

Section Composition.
Context {P : Platform}.

Lemma host_routing_rewrite (this : BaseApiFactory) (apiMetadata : ApiMetadata.t)
      (opts : FetchOpts.t) (bucket rest : string) :
  ApiMetadata.serviceId apiMetadata = "S3" ->
  FetchOpts.urlPath opts = "/" ++ bucket ++ rest ->
  is_segment bucket = true ->
  ends_segment rest = true ->
  bucket <> "" ->
  includes "." bucket = false ->
  truthy (FetchOpts.hostPrefix opts) = false ->
  truthy (f_fixedEndpoint this) = false ->
  host_routing this apiMetadata opts
  = FetchOpts.mk (if startsWith "/" rest then rest else "/" ++ rest)
                 (Some (bucket ++ "."))
                 (FetchOpts.skipSigning opts)
                 (FetchOpts.region opts).
Proof.
  intros Hs3 Hpath Hseg Hrest Hne Hdot Hprefix Hfixed.
  unfold host_routing. rewrite Hs3, Hpath, Hprefix, Hfixed.
  change (slice 1 ("/" ++ bucket ++ rest)) with (bucket ++ rest).
  rewrite (split_first_segment bucket rest Hseg Hrest).
  rewrite Hdot, (length_pos bucket Hne), slice_past_bucket. reflexivity.
Qed.

(** X13.  A signed call of the storage service on the path
    [/{bucket}{rest}] (bucket non-empty and dot-free; no fixed endpoint,
    base domain, host prefix or global endpoint in effect) is sent to the
    bucket's own dual-stack host: the path [rest] (behind a [/]) is
    resolved against [https://{bucket}.s3.dualstack.{region}.{domain}],
    signed for that region under the service's signing name, and
    fetched. *)
Theorem s3_bucket_call (this : BaseApiFactory) (apiMetadata : ApiMetadata.t)
        (request : Request) (opts : FetchOpts.t) (credentials : Credentials)
        (s : State) (w : World) (bucket rest region : string) :
  ApiMetadata.serviceId apiMetadata = "S3" ->
  truthy (globalEndpointPrefix apiMetadata) = false ->
  truthy (f_fixedEndpoint this) = false ->
  f_baseDomain this = None ->
  truthy (FetchOpts.hostPrefix opts) = false ->
  FetchOpts.skipSigning opts = false ->
  FetchOpts.urlPath opts = "/" ++ bucket ++ rest ->
  is_segment bucket = true ->
  ends_segment rest = true ->
  bucket <> "" ->
  includes "." bucket = false ->
  getCredentials (f_credentials this) (world s) = (Value credentials, w) ->
  signing_region this apiMetadata opts credentials (with_world s w)
  = (Ok region, with_world s w) ->
  signingFetcher this apiMetadata request opts s
  = (fullUrl <- pure_call
                  (new_URL (if startsWith "/" rest then rest else "/" ++ rest)
                           ("https://" ++ (bucket ++ ".")
                            ++ ("s3.dualstack" ++ "." ++ region) ++ "."
                            ++ getRootDomain "S3" (Some region))) ;;
     req <- world_call
              (AWSSignerV4_sign region credentials
                 (nullish (ApiMetadata.signingName apiMetadata)
                          (ApiMetadata.endpointPrefix apiMetadata))
                 fullUrl request) ;;
     world_call (fetch req)) (with_world s w).
Proof.
  intros Hs3 Hglobal Hfixed Hbase Hprefix Hsigned Hpath Hseg Hrest Hne Hdot
         Hcreds Hregion.
  unfold signingFetcher.
  rewrite (host_routing_rewrite this apiMetadata opts bucket rest
             Hs3 Hpath Hseg Hrest Hne Hdot Hprefix Hfixed).
  cbn [FetchOpts.skipSigning FetchOpts.urlPath]. rewrite Hsigned.
  unfold bind at 1. unfold world_call at 1. rewrite Hcreds. cbn [of_platform].
  fold (with_world s w).
  unfold bind at 1.
  assert (Hsame :
            signing_region this apiMetadata
              (FetchOpts.mk (if startsWith "/" rest then rest else "/" ++ rest)
                            (Some (bucket ++ ".")) false (FetchOpts.region opts))
              credentials
            = signing_region this apiMetadata opts credentials) by reflexivity.
  rewrite Hsame, Hregion.
  unfold signed_endpoint, baseDomain_for, endpoint_template, endpointPrefix.
  rewrite Hfixed, Hbase, Hglobal, Hs3. cbn [nullish FetchOpts.hostPrefix].
  change (String.eqb "S3" "S3") with true. cbn iota.
  assert (Hna : String.eqb (getRootDomain "S3" (Some region)) "aws" = false)
    by (apply getRootDomain_not_aws; reflexivity).
  rewrite Hna. reflexivity.
Qed.

(** X14.  [determineCurrentRegion] answers the factory's region without
    consulting the credentials provider; without one it answers the hint
    of the credentials, fails with the missing-region error when they
    carry none, and passes on a failure of the provider.  Its answer is
    the region under which a regional service is signed when the call
    names no region. *)
Theorem determineCurrentRegion_agrees (this : BaseApiFactory) (s : State) :
  (forall r, f_region this = Some r -> determineCurrentRegion this s = (Ok r, s))
  /\ (forall name message w,
         f_region this = None ->
         getCredentials (f_credentials this) (world s) = (Raise name message, w) ->
         determineCurrentRegion this s = (Throw (Foreign name message), with_world s w))
  /\ (forall credentials w,
         f_region this = None ->
         getCredentials (f_credentials this) (world s) = (Value credentials, w) ->
         determineCurrentRegion this s
         = (match cred_region credentials with
            | Some r => Ok r
            | None => Throw (Error missing_region_message)
            end, with_world s w))
  /\ (forall credentials w apiMetadata opts,
         getCredentials (f_credentials this) (world s) = (Value credentials, w) ->
         FetchOpts.region opts = None ->
         truthy (ApiMetadata.globalEndpoint apiMetadata) = false ->
         fst (determineCurrentRegion this s)
         = fst (signing_region this apiMetadata opts credentials (with_world s w))).
Proof.
  unfold determineCurrentRegion.
  split; [|split; [|split]].
  - intros r ->. reflexivity.
  - intros name message w -> Hfail.
    unfold bind, world_call. rewrite Hfail. reflexivity.
  - intros credentials w -> Hcreds.
    unfold bind, world_call. rewrite Hcreds. cbn [of_platform].
    destruct (cred_region credentials); reflexivity.
  - intros credentials w apiMetadata opts Hcreds Hregion Hglobal.
    unfold signing_region. rewrite Hregion, Hglobal.
    destruct (f_region this) as [r|]; [reflexivity|].
    unfold bind, world_call. rewrite Hcreds. cbn [of_platform].
    destruct (cred_region credentials); reflexivity.
Qed.

(** X15.  [ensureCredentialsAvailable] returns exactly when the provider
    answers with credentials whose access key id is not empty; with an
    empty one it throws the "Empty credentials" error, and a failure of
    the provider is passed on. *)
Theorem ensureCredentialsAvailable_accepts (this : BaseApiFactory) (s : State) :
  (fst (ensureCredentialsAvailable this s) = Ok tt
   <-> exists credentials w,
        getCredentials (f_credentials this) (world s) = (Value credentials, w)
        /\ awsAccessKeyId credentials <> "")
  /\ (forall credentials w,
         getCredentials (f_credentials this) (world s) = (Value credentials, w) ->
         awsAccessKeyId credentials = "" ->
         ensureCredentialsAvailable this s
         = (Throw (Error "Empty credentials were returned successfully (somehow?)"),
            with_world s w))
  /\ (forall name message w,
         getCredentials (f_credentials this) (world s) = (Raise name message, w) ->
         ensureCredentialsAvailable this s
         = (Throw (Foreign name message), with_world s w)).
Proof.
  unfold ensureCredentialsAvailable, bind, world_call.
  split; [|split].
  - destruct (getCredentials (f_credentials this) (world s)) as [[credentials|n m] w].
    + cbn [of_platform].
      destruct (truthy_string (awsAccessKeyId credentials)) eqn:Hkey.
      * split; [|reflexivity]. intros _. exists credentials, w.
        split; [reflexivity|]. apply truthy_string_true. exact Hkey.
      * split; [discriminate|]. intros [c [w' [Heq Hne]]].
        injection Heq as <- _. apply truthy_string_true in Hne. congruence.
    + split; [discriminate|]. intros [c [w' [Heq _]]]. discriminate.
  - intros credentials w -> Hempty. cbn [of_platform]. rewrite Hempty. reflexivity.
  - intros name message w ->. reflexivity.
Qed.

End Composition.

Lemma s3_bucket_call_witness :
  let this := sample_factory (Some "eu-west-1") None None in
  let s3meta := sample_metadata "S3" "s3" None rest_xml in
  let opts := FetchOpts.mk "/my-bucket/key" None false None in
  (ApiMetadata.serviceId s3meta = "S3"
   /\ truthy (globalEndpointPrefix s3meta) = false
   /\ truthy (f_fixedEndpoint this) = false
   /\ f_baseDomain this = None
   /\ truthy (FetchOpts.hostPrefix opts) = false
   /\ FetchOpts.skipSigning opts = false
   /\ FetchOpts.urlPath opts = "/" ++ "my-bucket" ++ "/key"
   /\ is_segment "my-bucket" = true
   /\ ends_segment "/key" = true
   /\ "my-bucket" <> ""
   /\ includes "." "my-bucket" = false
   /\ getCredentials (f_credentials this) (world sample_state)
      = (Value sample_credentials, 0%nat)
   /\ signing_region this s3meta opts sample_credentials (with_world sample_state 0%nat)
      = (Ok "eu-west-1", with_world sample_state 0%nat))
  /\ signingFetcher this s3meta sample_request opts sample_state
     = (Ok (mkResponse 200 "OK"
              [ ("x-url", "https://my-bucket.s3.dualstack.eu-west-1.amazonaws.com/key");
                ("x-signing-scope", "eu-west-1/s3") ]
              ""),
        mkState 1%nat [] 0%nat).
Proof.
  intros this s3meta opts.
  split; [repeat split; discriminate|].
  rewrite (s3_bucket_call this s3meta sample_request opts sample_credentials
             sample_state 0%nat "my-bucket" "/key" "eu-west-1"
             eq_refl eq_refl eq_refl eq_refl eq_refl eq_refl eq_refl eq_refl eq_refl
             ltac:(discriminate) eq_refl eq_refl eq_refl).
  reflexivity.
Defined.

Lemma determineCurrentRegion_agrees_witness :
  let configured := sample_factory (Some "eu-west-1") None None in
  let bare := sample_factory None None None in
  let sqs := sample_metadata "SQS" "sqs" None query in
  let opts := FetchOpts.mk "/" None false None in
  (f_region configured = Some "eu-west-1"
   /\ f_region bare = None
   /\ getCredentials (f_credentials bare) (world sample_state)
      = (Value sample_credentials, 0%nat)
   /\ FetchOpts.region opts = None
   /\ truthy (ApiMetadata.globalEndpoint sqs) = false)
  /\ determineCurrentRegion configured sample_state = (Ok "eu-west-1", sample_state)
  /\ determineCurrentRegion bare sample_state
     = (Throw (Error missing_region_message), sample_state)
  /\ fst (determineCurrentRegion bare sample_state)
     = fst (signing_region bare sqs opts sample_credentials sample_state).
Proof.
  intros configured bare sqs opts.
  split; [repeat split|].
  split; [|split].
  - exact (proj1 (determineCurrentRegion_agrees configured sample_state)
                 "eu-west-1" eq_refl).
  - destruct (determineCurrentRegion_agrees bare sample_state) as [_ [_ [Hhint _]]].
    exact (Hhint sample_credentials 0%nat eq_refl eq_refl).
  - destruct (determineCurrentRegion_agrees bare sample_state) as [_ [_ [_ Hsame]]].
    exact (Hsame sample_credentials 0%nat sqs opts eq_refl eq_refl eq_refl).
Defined.

Lemma ensureCredentialsAvailable_accepts_witness :
  let this := sample_factory None None None in
  let failing := failing_factory None None None in
  (getCredentials (f_credentials this) (world sample_state)
   = (Value sample_credentials, 0%nat)
   /\ awsAccessKeyId sample_credentials <> ""
   /\ getCredentials (f_credentials failing) (world sample_state)
      = (Raise "CredentialsError" "no credentials", 0%nat))
  /\ fst (ensureCredentialsAvailable this sample_state) = Ok tt
  /\ ensureCredentialsAvailable failing sample_state
     = (Throw (Foreign "CredentialsError" "no credentials"), sample_state).
Proof.
  intros this failing.
  assert (Hkey : awsAccessKeyId sample_credentials <> "") by discriminate.
  split; [repeat split; exact Hkey|].
  split.
  - apply (proj1 (ensureCredentialsAvailable_accepts this sample_state)).
    exists sample_credentials, 0%nat. split; [reflexivity | exact Hkey].
  - destruct (ensureCredentialsAvailable_accepts failing sample_state)
      as [_ [_ Hfail]].
    exact (Hfail "CredentialsError" "no credentials" 0%nat eq_refl).
Defined.

(* ================================================================== *)
(** ** The error classifier: recognised shapes and side effects *)

Section Shapes.
Context {P : Platform}.

(** X16.  An XML error document of a recognised shape becomes the service
    error that the shape describes, with one body read and nothing logged:
    for the root [Error], the fields of the root and the request id of its
    [RequestId] child; for [ErrorResponse], the fields of the [Error] child
    (with a required [Type]) and the request id of [RequestId]; for
    [Response], the fields of the first listed error and the request id of
    [RequestID]; for a root whose name ends in [Exception], that name as
    the code beside the [Message] and the request id of the response
    headers. *)
Theorem xml_error_shapes (response : Response) (reqMethod : HttpMethod) (s : State)
        (xml : XmlNode) :
  reqMethod <> HEAD ->
  is_xml_type (Headers_get (resp_headers response) "content-type") = true ->
  readXmlResult (resp_body response) = Value xml ->
  let run := handleErrorResponse response reqMethod s in
  (xml_name xml = "Error" ->
   forall fields,
     xml_strings xml ["Code"; "Message"] ["Token-0"; "HostId"] = Value fields ->
     run = (Throw (AwsServiceError response (strings_object fields)
                                   (xml_first_content xml "RequestId")),
            body_read s))
  /\ (xml_name xml = "ErrorResponse" ->
      forall errNode fields,
        xml_first xml "Error" = Some errNode ->
        xml_strings errNode ["Code"; "Message"; "Type"] [] = Value fields ->
        run = (Throw (AwsServiceError response (strings_object fields)
                                      (xml_first_content xml "RequestId")),
               body_read s))
  /\ (xml_name xml = "Response" ->
      forall first rest,
        map_call (fun errNode => xml_strings errNode ["Code"; "Message"] ["Type"])
                 (xml_getList xml ["Errors"; "Error"])
        = Value (first :: rest) ->
        run = (Throw (AwsServiceError response (strings_object first)
                                      (xml_first_content xml "RequestID")),
               body_read s))
  /\ (endsWith "Exception" (xml_name xml) = true ->
      forall fields,
        xml_strings xml ["Message"] ["Type"] = Value fields ->
        run = (Throw (AwsServiceError
                        response
                        (JObj (("Code", JStr (xml_name xml))
                                 :: map (fun kv => (fst kv, JStr (snd kv))) fields))
                        (option_map JStr (getRequestId (resp_headers response)))),
               body_read s)).
Proof.
  intros Hmethod Hxml Hread run. subst run.
  rewrite (classify_xml response reqMethod s xml Hmethod Hxml Hread).
  unfold handleXmlShapes.
  split; [|split; [|split]].
  - intros Hname fields Hfields. rewrite Hname.
    unfold bind, pure_call. cbn [String.eqb Ascii.eqb Bool.eqb].
    rewrite Hfields. reflexivity.
  - intros Hname errNode fields Hnode Hfields. rewrite Hname.
    unfold bind, pure_call. cbn [String.eqb Ascii.eqb Bool.eqb].
    rewrite Hnode, Hfields. reflexivity.
  - intros Hname first rest Herrors. rewrite Hname.
    unfold bind, pure_call. cbn [String.eqb Ascii.eqb Bool.eqb].
    rewrite Herrors. reflexivity.
  - intros Hends fields Hfields.
    destruct (exception_name_unmatched _ Hends) as [H1 [H2 H3]].
    rewrite H1, H2, H3, Hends.
    unfold bind, pure_call, ret. rewrite Hfields. reflexivity.
Qed.

(** X17.  In the [Response] shape every listed error is extracted before
    the first one is reported: when the first error is well formed and the
    second lacks a required field, the call ends in the extractor's
    exception and the first error is not reported. *)
Theorem xml_response_needs_all_errors (response : Response) (reqMethod : HttpMethod)
        (s : State) (xml : XmlNode) (n1 n2 : XmlNode) (more : list XmlNode)
        (fields : list (string * string)) (name message : string) :
  reqMethod <> HEAD ->
  is_xml_type (Headers_get (resp_headers response) "content-type") = true ->
  readXmlResult (resp_body response) = Value xml ->
  xml_name xml = "Response" ->
  xml_getList xml ["Errors"; "Error"] = n1 :: n2 :: more ->
  xml_strings n1 ["Code"; "Message"] ["Type"] = Value fields ->
  xml_strings n2 ["Code"; "Message"] ["Type"] = Raise name message ->
  handleErrorResponse response reqMethod s
  = (Throw (Foreign name message), body_read s).
Proof.
  intros Hmethod Hxml Hread Hname Hlist H1 H2.
  rewrite (classify_xml response reqMethod s xml Hmethod Hxml Hread).
  unfold handleXmlShapes. rewrite Hname, Hlist.
  unfold bind, pure_call. cbn [String.eqb Ascii.eqb Bool.eqb map_call].
  rewrite H1, H2. reflexivity.
Qed.

End Shapes.

Section JsonShapes.
Context {P : Platform}.

(** X18.  A JSON error document becomes a service error as follows, with
    one body read and nothing logged.  Under [application/json], an object
    whose [Error] is an object with a truthy [Code] gives that [Error]
    object as the error and the [RequestId] field of the document as the
    request id.  Under [application/x-amz-json-1.x], an object with a
    truthy [__type] gives the code [__type] and, as the message, its
    truthy [message], or else its truthy [Message]: the lower-case field
    wins when both are there; the request id is the one of the response
    headers.  The document [null] makes either family end in a
    [TypeError]. *)
Theorem json_error_shapes (response : Response) (reqMethod : HttpMethod) (s : State) :
  reqMethod <> HEAD ->
  let contentType := Headers_get (resp_headers response) "content-type" in
  is_xml_type contentType = false ->
  let run := handleErrorResponse response reqMethod s in
  let fromHeaders := option_map JStr (getRequestId (resp_headers response)) in
  (contentType_is "application/json" contentType = true ->
   forall fields errorFields code,
     JSON_parse (resp_body response) = Value (JObj fields) ->
     assoc "Error" fields = Some (JObj errorFields) ->
     assoc "Code" errorFields = Some code ->
     js_truthy code = true ->
     run = (Throw (AwsServiceError response (JObj errorFields)
                                   (assoc "RequestId" fields)),
            body_read s))
  /\ (contentType_is "application/json" contentType = false ->
      contentType_is "application/x-amz-json-1." contentType = true ->
      forall fields type,
        JSON_parse (resp_body response) = Value (JObj fields) ->
        assoc "__type" fields = Some type ->
        js_truthy type = true ->
        (forall message,
            assoc "message" fields = Some message ->
            js_truthy message = true ->
            run = (Throw (AwsServiceError
                            response
                            (JObj [("Code", type); ("Message", message)])
                            fromHeaders),
                   body_read s))
        /\ (forall Message,
               js_truthy_opt (assoc "message" fields) = false ->
               assoc "Message" fields = Some Message ->
               js_truthy Message = true ->
               run = (Throw (AwsServiceError
                               response
                               (JObj [("Code", type); ("Message", Message)])
                               fromHeaders),
                      body_read s)))
  /\ (contentType_is "application/json" contentType = true
      \/ contentType_is "application/x-amz-json-1." contentType = true ->
      JSON_parse (resp_body response) = Value JNull ->
      exists message,
        run = (Throw (Foreign "TypeError" message), body_read s)).
Proof.
  intros Hmethod contentType Hxml run fromHeaders.
  subst contentType run fromHeaders.
  unfold handleErrorResponse. rewrite (not_HEAD reqMethod Hmethod).
  unfold handleErrorBody. rewrite Hxml.
  split; [|split].
  - intros Hjson fields errorFields code Hparse Herr Hcode Htruthy.
    rewrite Hjson. unfold bind at 1. unfold bind at 1.
    rewrite (classify_json response reqMethod s _ Hmethod Hxml Hparse).
    unfold bind, pure_call. cbn [js_get of_platform].
    rewrite Herr. cbn [js_get_optional js_get of_platform].
    rewrite Hcode. cbn [js_truthy_opt]. rewrite Htruthy. reflexivity.
  - intros Hjson Hamz fields type Hparse Htype Htruthy.
    rewrite Hjson, Hamz. split.
    + intros message Hm Hmt. unfold bind at 1. unfold bind at 1.
      rewrite (classify_json response reqMethod s _ Hmethod Hxml Hparse).
      unfold bind, pure_call. cbn [js_get of_platform].
      rewrite Htype. cbn [js_truthy_opt]. rewrite Htruthy.
      cbn [of_platform]. rewrite Hm. cbn [js_truthy_opt andb].
      rewrite Hmt. reflexivity.
    + intros Message Hm HM HMt. unfold bind at 1. unfold bind at 1.
      rewrite (classify_json response reqMethod s _ Hmethod Hxml Hparse).
      unfold bind, pure_call. cbn [js_get of_platform].
      rewrite Htype. cbn [js_truthy_opt]. rewrite Htruthy.
      cbn [of_platform andb]. rewrite Hm.
      rewrite HM. cbn [js_truthy_opt]. rewrite HMt. reflexivity.
  - intros Hfamily Hparse.
    destruct (contentType_is "application/json" _) eqn:Hjson.
    + eexists. unfold bind at 1. unfold bind at 1.
      rewrite (classify_json response reqMethod s _ Hmethod Hxml Hparse).
      reflexivity.
    + destruct Hfamily as [Hf|Hf]; [discriminate|]. rewrite Hf.
      eexists. unfold bind at 1. unfold bind at 1.
      rewrite (classify_json response reqMethod s _ Hmethod Hxml Hparse).
      reflexivity.
Qed.

End JsonShapes.

Section Effects.
Context {P : Platform}.

Lemma handleXmlShapes_state (response : Response) (xml : XmlNode) (s : State) :
  snd (handleXmlShapes response xml s) = s.
Proof.
  unfold handleXmlShapes, bind, pure_call, throw, ret.
  repeat match goal with
         | |- context [match ?x with _ => _ end] => destruct x eqn:?
         | |- context [if ?b then _ else _] => destruct b eqn:?
         end; reflexivity.
Qed.

Lemma shaped_not_generic (response : Response) (contentType : option string)
      (e : exn) :
  shaped response e -> e <> unrecognizable contentType.
Proof.
  intros [[error [rid ->]]|[n [m ->]]]; discriminate.
Qed.

Ltac split_cases H :=
  repeat first
    [ progress cbn beta iota in H
    | match type of H with
      | context [if ?b then _ else _] => destruct b eqn:?
      | context [match handleXmlShapes ?r ?x ?st with _ => _ end] =>
          let Hst := fresh "Hst" in
          let Hraise := fresh "Hraise" in
          pose proof (handleXmlShapes_state r x st) as Hst;
          pose proof (handleXmlShapes_raises r x st) as Hraise;
          destruct (handleXmlShapes r x st) as [[[]|?] ?];
          cbn [snd] in Hst; subst;
          [clear Hraise | specialize (Hraise _ _ eq_refl)]
      | context [match ?x with _ => _ end] =>
          lazymatch x with
          | context [match _ with _ => _ end] => fail
          | _ => destruct x eqn:?
          end
      end ].

Ltac effects_leaf response :=
  cbn [world console bodyReads];
  split; [reflexivity|];
  split; [first [left; reflexivity | right; reflexivity]|];
  split;
  [ first [ intros _; reflexivity
          | let H := fresh in intros H; exfalso; apply H; reflexivity ]
  | first [ let H := fresh in intros H; discriminate H
          | let H := fresh in
            intros H; exfalso;
            match goal with
            | Hs : shaped response _ |- _ =>
                exact (shaped_not_generic response _ _ Hs H)
            end
          | intros _; split; [reflexivity | eexists; reflexivity] ] ].

(** X19.  Whatever the classifier throws, it has left the outside world
    alone and has consumed the body of the response at most once.  When it
    throws a service error or passes on an exception of a reader, it has
    logged nothing; when it throws the generic failure, it has consumed
    the body once and logged one line. *)
Theorem handleErrorResponse_effects (response : Response) (reqMethod : HttpMethod)
        (s s' : State) (e : exn) :
  handleErrorResponse response reqMethod s = (Throw e, s') ->
  let generic :=
    unrecognizable (Headers_get (resp_headers response) "content-type") in
  world s' = world s
  /\ (bodyReads s' = bodyReads s \/ bodyReads s' = S (bodyReads s))
  /\ (e <> generic -> console s' = console s)
  /\ (e = generic ->
      bodyReads s' = S (bodyReads s)
      /\ exists line, console s' = (console s ++ [line])%list).
Proof.
  intros Hrun generic. subst generic.
  unfold handleErrorResponse, handleErrorBody, bind, Response_json, bind,
    Response_text, pure_call, of_platform, console_log, throw, ret in Hrun.
  split_cases Hrun;
    first [ discriminate Hrun
          | injection Hrun as <- <-; effects_leaf response ].
Qed.

End Effects.

(** *** The classifier on documents of each shape *)

Lemma xml_error_shapes_witness :
  let s3_text := "<Error><Code>NoSuchKey</Code><Message>gone</Message></Error>" in
  let run body :=
    handleErrorResponse (P := errors_platform) (error_response "text/xml" body) POST
                        errors_state in
  let thrown body error requestId : Result unit * State :=
    (Throw (AwsServiceError (error_response "text/xml" body) (JObj error) requestId),
     body_read (P := errors_platform) errors_state) in
  (POST <> HEAD
   /\ is_xml_type (Headers_get (resp_headers (error_response "text/xml" s3_text))
                               "content-type") = true
   /\ readXmlResult (Platform := errors_platform) errorResponse_text
      = Value errorResponse_xml)
  /\ run s3_text
     = thrown s3_text [("Code", JStr "NoSuchKey"); ("Message", JStr "gone")] None
  /\ run errorResponse_text
     = thrown errorResponse_text
              [("Code", JStr "Throttling"); ("Message", JStr "slow down");
               ("Type", JStr "Sender")]
              (Some (JStr "r-1"))
  /\ run response_one_text
     = thrown response_one_text
              [("Code", JStr "InvalidGroup.NotFound"); ("Message", JStr "no group")]
              (Some (JStr "r-2"))
  /\ run exception_text
     = thrown exception_text
              [("Code", JStr "ServiceUnavailableException"); ("Message", JStr "later")]
              (Some (JStr "h-1")).
Proof.
  cbv zeta.
  assert (Hpost : POST <> HEAD) by discriminate.
  split; [repeat split; exact Hpost|].
  split; [|split; [|split]].
  - destruct (xml_error_shapes
                (P := errors_platform)
                (error_response "text/xml"
                   "<Error><Code>NoSuchKey</Code><Message>gone</Message></Error>")
                POST errors_state
                (SampleNode "Error" None [leaf "Code" "NoSuchKey"; leaf "Message" "gone"])
                Hpost eq_refl eq_refl) as (H & _).
    exact (H eq_refl _ eq_refl).
  - destruct (xml_error_shapes
                (P := errors_platform) (error_response "text/xml" errorResponse_text)
                POST errors_state errorResponse_xml Hpost eq_refl eq_refl)
      as (_ & H & _).
    exact (H eq_refl _ _ eq_refl eq_refl).
  - destruct (xml_error_shapes
                (P := errors_platform) (error_response "text/xml" response_one_text)
                POST errors_state response_one_xml Hpost eq_refl eq_refl)
      as (_ & _ & H & _).
    exact (H eq_refl _ _ eq_refl).
  - destruct (xml_error_shapes
                (P := errors_platform) (error_response "text/xml" exception_text)
                POST errors_state exception_xml Hpost eq_refl eq_refl)
      as (_ & _ & _ & H).
    exact (H eq_refl _ eq_refl).
Defined.

Lemma xml_response_needs_all_errors_witness :
  let response := error_response "text/xml" response_text in
  let first := SampleNode "Error" None
                 [leaf "Code" "InvalidGroup.NotFound"; leaf "Message" "no group"] in
  let second := SampleNode "Error" None [leaf "Code" "Other"] in
  (POST <> HEAD
   /\ is_xml_type (Headers_get (resp_headers response) "content-type") = true
   /\ readXmlResult (Platform := errors_platform) (resp_body response) = Value response_xml
   /\ xml_name (Platform := errors_platform) response_xml = "Response"
   /\ xml_getList (Platform := errors_platform) response_xml ["Errors"; "Error"]
      = [first; second]
   /\ xml_strings (Platform := errors_platform) first ["Code"; "Message"] ["Type"]
      = Value [("Code", "InvalidGroup.NotFound"); ("Message", "no group")]
   /\ xml_strings (Platform := errors_platform) second ["Code"; "Message"] ["Type"]
      = Raise "Error" "missing required field Message")
  /\ handleErrorResponse (P := errors_platform) response POST errors_state
     = (Throw (Foreign "Error" "missing required field Message"),
        body_read (P := errors_platform) errors_state).
Proof.
  cbv zeta.
  assert (Hpost : POST <> HEAD) by discriminate.
  split; [repeat split; exact Hpost|].
  exact (xml_response_needs_all_errors
           (P := errors_platform) (error_response "text/xml" response_text) POST
           errors_state response_xml
           (SampleNode "Error" None
              [leaf "Code" "InvalidGroup.NotFound"; leaf "Message" "no group"])
           (SampleNode "Error" None [leaf "Code" "Other"]) []
           [("Code", "InvalidGroup.NotFound"); ("Message", "no group")]
           "Error" "missing required field Message"
           Hpost eq_refl eq_refl eq_refl eq_refl eq_refl eq_refl).
Defined.

Lemma json_error_shapes_witness :
  let run contentType body :=
    handleErrorResponse (P := errors_platform) (error_response contentType body) POST
                        errors_state in
  let thrown contentType body error requestId : Result unit * State :=
    (Throw (AwsServiceError (error_response contentType body) (JObj error) requestId),
     body_read (P := errors_platform) errors_state) in
  (POST <> HEAD
   /\ is_xml_type (Some "application/json") = false
   /\ is_xml_type (Some "application/x-amz-json-1.1") = false)
  /\ run "application/json" json_error_text
     = thrown "application/json" json_error_text
              [("Code", JStr "AccessDenied"); ("Message", JStr "no")] (Some (JStr "r-3"))
  /\ run "application/x-amz-json-1.1" amz_both_text
     = thrown "application/x-amz-json-1.1" amz_both_text
              [("Code", JStr "ThrottlingException"); ("Message", JStr "slow")]
              (Some (JStr "h-1"))
  /\ run "application/x-amz-json-1.0" amz_upper_text
     = thrown "application/x-amz-json-1.0" amz_upper_text
              [("Code", JStr "ThrottlingException"); ("Message", JStr "SLOW")]
              (Some (JStr "h-1"))
  /\ exists message,
      run "application/json" "null"
      = (Throw (Foreign "TypeError" message),
         body_read (P := errors_platform) errors_state).
Proof.
  cbv zeta.
  assert (Hpost : POST <> HEAD) by discriminate.
  split; [repeat split; exact Hpost|].
  split; [|split; [|split]].
  - destruct (json_error_shapes
                (P := errors_platform) (error_response "application/json" json_error_text)
                POST errors_state Hpost eq_refl) as (H & _).
    exact (H eq_refl _ _ _ eq_refl eq_refl eq_refl eq_refl).
  - destruct (json_error_shapes
                (P := errors_platform)
                (error_response "application/x-amz-json-1.1" amz_both_text)
                POST errors_state Hpost eq_refl) as (_ & H & _).
    destruct (H eq_refl eq_refl _ _ eq_refl eq_refl eq_refl) as (Hlower & _).
    exact (Hlower _ eq_refl eq_refl).
  - destruct (json_error_shapes
                (P := errors_platform)
                (error_response "application/x-amz-json-1.0" amz_upper_text)
                POST errors_state Hpost eq_refl) as (_ & H & _).
    destruct (H eq_refl eq_refl _ _ eq_refl eq_refl eq_refl) as (_ & Hupper).
    exact (Hupper _ eq_refl eq_refl eq_refl).
  - destruct (json_error_shapes
                (P := errors_platform) (error_response "application/json" "null")
                POST errors_state Hpost eq_refl) as (_ & _ & H).
    exact (H (or_introl eq_refl) eq_refl).
Defined.

Lemma handleErrorResponse_effects_witness :
  let response := error_response "text/xml" "<Response><Errors/></Response>" in
  let generic := Error "Unrecognizable error response of type text/xml" in
  let s' := read_and_logged (P := errors_platform) errors_state
                            [LogStr "Error DOM:"; LogStr "Response"] in
  handleErrorResponse (P := errors_platform) response POST errors_state
  = (Throw generic, s')
  /\ world s' = world errors_state
  /\ (bodyReads s' = bodyReads errors_state \/ bodyReads s' = S (bodyReads errors_state))
  /\ (generic <> generic -> console s' = console errors_state)
  /\ (generic = generic ->
      bodyReads s' = S (bodyReads errors_state)
      /\ exists line, console s' = (console errors_state ++ [line])%list).
Proof.
  cbv zeta. split; [reflexivity|].
  exact (handleErrorResponse_effects
           (P := errors_platform)
           (error_response "text/xml" "<Response><Errors/></Response>") POST errors_state
           _ _ eq_refl).
Defined.

(* ================================================================== *)
(** ** The XML client *)

Section XmlWire.
Context {P : Platform}.

(** X20.  Every call through the XML client that reaches the shared
    dispatch carries the caller's headers followed by [accept: text/xml].
    A string body, also the empty one, is sent as its encoding with
    [content-type: text/xml] appended; raw bytes are sent as they are, with
    no content type; any other truthy body ends the call with the
    client's own error before anything is sent; any other falsy body is
    dropped.  A service of the [rest-xml] protocol gets this client. *)
Theorem XmlServiceClient_contract (signedFetcher : SigningFetcher)
        (config : ApiRequestConfig.t) :
  let base := (config_headers config ++ [("accept", "text/xml")])%list in
  let run := XmlServiceClient_performRequest signedFetcher config in
  (forall text,
      ApiRequestConfig.body config = Some (BodyValue (JStr text)) ->
      run = BaseServiceClient_performRequest
              signedFetcher config (base ++ [("content-type", "text/xml")])%list
              (Some (TextEncoder_encode text)))
  /\ (forall b,
         ApiRequestConfig.body config = Some (BodyBytes b) ->
         run = BaseServiceClient_performRequest signedFetcher config base (Some b))
  /\ (forall b,
         ApiRequestConfig.body config = Some b ->
         (forall text, b <> BodyValue (JStr text)) ->
         (forall bytes, b <> BodyBytes bytes) ->
         (Body_truthy b = true ->
          forall s, run s = (Throw (Error "TODO: non-string body to XmlServiceClient"), s))
         /\ (Body_truthy b = false ->
             run = BaseServiceClient_performRequest signedFetcher config base None))
  /\ (ApiRequestConfig.body config = None ->
      run = BaseServiceClient_performRequest signedFetcher config base None)
  /\ (Headers_get (config_headers config) "accept" = None ->
      Headers_get base "accept" = Some "text/xml")
  /\ (forall apiMetadata,
         ApiMetadata.protocol apiMetadata = rest_xml ->
         performRequest (wrapServiceClient apiMetadata signedFetcher) config = run).
Proof.
  intros base run. subst base run.
  unfold XmlServiceClient_performRequest, Headers_append.
  split; [|split; [|split; [|split; [|split]]]].
  - intros text Hbody. rewrite Hbody. reflexivity.
  - intros b Hbody. rewrite Hbody. reflexivity.
  - intros b Hbody Hstring Hbytes. rewrite Hbody.
    destruct b as [p|bytes|v].
    + split; [intros _ s; reflexivity | discriminate].
    + exfalso. exact (Hbytes bytes eq_refl).
    + destruct v as [|flag|n|text|items|fields];
        try (exfalso; exact (Hstring text eq_refl));
        (split; intros Htruth; cbn [Body_truthy] in Htruth |- *; rewrite Htruth;
         [intros s; reflexivity | reflexivity]).
  - intros Hbody. rewrite Hbody. reflexivity.
  - intros Hnone. rewrite (Headers_get_app_none _ _ _ Hnone). reflexivity.
  - intros apiMetadata Hprotocol. unfold wrapServiceClient. rewrite Hprotocol.
    reflexivity.
Qed.

End XmlWire.

Lemma XmlServiceClient_contract_witness :
  let config body := ApiRequestConfig.mk "PutBucketTagging" (Some PUT) None None None
                       false None None body None None in
  (ApiRequestConfig.body (config (Some (BodyValue (JStr "")))) = Some (BodyValue (JStr ""))
   /\ Body_truthy (BodyValue (JNum 7)) = true
   /\ Headers_get (config_headers (config None)) "accept" = None)
  /\ XmlServiceClient_performRequest echoing (config (Some (BodyValue (JStr ""))))
                                     sample_state
     = (Ok (mkResponse 200 "OK"
              [("accept", "text/xml"); ("content-type", "text/xml");
               ("content-length", "0")] ""),
        sample_state)
  /\ XmlServiceClient_performRequest echoing (config (Some (BodyValue (JNum 7))))
                                     sample_state
     = (Throw (Error "TODO: non-string body to XmlServiceClient"), sample_state)
  /\ Headers_get (config_headers (config None) ++ [("accept", "text/xml")])%list "accept"
     = Some "text/xml".
Proof.
  cbv zeta. split; [repeat split|].
  split; [|split].
  - destruct (XmlServiceClient_contract
                echoing
                (ApiRequestConfig.mk "PutBucketTagging" (Some PUT) None None None
                                     false None None (Some (BodyValue (JStr "")))
                                     None None)) as (H & _).
    rewrite (H "" eq_refl). reflexivity.
  - destruct (XmlServiceClient_contract
                echoing
                (ApiRequestConfig.mk "PutBucketTagging" (Some PUT) None None None
                                     false None None (Some (BodyValue (JNum 7)))
                                     None None)) as (_ & _ & H & _).
    destruct (H (BodyValue (JNum 7)) eq_refl) as (Hthrow & _);
      [discriminate | discriminate |].
    exact (Hthrow eq_refl sample_state).
  - destruct (XmlServiceClient_contract
                echoing
                (ApiRequestConfig.mk "PutBucketTagging" (Some PUT) None None None
                                     false None None None None None))
      as (_ & _ & _ & _ & H & _).
    exact (H eq_refl).
Defined.
